(** * Online Restaurant: the rule engine and the knowledge-base responder

    A shallow embedding of [utils.py] (VIP promotion, complaint escalation,
    the read-only helpers), of the handlers of [app.py] (cart, placement,
    bidding, assignment, status update, complaints, hiring and firing) and
    of [ai_service.py] (local knowledge-base search, feedback), over the
    relational schema of [models.py].

    Conventions.
    - A table is the list of its rows in rowid order; [db.session.get] is the
      first row with the given primary key; an attribute assignment on an ORM
      object is an UPDATE of the rows with that primary key.
    - A call returns an [outcome]: the value returned together with the
      committed database, or the exception raised together with the database
      as the rollback leaves it.  The only statement that a well-typed
      database can refuse is the INSERT of a second [Blacklist] row for one
      account ([user_id] is declared [unique=True]).
    - A handler behind [login_required] sees the account of the session
      only if that account is active: models.py declares the column
      [is_active], and [is_authenticated] returns it.
    - Floating-point columns (balances, order totals) are kept abstract: the
      class [Amount] lists the operations the code applies to them.
    - A Python [str] is a [string] whose characters are the code points below
      256. *)

From Stdlib Require Import List String Ascii ZArith QArith Bool Lia Sorted.
From Stdlib Require Import Permutation.
From Stdlib Require Import Numbers.DecimalString.
Import ListNotations.

Open Scope string_scope.
Open Scope list_scope.
Open Scope Z_scope.

(** ** Amounts of money (Python floats, SQL REAL) *)

Class Amount := {
  amount : Type;
  amount_zero : amount;                        (* 0.0, and the int 0 of sum() *)
  amount_100 : amount;                         (* 100.0 *)
  amount_ltb : amount -> amount -> bool;       (* x < y *)
  amount_truthy : amount -> bool;              (* bool(x) *)
  amount_sub : amount -> amount -> amount;     (* x - y *)
  amount_mul : amount -> Z -> amount;          (* price * quantity *)
  py_sum : list amount -> amount;              (* sum(...) over a generator *)
  sql_sum : list amount -> amount              (* SUM(...) over at least one row *)
}.

(** Exact rational amounts, used to run the model on concrete data. *)
#[export] Instance QAmount : Amount := {|
  amount := Q;
  amount_zero := 0%Q;
  amount_100 := 100%Q;
  amount_ltb := fun x y => negb (Qle_bool y x);
  amount_truthy := fun x => negb (Qeq_bool x 0%Q);
  amount_sub := Qminus;
  amount_mul := fun x n => Qmult x (inject_Z n);
  py_sum := fun l => fold_left Qplus l 0%Q;
  sql_sum := fun l => fold_left Qplus l 0%Q
|}.

(** ** Python and SQL helpers *)

Definition Z_to_string (n : Z) : string := NilZero.string_of_int (Z.to_int n).

(** [s[:n]] for [n >= 0]. *)
Definition str_prefix (n : nat) (s : string) : string := substring 0 n s.

(** [x in l] for a list of strings. *)
Definition str_in (x : string) (l : list string) : bool :=
  existsb (String.eqb x) l.

(** [x in l] for a list of integers (SQL [IN]). *)
Definition Z_in (x : Z) (l : list Z) : bool := existsb (Z.eqb x) l.

Definition option_Z_eqb (a : option Z) (b : Z) : bool :=
  match a with Some x => x =? b | None => false end.

(** [a == b] for a string or None [a] and a string [b]. *)
Definition opt_str_eqb (a : option string) (b : string) : bool :=
  match a with Some x => String.eqb x b | None => false end.

(** The next value of an INTEGER PRIMARY KEY: one more than the largest. *)
Definition next_id (ids : list Z) : Z := 1 + fold_right Z.max 0 ids.

(** UPDATE ... WHERE. *)
Definition update_where {R : Type} (p : R -> bool) (f : R -> R) (t : list R) : list R :=
  map (fun r => if p r then f r else r) t.

(** Number of rows satisfying a filter. *)
Definition count_where {R : Type} (p : R -> bool) (t : list R) : Z :=
  Z.of_nat (List.length (filter p t)).

(** ** Python strings *)

(** [c.isspace()] for a code point below 256. *)
Definition is_space (c : ascii) : bool :=
  let n := N_of_ascii c in
  (((9 <=? n) && (n <=? 13)) || ((28 <=? n) && (n <=? 32))
   || (n =? 133) || (n =? 160))%N.

(** [c.lower()] for a code point below 256. *)
Definition lower_char (c : ascii) : ascii :=
  let n := N_of_ascii c in
  if (((65 <=? n) && (n <=? 90))
      || ((192 <=? n) && (n <=? 222) && negb (n =? 215)))%N
  then ascii_of_N (n + 32)
  else c.

(** [s.lower()]. *)
Fixpoint lower (s : string) : string :=
  match s with
  | EmptyString => EmptyString
  | String c r => String (lower_char c) (lower r)
  end.

Definition is_empty (s : string) : bool :=
  match s with EmptyString => true | String _ _ => false end.

Definition cons_nonempty (w : string) (ws : list string) : list string :=
  if is_empty w then ws else w :: ws.

(** The word that starts [s] (empty when [s] starts with whitespace) and
    the words after it. *)
Fixpoint split_go (s : string) : string * list string :=
  match s with
  | EmptyString => (EmptyString, [])
  | String c r =>
    let (w, ws) := split_go r in
    if is_space c then (EmptyString, cons_nonempty w ws) else (String c w, ws)
  end.

(** [s.split()]: the maximal runs of non-whitespace characters. *)
Definition split (s : string) : list string :=
  let (w, ws) := split_go s in cons_nonempty w ws.

Definition cons_char (c : ascii) (pieces : list string) : list string :=
  match pieces with
  | [] => [String c EmptyString]
  | p :: ps => String c p :: ps
  end.

Definition is_newline (c : ascii) : bool := (N_of_ascii c =? 10)%N.

(** [s.split('\n\n')]: the leftmost, non-overlapping blank-line separators. *)
Fixpoint split_paragraphs (s : string) : list string :=
  match s with
  | EmptyString => [EmptyString]
  | String c r =>
    if is_newline c then
      match r with
      | String c' r' =>
        if is_newline c' then EmptyString :: split_paragraphs r'
        else cons_char c (split_paragraphs r)
      | EmptyString => [String c EmptyString]
      end
    else cons_char c (split_paragraphs r)
  end.

(** [w in s]. *)
Fixpoint contains (w s : string) : bool :=
  prefix w s ||
  match s with
  | EmptyString => false
  | String _ r => contains w r
  end.

Fixpoint lstrip (s : string) : string :=
  match s with
  | EmptyString => EmptyString
  | String c r => if is_space c then lstrip r else s
  end.

Fixpoint rstrip (s : string) : string :=
  match s with
  | EmptyString => EmptyString
  | String c r =>
    let r' := rstrip r in
    if is_space c && is_empty r' then EmptyString else String c r'
  end.

(** [s.strip()]. *)
Definition strip (s : string) : string := rstrip (lstrip s).

(** [sep.join(l)]. *)
Fixpoint join (sep : string) (l : list string) : string :=
  match l with
  | [] => EmptyString
  | [x] => x
  | x :: r => (x ++ sep ++ join sep r)%string
  end.

(** [s.endswith('.')]. *)
Fixpoint endswith_dot (s : string) : bool :=
  match s with
  | EmptyString => false
  | String c EmptyString => (N_of_ascii c =? 46)%N
  | String _ r => endswith_dot r
  end.

Definition is_sentence_end (c : ascii) : bool :=
  let n := N_of_ascii c in ((n =? 46) || (n =? 33) || (n =? 63))%N.

Definition starts_with_space (s : string) : bool :=
  match s with
  | EmptyString => false
  | String c _ => is_space c
  end.

(** [re.split(r'[.!?]\s+', s)].  [skipping] holds while the whitespace of a
    separator is being consumed; the result is the piece that starts at [s]
    followed by the later pieces. *)
Fixpoint re_split_go (skipping : bool) (s : string) : string * list string :=
  match s with
  | EmptyString => (EmptyString, [])
  | String c r =>
    if skipping && is_space c then re_split_go true r
    else if is_sentence_end c && starts_with_space r then
      let (p, ps) := re_split_go true r in (EmptyString, p :: ps)
    else
      let (p, ps) := re_split_go false r in (String c p, ps)
  end.

Definition re_split_sentences (s : string) : list string :=
  let (p, ps) := re_split_go false s in p :: ps.

(** ** The keyword search of ai_service.py *)

Definition stop_words : list string :=
  ["what"; "is"; "the"; "a"; "an"; "how"; "do"; "does"; "can"; "i"; "you";
   "we"; "are"; "to"; "for"; "of"; "with"; "on"; "at"; "by"; "from"; "as";
   "about"].

Definition significant (w : string) : bool :=
  negb (str_in w stop_words) && (2 <? String.length w)%nat.

(** The tokens the search counts: the significant words of the lowered
    query, or all its words when none is significant. *)
Definition query_words (query : string) : list string :=
  let query_lower := lower query in
  match filter significant (split query_lower) with
  | [] => split query_lower
  | ws => ws
  end.

(** [sum(1 for word in query_words if word in text.lower())]. *)
Definition matches (words : list string) (text : string) : Z :=
  count_where (fun word => contains word (lower text)) words.

(** The [(matches, text.strip())] pairs of the texts with a match, in order. *)
Fixpoint score_all (words : list string) (texts : list string) : list (Z * string) :=
  match texts with
  | [] => []
  | t :: rest =>
    let m := matches words t in
    if 0 <? m then (m, strip t) :: score_all words rest
    else score_all words rest
  end.

Fixpoint insert_desc (x : Z * string) (l : list (Z * string)) : list (Z * string) :=
  match l with
  | [] => [x]
  | y :: r => if fst x <? fst y then y :: insert_desc x r else x :: l
  end.

(** [l.sort(reverse=True, key=lambda x: x[0])]: decreasing scores, equal
    scores in their original order. *)
Fixpoint sort_desc (l : list (Z * string)) : list (Z * string) :=
  match l with
  | [] => []
  | x :: r => insert_desc x (sort_desc r)
  end.

Definition best_matches (words : list string) (content : string) : list (Z * string) :=
  sort_desc (score_all words (split_paragraphs content)).

Definition sentence_matches (words : list string) (content : string) : list (Z * string) :=
  sort_desc (score_all words (re_split_sentences content)).

(** The sentence-by-sentence fallback. *)
Definition search_sentences (words : list string) (content : string) : option string :=
  match sentence_matches words content with
  | [] => None
  | (top :: _) as ranked =>
    if 2 <=? fst top then
      let result := join ". " (map snd (firstn 3 ranked)) in
      Some (if endswith_dot result then result else (result ++ ".")%string)
    else None
  end.

(** [content] is the text of the knowledge-base file, [None] when the file
    is missing or unreadable.  With [n] tokens, an integer score [m] passes
    [m >= n * 0.5] when [n <= 2 * m] and [m >= n * 0.3] when [3 * n <= 10 * m]. *)
Definition search_local_knowledge_base (content : option string) (query : string)
    : option string :=
  match content with
  | None => None
  | Some content =>
    let words := query_words query in
    let n := Z.of_nat (List.length words) in
    match best_matches words content with
    | top_match :: rest =>
      if n <=? 2 * fst top_match then
        match rest with
        | second :: _ =>
          if 3 * n <=? 10 * fst second
          then Some (snd top_match ++ String "010" (String "010" (snd second)))%string
          else Some (snd top_match)
        | [] => Some (snd top_match)
        end
      else search_sentences words content
    | [] => search_sentences words content
    end
  end.

(** Some character of [s] satisfies [p]; all do. *)
Fixpoint any_char (p : ascii -> bool) (s : string) : bool :=
  match s with
  | EmptyString => false
  | String c r => p c || any_char p r
  end.

Fixpoint all_chars (p : ascii -> bool) (s : string) : bool :=
  match s with
  | EmptyString => true
  | String c r => p c && all_chars p r
  end.

Definition not_space (c : ascii) : bool := negb (is_space c).

(** A word: not empty, no whitespace. *)
Definition is_word (w : string) : Prop :=
  w <> EmptyString /\ all_chars not_space w = true.

(** The answer built from the ranked paragraphs: the top one, followed
    after a blank line by the second when it scores at least 0.3 per token. *)
Definition top_paragraphs (n : Z) (top : Z * string) (rest : list (Z * string))
    : string :=
  match rest with
  | second :: _ =>
    if 3 * n <=? 10 * fst second
    then (snd top ++ String "010" (String "010" (snd second)))%string
    else snd top
  | [] => snd top
  end.

(** Decreasing scores. *)
Definition ranked (l : list (Z * string)) : Prop :=
  StronglySorted (fun a b => fst b <= fst a) l.

(** [p] occurs in [s] as a run of consecutive characters. *)
Definition substring_of (p s : string) : Prop :=
  exists a b, s = (a ++ p ++ b)%string.

(** The pieces a separator cuts [s] into: the first starts [s], the others
    occur in it. *)
Definition pieces_of (ps : list string) (s : string) : Prop :=
  match ps with
  | [] => False
  | p0 :: rest =>
    (exists b, s = (p0 ++ b)%string) /\ Forall (fun p => substring_of p s) rest
  end.

(** The outcome of the HTTP exchange of [query_huggingface_api]. *)
Inductive hf_json : Type :=
| JListGenerated (text : string)    (* [{"generated_text": text, ...}, ...] *)
| JListString (text : string)       (* [text, ...] *)
| JDictGenerated (text : string)    (* {"generated_text": text, ...} *)
| JDictAnswer (text : string)       (* {"answer": text, ...} *)
| JOther (repr : string).           (* anything else, with its str() *)

Inductive http_outcome : Type :=
| HttpResponse (status_code : Z) (body : hf_json)
| HttpTimeout
| HttpRequestException
| HttpException (message : string).

Definition query_huggingface_api (api_key : string)
    (post : string -> http_outcome) (query : string) : string :=
  if is_empty api_key then
    "I couldn't find information about that in our knowledge base. For advanced AI responses, please configure a Hugging Face API key in the settings. Alternatively, you can ask questions about our menu, ordering process, delivery times, or restaurant services."
  else
    let prompt := ("Restaurant customer service question: " ++ query
                   ++ ". Answer helpfully and concisely.")%string in
    match post prompt with
    | HttpResponse status_code body =>
      if status_code =? 200 then
        match body with
        | JListGenerated text => text
        | JListString text => text
        | JDictGenerated text => text
        | JDictAnswer text => text
        | JOther repr => repr
        end
      else ("I'm sorry, I encountered an error. Please try again later. (Error: "
            ++ Z_to_string status_code ++ ")")%string
    | HttpTimeout => "I'm sorry, the service timed out. Please try again."
    | HttpRequestException =>
      "I'm sorry, I couldn't process your request. Please contact support."
    | HttpException message => ("An error occurred: " ++ message)%string
    end.

Definition no_api_key_answer (query : string) : string :=
  ("I couldn't find specific information about '" ++ query
   ++ "' in our knowledge base. The local AI service (Hugging Face) is not configured. You can ask me about:"
   ++ String "010" (String "010" "- Our menu items and prices")
   ++ String "010" "- How to place orders"
   ++ String "010" "- Delivery information"
   ++ String "010" "- VIP status and benefits"
   ++ String "010" "- How to file complaints or compliments"
   ++ String "010" "- Chef ratings"
   ++ String "010" (String "010"
        "Or contact our support team for more specific questions."))%string.

(** The answer text and its source tag, before the interaction is stored. *)
Definition choose_answer (content : option string) (api_key : string)
    (post : string -> http_outcome) (query : string) : string * string :=
  match search_local_knowledge_base content query with
  | Some (String c r) => (String c r, "local")
  | _ =>
    if negb (is_empty api_key)
    then (query_huggingface_api api_key post query, "llm")
    else (no_api_key_answer query, "local")
  end.

(** [a / b] on Python integers, as the exact quotient. *)
Definition true_div (a b : Z) : Q := (inject_Z a / inject_Z b)%Q.

(** ** The schema of models.py

    Only the columns read or written by the modelled code are kept. *)

Section Model.
Context {A : Amount}.

Record User := mkUser {
  u_id : Z;
  u_role : string;
  u_balance : amount;
  u_is_active : bool
}.

Record Order := mkOrder {
  o_id : Z;
  o_customer_id : Z;
  o_delivery_person_id : option Z;
  o_status : string;
  o_total_amount : amount;
  o_delivery_address : string;
  o_notes : string
}.

Record OrderItem := mkOrderItem {
  oi_id : Z;
  oi_order_id : Z;
  oi_menu_item_id : Z;
  oi_quantity : Z;
  oi_subtotal : amount
}.

Record Complaint := mkComplaint {
  c_id : Z;
  c_filed_by_id : Z;
  c_filed_against_id : Z;
  c_order_id : option Z;
  c_description : string;
  c_status : string;
  c_manager_decision : option string;
  c_manager_notes : option string;
  c_reviewed_at : option Z
}.

Record Warning := mkWarning {
  w_id : Z;
  w_user_id : Z;
  w_reason : string;
  w_complaint_id : option Z
}.

Record Blacklist := mkBlacklist {
  bl_id : Z;
  bl_user_id : Z;          (* unique=True *)
  bl_reason : string
}.

Record DeliveryBid := mkDeliveryBid {
  bid_id : Z;
  bid_order_id : Z;
  bid_delivery_person_id : Z;
  bid_amount : option amount;
  bid_status : string
}.

Record KnowledgeBaseEntry := mkKnowledgeBaseEntry {
  kb_id : Z;
  kb_question : string;
  kb_answer : string;
  kb_rating : Q;            (* the average, as the exact quotient *)
  kb_rating_count : Z;
  kb_flagged : bool
}.

Record AIResponseRating := mkAIResponseRating {
  ar_id : Z;
  ar_kb_entry_id : option Z;
  ar_user_id : option Z;
  ar_query : string;
  ar_response : string;
  ar_rating : Z;
  ar_source : string
}.

Record Store := mkStore {
  users : list User;
  orders : list Order;
  order_items : list OrderItem;
  complaints : list Complaint;
  warnings : list Warning;
  blacklist : list Blacklist;
  delivery_bids : list DeliveryBid;
  knowledge_base_entries : list KnowledgeBaseEntry;
  ai_response_ratings : list AIResponseRating
}.

Definition set_users (db : Store) (t : list User) : Store :=
  mkStore t (orders db) (order_items db) (complaints db) (warnings db)
          (blacklist db) (delivery_bids db) (knowledge_base_entries db)
          (ai_response_ratings db).

Definition set_orders (db : Store) (t : list Order) : Store :=
  mkStore (users db) t (order_items db) (complaints db) (warnings db)
          (blacklist db) (delivery_bids db) (knowledge_base_entries db)
          (ai_response_ratings db).

Definition set_order_items (db : Store) (t : list OrderItem) : Store :=
  mkStore (users db) (orders db) t (complaints db) (warnings db)
          (blacklist db) (delivery_bids db) (knowledge_base_entries db)
          (ai_response_ratings db).

Definition set_complaints (db : Store) (t : list Complaint) : Store :=
  mkStore (users db) (orders db) (order_items db) t (warnings db)
          (blacklist db) (delivery_bids db) (knowledge_base_entries db)
          (ai_response_ratings db).

Definition set_warnings (db : Store) (t : list Warning) : Store :=
  mkStore (users db) (orders db) (order_items db) (complaints db) t
          (blacklist db) (delivery_bids db) (knowledge_base_entries db)
          (ai_response_ratings db).

Definition set_blacklist (db : Store) (t : list Blacklist) : Store :=
  mkStore (users db) (orders db) (order_items db) (complaints db) (warnings db)
          t (delivery_bids db) (knowledge_base_entries db)
          (ai_response_ratings db).

Definition set_delivery_bids (db : Store) (t : list DeliveryBid) : Store :=
  mkStore (users db) (orders db) (order_items db) (complaints db) (warnings db)
          (blacklist db) t (knowledge_base_entries db)
          (ai_response_ratings db).

Definition set_knowledge_base_entries (db : Store) (t : list KnowledgeBaseEntry) : Store :=
  mkStore (users db) (orders db) (order_items db) (complaints db) (warnings db)
          (blacklist db) (delivery_bids db) t (ai_response_ratings db).

Definition set_ai_response_ratings (db : Store) (t : list AIResponseRating) : Store :=
  mkStore (users db) (orders db) (order_items db) (complaints db) (warnings db)
          (blacklist db) (delivery_bids db) (knowledge_base_entries db) t.

(** ** Session, commit and exceptions *)

Inductive exn : Type :=
| IntegrityError      (* a UNIQUE constraint refused the flush *)
| AttributeError      (* an attribute of None *)
| NotFound.           (* get_or_404 *)

Inductive outcome (R : Type) : Type :=
| Returned (r : R) (db : Store)
| Raised (e : exn) (db : Store).
Arguments Returned {R} r db.
Arguments Raised {R} e db.

(** The database a call leaves behind. *)
Definition db_after {R : Type} (o : outcome R) : Store :=
  match o with Returned _ db => db | Raised _ db => db end.

(** Flushing [db.session.add(Blacklist(...))]: the UNIQUE constraint on
    [blacklist.user_id] refuses a second row for the same account. *)
Definition insert_blacklist (db : Store) (b : Blacklist) : option Store :=
  if existsb (fun x => bl_user_id x =? bl_user_id b) (blacklist db)
  then None
  else Some (set_blacklist db (blacklist db ++ [b])).

(** [db.session.get(Model, id)]. *)
Definition get_user (db : Store) (id : Z) : option User :=
  find (fun u => u_id u =? id) (users db).

Definition get_order (db : Store) (id : Z) : option Order :=
  find (fun o => o_id o =? id) (orders db).

Definition get_complaint (db : Store) (id : Z) : option Complaint :=
  find (fun c => c_id c =? id) (complaints db).

Definition get_kb_entry (db : Store) (id : Z) : option KnowledgeBaseEntry :=
  find (fun e => kb_id e =? id) (knowledge_base_entries db).

Definition get_ai_response_rating (db : Store) (id : Z) : option AIResponseRating :=
  find (fun r => ar_id r =? id) (ai_response_ratings db).

Definition set_role (r : string) (u : User) : User :=
  mkUser (u_id u) r (u_balance u) (u_is_active u).

Definition set_is_active (b : bool) (u : User) : User :=
  mkUser (u_id u) (u_role u) (u_balance u) b.

Definition set_balance (x : amount) (u : User) : User :=
  mkUser (u_id u) (u_role u) x (u_is_active u).

(** [user.attr = v] on the ORM object of primary key [id]. *)
Definition update_user (db : Store) (id : Z) (f : User -> User) : Store :=
  set_users db (update_where (fun u => u_id u =? id) f (users db)).

(** ** utils.py *)

Definition delivered_orders (db : Store) (user_id : Z) : list Order :=
  filter (fun o => (o_customer_id o =? user_id) && (o_status o =? "Delivered")%string)
         (orders db).

(** [func.sum(Order.total_amount)...scalar()]: NULL over no row. *)
Definition sum_delivered (db : Store) (user_id : Z) : option amount :=
  match delivered_orders db user_id with
  | [] => None
  | l => Some (sql_sum (map o_total_amount l))
  end.

(** [x or 0.0]. *)
Definition or_zero (x : option amount) : amount :=
  match x with
  | Some v => if amount_truthy v then v else amount_zero
  | None => amount_zero
  end.

Definition approved_complaints (db : Store) (order_ids : list Z) : Z :=
  count_where (fun c => match c_order_id c with
                        | Some oid => Z_in oid order_ids
                        | None => false
                        end && (c_status c =? "Approved")%string)
              (complaints db).

Definition calculate_vip_status (db : Store) (user_id : Z) : outcome bool :=
  match get_user db user_id with
  | None => Returned false db
  | Some user =>
    if str_in (u_role user) ["Chef"; "DeliveryPerson"; "Manager"] then Returned false db
    else if (u_role user =? "VIP")%string then Returned true db
    else
      let total_spent := or_zero (sum_delivered db user_id) in
      if amount_ltb amount_100 total_spent then
        Returned true (update_user db (u_id user) (set_role "VIP"))
      else
        let delivered := delivered_orders db user_id in
        if (3 <=? Z.of_nat (List.length delivered))
           && (approved_complaints db (map o_id delivered) =? 0)
        then Returned true (update_user db (u_id user) (set_role "VIP"))
        else Returned false db
  end.

Definition review (status : string) (decision notes : option string) (now : Z)
    (c : Complaint) : Complaint :=
  mkComplaint (c_id c) (c_filed_by_id c) (c_filed_against_id c) (c_order_id c)
              (c_description c) status decision notes (Some now).

Definition warning_count (db : Store) (user_id : Z) : Z :=
  count_where (fun w => w_user_id w =? user_id) (warnings db).

(** [now] is the value of [datetime.utcnow()]; [manager_decision] is what the
    request form holds under 'decision', [None] when it holds nothing.  The
    query that counts the warnings flushes the session first, so the count
    includes the warning just added. *)
Definition process_complaint_decision (db : Store) (now : Z) (complaint_id : Z)
    (manager_decision manager_notes : option string) : outcome bool :=
  match get_complaint db complaint_id with
  | None => Returned false db
  | Some complaint =>
    let status := if opt_str_eqb manager_decision "Approved"
                  then "Approved" else "Rejected" in
    let s1 := set_complaints db
                (update_where (fun c => c_id c =? c_id complaint)
                              (review status manager_decision manager_notes now)
                              (complaints db)) in
    if opt_str_eqb manager_decision "Rejected" then
      let warning :=
        mkWarning (next_id (map w_id (warnings s1)))
                  (c_filed_by_id complaint)
                  ("Rejected complaint: " ++ str_prefix 100 (c_description complaint))%string
                  (Some complaint_id) in
      let s2 := set_warnings s1 (warnings s1 ++ [warning]) in
      let count := warning_count s2 (c_filed_by_id complaint) in
      let filer := get_user s2 (c_filed_by_id complaint) in
      if 3 <=? count then
        let blacklist_entry :=
          mkBlacklist (next_id (map bl_id (blacklist s2)))
                      (c_filed_by_id complaint)
                      "3 warnings issued for rejected complaints" in
        match filer with
        | None => Raised AttributeError db
        | Some f =>
          match insert_blacklist s2 blacklist_entry with
          | None => Raised IntegrityError db
          | Some s3 => Returned true (update_user s3 (u_id f) (set_is_active false))
          end
        end
      else if 2 <=? count then
        match filer with
        | None => Raised AttributeError db
        | Some f =>
          if (u_role f =? "VIP")%string
          then Returned true (update_user s2 (u_id f) (set_role "Customer"))
          else Returned true s2
        end
      else Returned true s2
    else Returned true s1
  end.

Definition get_user_warning_count (db : Store) (user_id : Z) : Z :=
  warning_count db user_id.

Definition is_user_blacklisted (db : Store) (user_id : Z) : bool :=
  match find (fun b => bl_user_id b =? user_id) (blacklist db) with
  | Some _ => true
  | None => false
  end.

Definition can_user_place_order (db : Store) (user_id : Z) : bool * option string :=
  if is_user_blacklisted db user_id
  then (false, Some "You are blacklisted and cannot place orders.")
  else match get_user db user_id with
       | None => (false, Some "Your account is not active.")
       | Some user =>
         if negb (u_is_active user)
         then (false, Some "Your account is not active.")
         else (true, None)
       end.

(** ** app.py: the order handlers

    A handler takes the database, the user id held by the login session
    (if any) and the request data; it returns the flashed message and the
    redirect target. *)

Record Response := mkResponse {
  flash_message : option string;
  flash_category : string;
  redirect : string
}.

(** [session['cart']]: a dict keyed by [str(menu_id)].  Inside a request it
    is a Python dict, in insertion order; a request that assigns to
    [session['cart']] leaves it in the session cookie, which is written with
    sorted keys (see [store_cart]). *)
Record CartItem := mkCartItem {
  ci_name : string;
  ci_price : amount;
  ci_quantity : Z;
  ci_image : string
}.

Definition Cart := list (Z * CartItem).

(** [current_user] where [current_user.is_authenticated] holds, which is
    what [login_required] lets through: the row that [load_user] gets for
    the session's user id, if the account is active.  The column
    [is_active] of models.py replaces [UserMixin.is_active], and
    [is_authenticated] returns [is_active]: a deactivated account with a
    session is answered like an anonymous request. *)
Definition current_user (db : Store) (session_user : option Z) : option User :=
  match session_user with
  | Some id =>
    match get_user db id with
    | Some user => if u_is_active user then Some user else None
    | None => None
    end
  | None => None
  end.

(** What [login_required] answers to an anonymous request. *)
Definition unauthorized : Response :=
  mkResponse (Some "Please log in to access this page.") "message" "login".

(** What [role_required] answers to a role outside [roles]. *)
Definition forbidden : Response :=
  mkResponse (Some "You do not have permission to access this page.") "danger" "index".

Definition is_manager (u : User) : bool := (u_role u =? "Manager")%string.
Definition is_chef (u : User) : bool := (u_role u =? "Chef")%string.
Definition is_delivery (u : User) : bool := (u_role u =? "DeliveryPerson")%string.
Definition is_customer (u : User) : bool := str_in (u_role u) ["Customer"; "VIP"].

(** [sum(item['price'] * item['quantity'] for item in cart.values())]. *)
Definition cart_total (cart : Cart) : amount :=
  py_sum (map (fun kv => amount_mul (ci_price (snd kv)) (ci_quantity (snd kv))) cart).

Fixpoint new_order_items (next : Z) (order_id : Z) (cart : Cart) : list OrderItem :=
  match cart with
  | [] => []
  | (menu_id, item_data) :: rest =>
    mkOrderItem next order_id menu_id (ci_quantity item_data)
                (amount_mul (ci_price item_data) (ci_quantity item_data))
    :: new_order_items (next + 1) order_id rest
  end.

Definition place_order (db : Store) (session_user : option Z) (cart : Cart)
    (delivery_address notes : string) : outcome (Response * Cart) :=
  match current_user db session_user with
  | None => Returned (unauthorized, cart) db
  | Some cu =>
    if negb (str_in (u_role cu) ["Customer"; "VIP"]) then Returned (forbidden, cart) db
    else
      let (can_order, error_msg) := can_user_place_order db (u_id cu) in
      if negb can_order then
        Returned (mkResponse error_msg "danger" "view_cart", cart) db
      else
        match cart with
        | [] => Returned (mkResponse (Some "Your cart is empty.") "warning" "view_cart", cart) db
        | _ :: _ =>
          let total := cart_total cart in
          if amount_ltb (u_balance cu) total then
            Returned (mkResponse (Some "Insufficient balance. Please deposit money first.")
                                 "danger" "view_cart", cart) db
          else
            let order := mkOrder (next_id (map o_id (orders db))) (u_id cu) None
                                 "Pending" total delivery_address notes in
            let s1 := set_orders db (orders db ++ [order]) in
            let s2 := set_order_items s1
                        (order_items s1 ++
                         new_order_items (next_id (map oi_id (order_items s1)))
                                         (o_id order) cart) in
            let s3 := update_user s2 (u_id cu)
                                  (set_balance (amount_sub (u_balance cu) total)) in
            let s4 := db_after (calculate_vip_status s3 (u_id cu)) in
            Returned (mkResponse
                        (Some ("Order #" ++ Z_to_string (o_id order)
                               ++ " placed successfully!")%string)
                        "success" "order_history", []) s4
        end
  end.

(** Truth value of a nullable integer column. *)
Definition truthy_id (x : option Z) : bool :=
  match x with
  | Some v => negb (v =? 0)
  | None => false
  end.

Definition delivery_bid (db : Store) (session_user : option Z) (order_id : Z)
    (amount_offered : option amount) : outcome Response :=
  match current_user db session_user with
  | None => Returned unauthorized db
  | Some cu =>
    if negb (str_in (u_role cu) ["DeliveryPerson"]) then Returned forbidden db
    else
      match get_order db order_id with
      | None => Raised NotFound db
      | Some order =>
        if truthy_id (o_delivery_person_id order) then
          Returned (mkResponse (Some "This order already has a delivery person assigned.")
                               "warning" "available_orders") db
        else
          let bid := mkDeliveryBid (next_id (map bid_id (delivery_bids db)))
                                   (o_id order) (u_id cu) amount_offered "Pending" in
          Returned (mkResponse (Some "Bid placed successfully!") "success" "available_orders")
                   (set_delivery_bids db (delivery_bids db ++ [bid]))
      end
  end.

Definition set_status (st : string) (o : Order) : Order :=
  mkOrder (o_id o) (o_customer_id o) (o_delivery_person_id o) st
          (o_total_amount o) (o_delivery_address o) (o_notes o).

Definition set_delivery_person (dp : option Z) (o : Order) : Order :=
  mkOrder (o_id o) (o_customer_id o) dp (o_status o)
          (o_total_amount o) (o_delivery_address o) (o_notes o).

Definition set_bid_status (st : string) (b : DeliveryBid) : DeliveryBid :=
  mkDeliveryBid (bid_id b) (bid_order_id b) (bid_delivery_person_id b) (bid_amount b) st.

Definition update_order (db : Store) (id : Z) (f : Order -> Order) : Store :=
  set_orders db (update_where (fun o => o_id o =? id) f (orders db)).

(** [DeliveryBid.query.filter_by(order_id=..., delivery_person_id=...).first()]. *)
Definition first_bid (db : Store) (order_id delivery_person_id : Z) : option DeliveryBid :=
  find (fun b => (bid_order_id b =? order_id)
                 && (bid_delivery_person_id b =? delivery_person_id))
       (delivery_bids db).

Definition is_pending_on (order_id : Z) (b : DeliveryBid) : bool :=
  (bid_order_id b =? order_id) && (bid_status b =? "Pending")%string.

Definition assign_order (db : Store) (session_user : option Z) (order_id : Z)
    (delivery_person_id : Z) : outcome Response :=
  match current_user db session_user with
  | None => Returned unauthorized db
  | Some cu =>
    if negb (str_in (u_role cu) ["Manager"]) then Returned forbidden db
    else
      match get_order db order_id with
      | None => Raised NotFound db
      | Some order =>
        let s1 := update_order db (o_id order)
                    (fun o => set_status "Out for Delivery"
                                (set_delivery_person (Some delivery_person_id) o)) in
        let s2 := match first_bid s1 (o_id order) delivery_person_id with
                  | Some bid =>
                    set_delivery_bids s1
                      (update_where (fun b => bid_id b =? bid_id bid)
                                    (set_bid_status "Accepted") (delivery_bids s1))
                  | None => s1
                  end in
        let s3 := set_delivery_bids s2
                    (update_where (is_pending_on (o_id order))
                                  (set_bid_status "Rejected") (delivery_bids s2)) in
        Returned (mkResponse (Some "Order assigned successfully.") "success"
                             "manager_dashboard") s3
      end
  end.

Definition settable_statuses : list string :=
  ["Pending"; "Preparing"; "Ready"; "Out for Delivery"; "Delivered"].

Definition can_update (cu : User) (order : Order) : bool :=
  if is_manager cu then true
  else if is_chef cu && str_in (o_status order) ["Pending"; "Preparing"] then true
  else if is_delivery cu && option_Z_eqb (o_delivery_person_id order) (u_id cu) then true
  else false.

Definition status_redirect (cu : User) : string :=
  if is_delivery cu then "my_deliveries"
  else if is_chef cu then "chef_dashboard"
  else "manager_dashboard".

(** [new_status] is [request.form.get('status')]. *)
Definition update_order_status (db : Store) (session_user : option Z) (order_id : Z)
    (new_status : option string) : outcome Response :=
  match current_user db session_user with
  | None => Returned unauthorized db
  | Some cu =>
    match get_order db order_id with
    | None => Raised NotFound db
    | Some order =>
      match new_status with
      | Some st =>
        if can_update cu order && str_in st settable_statuses then
          Returned (mkResponse (Some ("Order status updated to " ++ st ++ ".")%string)
                               "success" (status_redirect cu))
                   (update_order db (o_id order) (set_status st))
        else
          Returned (mkResponse (Some "You do not have permission to update this order.")
                               "danger" (status_redirect cu)) db
      | None =>
        Returned (mkResponse (Some "You do not have permission to update this order.")
                             "danger" (status_redirect cu)) db
      end
    end
  end.

(** [decision] is [request.form.get('decision')], [notes] is
    [request.form.get('notes', '')]. *)
Definition review_complaint (db : Store) (session_user : option Z) (now : Z)
    (complaint_id : Z) (decision : option string) (notes : string) : outcome Response :=
  match current_user db session_user with
  | None => Returned unauthorized db
  | Some cu =>
    if negb (str_in (u_role cu) ["Manager"]) then Returned forbidden db
    else
      match process_complaint_decision db now complaint_id decision (Some notes) with
      | Raised e db' => Raised e db'
      | Returned _ db' =>
        match decision with
        | None => Raised AttributeError db'
        | Some d =>
          Returned (mkResponse (Some ("Complaint " ++ lower d ++ "ed.")%string)
                               "success" "manager_dashboard") db'
        end
      end
  end.

(** The POST branch of [file_complaint]. *)
Definition file_complaint (db : Store) (session_user : option Z)
    (filed_against_id : Z) (order_id : option Z) (description : string)
    : outcome Response :=
  match current_user db session_user with
  | None => Returned unauthorized db
  | Some cu =>
    let complaint :=
      mkComplaint (next_id (map c_id (complaints db))) (u_id cu) filed_against_id
                  order_id description "Pending" None None None in
    Returned (mkResponse (Some "Complaint filed successfully. Manager will review it.")
                         "success" "my_complaints")
             (set_complaints db (complaints db ++ [complaint]))
  end.

(** ** ai_service.py: storing and rating an answer *)

Record AIReply := mkAIReply {
  answer : string;
  source : string;
  rating_id : Z
}.

Definition get_ai_response (db : Store) (content : option string) (api_key : string)
    (post : string -> http_outcome) (query : string) (user_id : option Z)
    : outcome AIReply :=
  let (answer, source) := choose_answer content api_key post query in
  let (kb_entry, s1) :=
    if (source =? "local")%string then
      match find (fun e => (kb_question e =? query)%string) (knowledge_base_entries db) with
      | Some e => (Some e, db)
      | None =>
        let e := mkKnowledgeBaseEntry (next_id (map kb_id (knowledge_base_entries db)))
                                      query answer 0%Q 0 false in
        (Some e, set_knowledge_base_entries db (knowledge_base_entries db ++ [e]))
      end
    else (None, db) in
  let rating_record :=
    mkAIResponseRating (next_id (map ar_id (ai_response_ratings s1)))
                       (option_map kb_id kb_entry) user_id query answer 0 source in
  Returned (mkAIReply answer source (ar_id rating_record))
           (set_ai_response_ratings s1 (ai_response_ratings s1 ++ [rating_record])).

Definition set_rating (v : Z) (r : AIResponseRating) : AIResponseRating :=
  mkAIResponseRating (ar_id r) (ar_kb_entry_id r) (ar_user_id r) (ar_query r)
                     (ar_response r) v (ar_source r).

(** [rating_record.rating = rating_value] is committed first.  For the
    value 0 on a record linked to an entry that exists, the code sets
    [kb_entry.flagged = True] on the ORM object and goes on to
    [AIResponseRating.query.filter(...)]; but models.py declares a column
    named [query] in [AIResponseRating], which replaces the query property
    of the model class, and a column has no [filter]: the call raises
    AttributeError before the next commit, and the flag is lost at the
    rollback.  The lines that recompute the average are never reached. *)
Definition rate_ai_response (db : Store) (rating_id : Z) (rating_value : Z)
    : outcome bool :=
  if (rating_value <? 0) || (5 <? rating_value) then Returned false db
  else
    match get_ai_response_rating db rating_id with
    | None => Returned false db
    | Some rating_record =>
      let s1 := set_ai_response_ratings db
                  (update_where (fun r => ar_id r =? ar_id rating_record)
                                (set_rating rating_value) (ai_response_ratings db)) in
      if (rating_value =? 0) && truthy_id (ar_kb_entry_id rating_record) then
        match ar_kb_entry_id rating_record with
        | None => Returned true s1
        | Some kb =>
          match get_kb_entry s1 kb with
          | None => Returned true s1
          | Some kb_entry => Raised AttributeError s1
          end
        end
      else Returned true s1
    end.

(** ** utils.py: the read-only helpers *)

(** [float(total)] for the sum of the Delivered orders, 0.0 over none. *)
Definition get_user_total_spending (db : Store) (user_id : Z) : amount :=
  or_zero (sum_delivered db user_id).

Definition get_user_order_count (db : Store) (user_id : Z) : Z :=
  Z.of_nat (List.length (delivered_orders db user_id)).

(** ** app.py: the cart and the staff handler

    The menu table, which no modelled handler writes, and the username
    column, which only messages read, are passed on their own. *)

Record Menu := mkMenu {
  m_id : Z;
  m_name : string;
  m_price : amount;
  m_image_path : option string;
  m_is_available : bool
}.

(** [cart.get(str(menu_id))]. *)
Definition cart_line (cart : Cart) (menu_id : Z) : option CartItem :=
  option_map snd (find (fun kv => fst kv =? menu_id) cart).

(** [str(menu_id) in cart]. *)
Definition in_cart (cart : Cart) (menu_id : Z) : bool :=
  existsb (fun kv => fst kv =? menu_id) cart.

Definition add_quantity (quantity : Z) (kv : Z * CartItem) : Z * CartItem :=
  (fst kv, mkCartItem (ci_name (snd kv)) (ci_price (snd kv))
                      (ci_quantity (snd kv) + quantity) (ci_image (snd kv))).

(** [image_path or 'default.jpg']. *)
Definition image_or_default (image_path : option string) : string :=
  match image_path with
  | Some (String c r) => String c r
  | _ => "default.jpg"
  end.

(** The session cookie is JSON written with sorted keys: the cart that a
    request stores comes back with its lines in the order of their keys,
    which are the strings [str(menu_id)].  A cart that comes out of the
    cookie is in that order already, and writing it again leaves it as it
    is. *)
Definition key_le (a b : Z * CartItem) : Prop :=
  String.leb (Z_to_string (fst a)) (Z_to_string (fst b)) = true.

Fixpoint insert_line (kv : Z * CartItem) (cart : Cart) : Cart :=
  match cart with
  | [] => [kv]
  | x :: rest =>
    if String.leb (Z_to_string (fst kv)) (Z_to_string (fst x))
    then kv :: cart
    else x :: insert_line kv rest
  end.

Definition store_cart (cart : Cart) : Cart := fold_right insert_line [] cart.

(** The dict after [cart[str(menu_id)]['quantity'] += quantity], or after
    the assignment of a new line. *)
Definition add_line (menu_item : Menu) (cart : Cart) (menu_id quantity : Z) : Cart :=
  if in_cart cart menu_id
  then update_where (fun kv => fst kv =? menu_id) (add_quantity quantity) cart
  else cart ++ [(menu_id,
                 mkCartItem (m_name menu_item) (m_price menu_item) quantity
                            (image_or_default (m_image_path menu_item)))].

(** [quantity] is [int(request.form.get('quantity', 1))]; a session without
    a cart holds the empty cart.  The second component is the cart that the
    session holds after the request. *)
Definition add_to_cart (menu : list Menu) (cart : Cart) (menu_id quantity : Z)
    : Response * Cart :=
  match find (fun m => m_id m =? menu_id) menu with
  | None => (mkResponse (Some "Menu item not found.") "danger" "index", cart)
  | Some menu_item =>
    (mkResponse (Some (m_name menu_item ++ " added to cart.")%string) "success" "index",
     store_cart (add_line menu_item cart menu_id quantity))
  end.

(** The dict after [cart.pop(str(menu_id), None)]. *)
Definition pop_line (cart : Cart) (menu_id : Z) : Cart :=
  filter (fun kv => negb (fst kv =? menu_id)) cart.

(** Behind [login_required]. *)
Definition remove_from_cart (db : Store) (session_user : option Z) (cart : Cart)
    (menu_id : Z) : Response * Cart :=
  match current_user db session_user with
  | None => (unauthorized, cart)
  | Some _ =>
    (mkResponse (Some "Item removed from cart.") "info" "view_cart",
     store_cart (pop_line cart menu_id))
  end.

(** [action] is [request.form.get('action')]; [username] is the username
    column. *)
Definition hire_fire (username : Z -> string) (db : Store) (session_user : option Z)
    (user_id : Z) (action : option string) : outcome Response :=
  match current_user db session_user with
  | None => Returned unauthorized db
  | Some cu =>
    if negb (str_in (u_role cu) ["Manager"]) then Returned forbidden db
    else
      match get_user db user_id with
      | None => Raised NotFound db
      | Some user =>
        if opt_str_eqb action "fire" then
          Returned (mkResponse (Some (username (u_id user) ++ " has been fired.")%string)
                               "success" "hr_management")
                   (update_user db (u_id user) (set_is_active false))
        else if opt_str_eqb action "hire" then
          Returned (mkResponse
                      (Some (username (u_id user) ++ " has been hired/reactivated.")%string)
                      "success" "hr_management")
                   (update_user db (u_id user) (set_is_active true))
        else Returned (mkResponse None "" "hr_management") db
      end
  end.

(** ** models.py: the average rating of a menu item

    [ratings] holds the values of [self.ratings.all()]. *)
Definition average_rating (ratings : list Z) : Q :=
  match ratings with
  | [] => 0%Q
  | _ :: _ => true_div (fold_right Z.add 0 ratings) (Z.of_nat (List.length ratings))
  end.

(** ** Sequences of requests *)

Inductive request : Type :=
| PlaceOrder (session_user : option Z) (cart : Cart) (delivery_address notes : string)
| DeliveryBidOn (session_user : option Z) (order_id : Z) (amount_offered : option amount)
| AssignOrder (session_user : option Z) (order_id delivery_person_id : Z)
| UpdateOrderStatus (session_user : option Z) (order_id : Z) (new_status : option string)
| FileComplaint (session_user : option Z) (filed_against_id : Z) (order_id : option Z)
                (description : string)
| ReviewComplaint (session_user : option Z) (now : Z) (complaint_id : Z)
                  (decision : option string) (notes : string)
| AskAI (content : option string) (api_key : string) (post : string -> http_outcome)
        (query : string) (user_id : option Z)
| RateAI (rating_id rating_value : Z).

(** The database after one request. *)
Definition handle (db : Store) (r : request) : Store :=
  match r with
  | PlaceOrder su cart addr notes => db_after (place_order db su cart addr notes)
  | DeliveryBidOn su oid amt => db_after (delivery_bid db su oid amt)
  | AssignOrder su oid dp => db_after (assign_order db su oid dp)
  | UpdateOrderStatus su oid st => db_after (update_order_status db su oid st)
  | FileComplaint su against oid descr => db_after (file_complaint db su against oid descr)
  | ReviewComplaint su now cid dec notes => db_after (review_complaint db su now cid dec notes)
  | AskAI content key post q uid => db_after (get_ai_response db content key post q uid)
  | RateAI rid v => db_after (rate_ai_response db rid v)
  end.

(** The database after a sequence of requests, served one after the other. *)
Definition run (db : Store) (rs : list request) : Store := fold_left handle rs db.

(** ** Properties of a database *)

(** Number of Blacklist rows of an account. *)
Definition blacklist_entries (db : Store) (user_id : Z) : Z :=
  count_where (fun b => bl_user_id b =? user_id) (blacklist db).

(** Number of Accepted bids on an order. *)
Definition accepted_bids (db : Store) (order_id : Z) : Z :=
  count_where (fun b => (bid_order_id b =? order_id)
                        && (bid_status b =? "Accepted")%string)
              (delivery_bids db).



Definition blacklist_unique (db : Store) : Prop :=
  forall user_id, blacklist_entries db user_id <= 1.

(** A response that reports a failure: a message flashed as an error or a
    warning. *)
Definition is_failure (r : Response) : Prop :=
  flash_message r <> None
  /\ (flash_category r = "danger" \/ flash_category r = "warning").

Definition insufficient_balance : Response :=
  mkResponse (Some "Insufficient balance. Please deposit money first.")
             "danger" "view_cart".

(** Who may update the status of an order, in the words of the contract. *)
Definition authorized (cu : User) (order : Order) : Prop :=
  u_role cu = "Manager"
  \/ (u_role cu = "Chef"
      /\ (o_status order = "Pending" \/ o_status order = "Preparing"))
  \/ (u_role cu = "DeliveryPerson"
      /\ o_delivery_person_id order = Some (u_id cu)).

Definition permission_denied (cu : User) : Response :=
  mkResponse (Some "You do not have permission to update this order.")
             "danger" (status_redirect cu).

(** What an assignment makes of a bid: the chosen bid is Accepted, a bid
    still Pending on the order is Rejected, any other bid stays as it is. *)
Definition assigned_bid (order_id : Z) (chosen : option DeliveryBid)
    (b : DeliveryBid) : DeliveryBid :=
  if match chosen with
     | Some c => bid_id b =? bid_id c
     | None => false
     end
  then set_bid_status "Accepted" b
  else if is_pending_on order_id b then set_bid_status "Rejected" b
  else b.

(** The bid that an assignment accepts, in the words of the contract: the
    first bid in the table that the delivery person placed on the order, if
    there is one. *)
Definition chosen_bid (db : Store) (order_id dp : Z) (chosen : option DeliveryBid)
    : Prop :=
  match chosen with
  | Some c =>
    exists before after,
      delivery_bids db = before ++ c :: after
      /\ bid_order_id c = order_id /\ bid_delivery_person_id c = dp
      /\ forall b, In b before ->
           ~ (bid_order_id b = order_id /\ bid_delivery_person_id b = dp)
  | None =>
    forall b, In b (delivery_bids db) ->
      ~ (bid_order_id b = order_id /\ bid_delivery_person_id b = dp)
  end.

(** ** How the tables change

    What a request may not change in a row it keeps. *)

Definition same_user (u u' : User) : Prop := u_id u' = u_id u.

Definition same_order (o o' : Order) : Prop :=
  o_id o' = o_id o /\ o_customer_id o' = o_customer_id o
  /\ o_total_amount o' = o_total_amount o
  /\ o_delivery_address o' = o_delivery_address o /\ o_notes o' = o_notes o.

Definition same_complaint (c c' : Complaint) : Prop :=
  c_id c' = c_id c /\ c_filed_by_id c' = c_filed_by_id c
  /\ c_filed_against_id c' = c_filed_against_id c
  /\ c_order_id c' = c_order_id c /\ c_description c' = c_description c.

Definition same_bid (b b' : DeliveryBid) : Prop :=
  bid_id b' = bid_id b /\ bid_order_id b' = bid_order_id b
  /\ bid_delivery_person_id b' = bid_delivery_person_id b
  /\ bid_amount b' = bid_amount b.

Definition same_entry (e e' : KnowledgeBaseEntry) : Prop :=
  kb_id e' = kb_id e /\ kb_question e' = kb_question e /\ kb_answer e' = kb_answer e.

Definition same_rating (r r' : AIResponseRating) : Prop :=
  ar_id r' = ar_id r /\ ar_kb_entry_id r' = ar_kb_entry_id r
  /\ ar_user_id r' = ar_user_id r /\ ar_query r' = ar_query r
  /\ ar_response r' = ar_response r /\ ar_source r' = ar_source r.

(** A table [t] has grown into [t']: the rows of [t] are kept, in place and
    up to [keep], and the rows after them carry keys that are new and
    distinct. *)
Definition table_grows {R : Type} (key : R -> Z) (keep : R -> R -> Prop)
    (t t' : list R) : Prop :=
  exists kept added,
    t' = kept ++ added
    /\ Forall2 keep t kept
    /\ NoDup (map key added)
    /\ forall r, In r added -> ~ In (key r) (map key t).

Definition evolves (db db' : Store) : Prop :=
  table_grows u_id same_user (users db) (users db')
  /\ table_grows o_id same_order (orders db) (orders db')
  /\ table_grows oi_id eq (order_items db) (order_items db')
  /\ table_grows c_id same_complaint (complaints db) (complaints db')
  /\ table_grows w_id eq (warnings db) (warnings db')
  /\ table_grows bl_id eq (blacklist db) (blacklist db')
  /\ table_grows bid_id same_bid (delivery_bids db) (delivery_bids db')
  /\ table_grows kb_id same_entry (knowledge_base_entries db)
                 (knowledge_base_entries db')
  /\ table_grows ar_id same_rating (ai_response_ratings db) (ai_response_ratings db').

(** No primary key occurs twice. *)
Definition pk_unique (db : Store) : Prop :=
  NoDup (map u_id (users db))
  /\ NoDup (map o_id (orders db))
  /\ NoDup (map oi_id (order_items db))
  /\ NoDup (map c_id (complaints db))
  /\ NoDup (map w_id (warnings db))
  /\ NoDup (map bl_id (blacklist db))
  /\ NoDup (map bid_id (delivery_bids db))
  /\ NoDup (map kb_id (knowledge_base_entries db))
  /\ NoDup (map ar_id (ai_response_ratings db)).

(** The line items of an order. *)
Definition items_of (db : Store) (order_id : Z) : list OrderItem :=
  filter (fun i => oi_order_id i =? order_id) (order_items db).

(** Every order totals the subtotals of its line items, and every line item
    belongs to an order. *)
Definition totals_consistent (db : Store) : Prop :=
  (forall o, In o (orders db) ->
     o_total_amount o = py_sum (map oi_subtotal (items_of db (o_id o))))
  /\ (forall i, In i (order_items db) -> In (oi_order_id i) (map o_id (orders db))).

(** No order and no line item is added; the orders keep what [same_order]
    lists. *)
Definition orders_kept (db db' : Store) : Prop :=
  Forall2 same_order (orders db) (orders db')
  /\ order_items db' = order_items db.

(** Every stored feedback value is one of 0..5. *)
Definition ratings_in_range (db : Store) : Prop :=
  forall r, In r (ai_response_ratings db) -> 0 <= ar_rating r <= 5.

(** No two entries of the knowledge base hold the same question. *)
Definition questions_unique (db : Store) : Prop :=
  NoDup (map kb_question (knowledge_base_entries db)).

(** The knowledge base and the feedback records are as they were. *)
Definition kb_untouched (db db' : Store) : Prop :=
  knowledge_base_entries db' = knowledge_base_entries db
  /\ ai_response_ratings db' = ai_response_ratings db.

(** A stored average is 0 with count 0, or lies in 1..5 with a count of at
    least 1. *)
Definition average_ok (e : KnowledgeBaseEntry) : Prop :=
  (kb_rating e = 0%Q /\ kb_rating_count e = 0)
  \/ ((1 <= kb_rating e)%Q /\ (kb_rating e <= 5)%Q /\ 1 <= kb_rating_count e).

Definition averages_in_range (db : Store) : Prop :=
  ratings_in_range db
  /\ forall e, In e (knowledge_base_entries db) -> average_ok e.

(** ** Roles and privileges *)

(** The roles that [calculate_vip_status] leaves alone: the staff. *)
Definition is_staff (u : User) : bool :=
  str_in (u_role u) ["Chef"; "DeliveryPerson"; "Manager"].

(** The job of an account: its role when that is a staff role. *)
Definition job (u : User) : option string :=
  if is_staff u then Some (u_role u) else None.

Definition same_job (u u' : User) : Prop := u_id u' = u_id u /\ job u' = job u.

Definition same_activity (u u' : User) : Prop :=
  u_id u' = u_id u /\ u_is_active u' = u_is_active u.

Definition same_courier (o o' : Order) : Prop :=
  o_id o' = o_id o /\ o_delivery_person_id o' = o_delivery_person_id o.

(** The login session a request comes with; the two endpoints of the
    assistant take none. *)
Definition actor (r : request) : option Z :=
  match r with
  | PlaceOrder su _ _ _ => su
  | DeliveryBidOn su _ _ => su
  | AssignOrder su _ _ => su
  | UpdateOrderStatus su _ _ => su
  | FileComplaint su _ _ _ => su
  | ReviewComplaint su _ _ _ _ => su
  | AskAI _ _ _ _ _ => None
  | RateAI _ _ => None
  end.

(** The request comes with the session of a manager of [db] whom the login
    check lets through. *)
Definition from_manager (db : Store) (r : request) : bool :=
  match current_user db (actor r) with
  | Some cu => is_manager cu
  | None => false
  end.

(** What only the request of a manager changes: the warnings, the Blacklist,
    the activity of an account, a complaint or a bid on file, the delivery
    person of an order. *)
Definition unsanctioned (db db' : Store) : Prop :=
  warnings db' = warnings db
  /\ blacklist db' = blacklist db
  /\ Forall2 same_activity (users db) (users db')
  /\ (exists added, complaints db' = complaints db ++ added)
  /\ (exists added, delivery_bids db' = delivery_bids db ++ added)
  /\ table_grows o_id same_courier (orders db) (orders db').

(** The promotion rule, in the words of its contract: (a) the Delivered
    orders of the account sum to more than 100.0 ... *)
Definition spending_exceeds_100 (db : Store) (user_id : Z) : bool :=
  match delivered_orders db user_id with
  | [] => false
  | l => amount_ltb amount_100 (sql_sum (map o_total_amount l))
  end.

Definition has_approved_complaint (db : Store) (order_id : Z) : bool :=
  existsb (fun c => option_Z_eqb (c_order_id c) order_id
                    && (c_status c =? "Approved")%string)
          (complaints db).

(** ... or (b) it has at least 3 Delivered orders, none of them with an
    Approved complaint. *)
Definition three_clean_deliveries (db : Store) (user_id : Z) : bool :=
  (3 <=? List.length (delivered_orders db user_id))%nat
  && forallb (fun o => negb (has_approved_complaint db (o_id o)))
             (delivered_orders db user_id).

Definition promotion_rule (db : Store) (user_id : Z) : bool :=
  spending_exceeds_100 db user_id || three_clean_deliveries db user_id.

(** The same rule stated without the queries of the code.  [s] holds the
    rows of [t] that satisfy [P], in the order of [t]. *)
Inductive selected {R : Type} (P : R -> Prop) : list R -> list R -> Prop :=
| selected_nil : selected P [] []
| selected_keep (r : R) (t s : list R) :
    P r -> selected P t s -> selected P (r :: t) (r :: s)
| selected_skip (r : R) (t s : list R) :
    ~ P r -> selected P t s -> selected P (r :: t) s.

(** The Delivered orders of an account: the rows of the orders table whose
    customer is the account and whose status is Delivered. *)
Definition delivered_of (db : Store) (user_id : Z) (delivered : list Order) : Prop :=
  selected (fun o => o_customer_id o = user_id /\ o_status o = "Delivered")
           (orders db) delivered.

(** An order with an Approved complaint against it. *)
Definition approved_against (db : Store) (o : Order) : Prop :=
  exists c, In c (complaints db)
            /\ c_order_id c = Some (o_id o) /\ c_status c = "Approved".

(** (a) There are Delivered orders and their totals sum to more than 100.0,
    or (b) there are at least 3 of them, none with an Approved complaint. *)
Definition promotion_due (db : Store) (delivered : list Order) : Prop :=
  (delivered <> []
   /\ amount_ltb amount_100 (sql_sum (map o_total_amount delivered)) = true)
  \/ (3 <= Z.of_nat (List.length delivered)
      /\ forall o, In o delivered -> ~ approved_against db o).

(** The statuses of an order, as models.py lists them. *)
Definition order_statuses : list string :=
  ["Pending"; "Preparing"; "Ready"; "Out for Delivery"; "Delivered"; "Cancelled"].

(** The other enumerated columns, as models.py lists them. *)
Definition roles : list string :=
  ["Visitor"; "Customer"; "VIP"; "Chef"; "DeliveryPerson"; "Manager"].

Definition complaint_statuses : list string := ["Pending"; "Approved"; "Rejected"].

Definition bid_statuses : list string := ["Pending"; "Accepted"; "Rejected"].

(** Every enumerated column holds one of the values listed for it. *)
Definition columns_listed (db : Store) : Prop :=
  Forall (fun u => In (u_role u) roles) (users db)
  /\ Forall (fun o => In (o_status o) order_statuses) (orders db)
  /\ Forall (fun c => In (c_status c) complaint_statuses) (complaints db)
  /\ Forall (fun b => In (bid_status b) bid_statuses) (delivery_bids db).

End Model.

Arguments Returned {A R} r db.
Arguments Raised {A R} e db.

(** ** Concrete databases, over exact rational amounts *)

Definition Q_Store : Type := @Store QAmount.

Definition empty_db : Q_Store := mkStore [] [] [] [] [] [] [] [] [].

(** A manager, a chef, two delivery persons and a customer whose balance
    is 5. *)
Definition staff_users : list (@User QAmount) :=
  [ mkUser 1 "Manager" 0%Q true;
    mkUser 2 "Chef" 0%Q true;
    mkUser 3 "DeliveryPerson" 0%Q true;
    mkUser 4 "DeliveryPerson" 0%Q true;
    mkUser 5 "Customer" 5%Q true ].

Definition restaurant_db : Q_Store := set_users empty_db staff_users.

(** A Visitor account with one Delivered order of 150. *)
Definition visitor_db : Q_Store :=
  set_orders
    (set_users empty_db [mkUser 1 "Visitor" 0%Q true])
    [mkOrder 1 1 None "Delivered" 150%Q "" ""].

(** A Customer with three Delivered orders of 20 each and a Rejected
    complaint on one of them. *)
Definition regular_db : Q_Store :=
  set_complaints
    (set_orders
       (set_users empty_db [mkUser 1 "Customer" 0%Q true; mkUser 2 "Chef" 0%Q true])
       [mkOrder 1 1 None "Delivered" 20%Q "" "";
        mkOrder 2 1 None "Delivered" 20%Q "" "";
        mkOrder 3 1 None "Delivered" 20%Q "" ""])
    [mkComplaint 1 1 2 (Some 2) "cold" "Rejected" (Some "Rejected") None (Some 0)].

(** The customer files four complaints against the chef; the manager rejects
    the first three. *)
Definition four_complaints : list (@request QAmount) :=
  [ FileComplaint (Some 5) 2 None "The soup was cold";
    FileComplaint (Some 5) 2 None "The bread was stale";
    FileComplaint (Some 5) 2 None "The portion was small";
    FileComplaint (Some 5) 2 None "The plate was chipped" ].

Definition three_rejections : list (@request QAmount) :=
  [ ReviewComplaint (Some 1) 100 1 (Some "Rejected") "";
    ReviewComplaint (Some 1) 101 2 (Some "Rejected") "";
    ReviewComplaint (Some 1) 102 3 (Some "Rejected") "" ].

Definition blacklisted_db : Q_Store :=
  run restaurant_db (four_complaints ++ three_rejections).

(** The customer has one Pending order of 10. *)
Definition orders_db : Q_Store :=
  set_orders restaurant_db [mkOrder 1 5 None "Pending" 10%Q "Main St 1" ""].

(** Both delivery persons bid on the order; the manager assigns it to the
    first, then to the second. *)
Definition two_assignments : list (@request QAmount) :=
  [ DeliveryBidOn (Some 3) 1 None;
    DeliveryBidOn (Some 4) 1 (Some 2%Q);
    AssignOrder (Some 1) 1 3;
    AssignOrder (Some 1) 1 4 ].

(** A cart worth 10: two dishes at 5. *)
Definition cart_of_10 : @Cart QAmount :=
  [(7, mkCartItem "Soup" 5%Q 2 "default.jpg")].

(** The order of [orders_db] with the bids of both delivery persons. *)
Definition bids_db : Q_Store :=
  run orders_db [DeliveryBidOn (Some 3) 1 None; DeliveryBidOn (Some 4) 1 (Some 2%Q)].

(** A corpus of one paragraph, ending with a newline as text files do. *)
Definition delivery_corpus : string :=
  ("We offer free delivery on orders over $30." ++ String "010" EmptyString)%string.

Definition no_http : string -> http_outcome := fun _ => HttpTimeout.

(** The same question is asked twice; the first answer is rated 5. *)
Definition two_questions : list (@request QAmount) :=
  [ AskAI (Some delivery_corpus) "" no_http "Is delivery free?" None;
    AskAI (Some delivery_corpus) "" no_http "Is delivery free?" (Some 5) ].

Definition feedback_db : Q_Store := run empty_db (two_questions ++ [RateAI 1 5]).

(** A manager and a customer whose balance is 50. *)
Definition funded_db : Q_Store :=
  set_users empty_db [mkUser 1 "Manager" 0%Q true; mkUser 5 "Customer" 50%Q true].

(** The four complaints on file; then the first two rejected. *)
Definition complaints_db : Q_Store := run restaurant_db four_complaints.


(** Two paragraphs that hold the word "delivery" once each. *)
Definition tie_corpus : string :=
  ("Delivery is free over $30." ++ String "010" (String "010" EmptyString)
   ++ "Delivery takes 30 minutes." ++ String "010" EmptyString)%string.

(** A menu of two dishes, the first without an image. *)
Definition sample_menu : list (@Menu QAmount) :=
  [ mkMenu 7 "Soup" 5%Q None true;
    mkMenu 8 "Bread" 2%Q (Some "bread.jpg") true ].

(** A day without the manager: a delivery person bids on the order of
    [orders_db], the chef starts cooking, the customer complains. *)
Definition staff_day : list (@request QAmount) :=
  [ DeliveryBidOn (Some 3) 1 None;
    UpdateOrderStatus (Some 2) 1 (Some "Preparing");
    FileComplaint (Some 5) 2 (Some 1) "The soup was cold" ].

(** * Verification *)

Section Proofs.
Context {A : Amount}.

(** ** Tables *)

Lemma find_key_eq {R : Type} (key : R -> Z) (id : Z) (t : list R) (r : R) :
  find (fun x => key x =? id) t = Some r -> key r = id.
Proof.
  intros H. apply find_some in H. destruct H as [_ H]. lia.
Qed.

Lemma find_update_where_same {R : Type} (key : R -> Z) (f : R -> R) (id : Z)
    (t : list R) :
  (forall r, key (f r) = key r) ->
  find (fun x => key x =? id) (update_where (fun x => key x =? id) f t)
  = option_map f (find (fun x => key x =? id) t).
Proof.
  intros Hkey. induction t as [|r t IH]; simpl; [reflexivity|].
  destruct (key r =? id) eqn:E.
  - rewrite Hkey, E. reflexivity.
  - rewrite E. exact IH.
Qed.

Lemma count_where_app {R : Type} (p : R -> bool) (t t' : list R) :
  count_where p (t ++ t') = count_where p t + count_where p t'.
Proof.
  unfold count_where. rewrite filter_app, length_app. lia.
Qed.

Lemma count_where_nonneg {R : Type} (p : R -> bool) (t : list R) :
  0 <= count_where p t.
Proof. unfold count_where. lia. Qed.

Lemma count_where_zero {R : Type} (p : R -> bool) (t : list R) :
  (count_where p t =? 0) = forallb (fun r => negb (p r)) t.
Proof.
  induction t as [|r t IH]; [reflexivity|].
  unfold count_where in *. simpl. destruct (p r); simpl.
  - first [reflexivity | apply Z.eqb_neq; lia].
  - exact IH.
Qed.

Lemma get_user_id (db : Store) (id : Z) (u : User) :
  get_user db id = Some u -> u_id u = id.
Proof. apply (find_key_eq u_id). Qed.

Lemma current_user_active (db : Store) (id : Z) (cu : User) :
  get_user db id = Some cu -> u_is_active cu = true ->
  current_user db (Some id) = Some cu.
Proof. intros Hu Ha. unfold current_user. rewrite Hu, Ha. reflexivity. Qed.

Lemma current_user_inv (db : Store) (session_user : option Z) (cu : User) :
  current_user db session_user = Some cu ->
  exists id, session_user = Some id /\ get_user db id = Some cu
             /\ u_is_active cu = true.
Proof.
  unfold current_user. destruct session_user as [id|]; [|discriminate].
  destruct (get_user db id) as [u|] eqn:Hu; [|discriminate].
  destruct (u_is_active u) eqn:Ha; [|discriminate].
  intros E. inversion E. subst. exists id. auto.
Qed.

Lemma current_user_inactive (db : Store) (id : Z) (cu : User) :
  get_user db id = Some cu -> u_is_active cu = false ->
  current_user db (Some id) = None.
Proof. intros Hu Ha. unfold current_user. rewrite Hu, Ha. reflexivity. Qed.

Lemma get_user_update_user (db : Store) (id : Z) (f : User -> User) :
  (forall u, u_id (f u) = u_id u) ->
  get_user (update_user db id f) id = option_map f (get_user db id).
Proof. intros H. apply (find_update_where_same u_id); exact H. Qed.

(** ** VIP promotion *)

Lemma approved_complaints_zero (db : Store) (l : list Order) :
  (approved_complaints db (map o_id l) =? 0)
  = forallb (fun o => negb (has_approved_complaint db (o_id o))) l.
Proof.
  unfold approved_complaints. rewrite count_where_zero.
  apply eq_true_iff_eq. rewrite !forallb_forall. split.
  - intros H o Ho. apply negb_true_iff.
    destruct (has_approved_complaint db (o_id o)) eqn:E; [|reflexivity].
    unfold has_approved_complaint in E. apply existsb_exists in E.
    destruct E as [c [Hc E]]. apply andb_true_iff in E. destruct E as [E1 E2].
    specialize (H c Hc). apply negb_true_iff in H.
    destruct (c_order_id c) as [oid|]; simpl in E1; [|discriminate].
    assert (Z_in oid (map o_id l) = true) as Hin.
    { apply existsb_exists. exists (o_id o). split; [apply in_map; exact Ho | lia]. }
    rewrite Hin, E2 in H. discriminate.
  - intros H c Hc. apply negb_true_iff.
    destruct (c_order_id c) as [oid|] eqn:Eo; [|reflexivity].
    destruct (Z_in oid (map o_id l)) eqn:Hin; [|reflexivity].
    destruct (c_status c =? "Approved")%string eqn:Es; [|reflexivity].
    apply existsb_exists in Hin. destruct Hin as [x [Hx Hox]].
    apply in_map_iff in Hx. destruct Hx as [o [Hxo Ho]]. subst x.
    specialize (H o Ho). apply negb_true_iff in H.
    unfold has_approved_complaint in H.
    assert (existsb (fun c0 => option_Z_eqb (c_order_id c0) (o_id o)
                               && (c_status c0 =? "Approved")%string)
                    (complaints db) = true) as Hex.
    { apply existsb_exists. exists c. split; [exact Hc|].
      rewrite Eo, Es. simpl. rewrite andb_true_r. lia. }
    rewrite Hex in H. discriminate.
Qed.

Section Promotion.

(** What the rule needs of float comparison: 0.0 is not above 100.0, and
    neither is a value that Python takes for false. *)
Hypothesis zero_not_above_100 : amount_ltb amount_100 amount_zero = false.
Hypothesis falsy_not_above_100 :
  forall x, amount_truthy x = false -> amount_ltb amount_100 x = false.

Lemma or_zero_above_100 (db : Store) (user_id : Z) :
  amount_ltb amount_100 (or_zero (sum_delivered db user_id))
  = spending_exceeds_100 db user_id.
Proof.
  unfold sum_delivered, spending_exceeds_100.
  destruct (delivered_orders db user_id) as [|o l]; simpl.
  - exact zero_not_above_100.
  - destruct (amount_truthy (sql_sum (o_total_amount o :: map o_total_amount l))) eqn:E.
    + reflexivity.
    + rewrite zero_not_above_100. symmetry. apply falsy_not_above_100. exact E.
Qed.

(** An account that is neither staff nor VIP is promoted exactly when the
    promotion rule holds. *)
Lemma calculate_vip_status_rule (db : Store) (user_id : Z) (user : User) :
  get_user db user_id = Some user ->
  str_in (u_role user) ["Chef"; "DeliveryPerson"; "Manager"] = false ->
  (u_role user =? "VIP")%string = false ->
  calculate_vip_status db user_id
  = if promotion_rule db user_id
    then Returned true (update_user db user_id (set_role "VIP"))
    else Returned false db.
Proof.
  intros Hu Hstaff Hvip. unfold calculate_vip_status, promotion_rule.
  rewrite Hu, Hstaff, Hvip, or_zero_above_100, (get_user_id _ _ _ Hu).
  destruct (spending_exceeds_100 db user_id); simpl; [reflexivity|].
  unfold three_clean_deliveries. rewrite approved_complaints_zero.
  destruct (delivered_orders db user_id) as [|o1 [|o2 [|o3 l]]]; try reflexivity.
  replace (3 <=? Z.of_nat (List.length (o1 :: o2 :: o3 :: l))) with true
    by (symmetry; apply Z.leb_le; simpl List.length; lia).
  reflexivity.
Qed.

Lemma selected_filter {R : Type} (P : R -> Prop) (p : R -> bool) (t s : list R) :
  (forall r, p r = true <-> P r) -> selected P t s -> s = filter p t.
Proof.
  intros Hp H. induction H as [|r t s Hr _ IH|r t s Hr _ IH]; simpl.
  - reflexivity.
  - apply Hp in Hr. rewrite Hr, IH. reflexivity.
  - destruct (p r) eqn:E; [apply Hp in E; contradiction | exact IH].
Qed.

Lemma delivered_of_orders (db : Store) (user_id : Z) (delivered : list Order) :
  delivered_of db user_id delivered -> delivered = delivered_orders db user_id.
Proof.
  unfold delivered_of, delivered_orders. apply selected_filter.
  intros o. rewrite andb_true_iff, Z.eqb_eq, String.eqb_eq. reflexivity.
Qed.

Lemma has_approved_complaint_against (db : Store) (o : Order) :
  has_approved_complaint db (o_id o) = true <-> approved_against db o.
Proof.
  unfold has_approved_complaint, approved_against. rewrite existsb_exists.
  split; intros [c [Hc H]]; exists c; (split; [exact Hc|]).
  - apply andb_true_iff in H. destruct H as [H1 H2]. apply String.eqb_eq in H2.
    destruct (c_order_id c) as [oid|]; simpl in H1; [|discriminate].
    apply Z.eqb_eq in H1. subst. auto.
  - destruct H as [H1 H2]. rewrite H1, H2. simpl. rewrite Z.eqb_refl. reflexivity.
Qed.

Lemma promotion_due_rule (db : Store) (user_id : Z) :
  promotion_due db (delivered_orders db user_id) <-> promotion_rule db user_id = true.
Proof.
  unfold promotion_due, promotion_rule, spending_exceeds_100, three_clean_deliveries.
  rewrite orb_true_iff, andb_true_iff, forallb_forall.
  assert ((3 <=? List.length (delivered_orders db user_id))%nat = true
          <-> 3 <= Z.of_nat (List.length (delivered_orders db user_id))) as Hlen.
  { rewrite Nat.leb_le. lia. }
  rewrite Hlen.
  assert ((forall o, In o (delivered_orders db user_id) ->
             negb (has_approved_complaint db (o_id o)) = true)
          <-> (forall o, In o (delivered_orders db user_id) -> ~ approved_against db o))
    as Hclean.
  { split; intros H o Ho; specialize (H o Ho).
    - intros Ha. apply has_approved_complaint_against in Ha.
      rewrite Ha in H. discriminate.
    - apply negb_true_iff.
      destruct (has_approved_complaint db (o_id o)) eqn:E; [|reflexivity].
      apply has_approved_complaint_against in E. contradiction. }
  rewrite Hclean.
  destruct (delivered_orders db user_id) as [|o l].
  - split; [intros [[H _]|H]; [congruence | right; exact H]|].
    intros [H|H]; [discriminate | right; exact H].
  - split; [intros [[_ H]|H]; [left; exact H | right; exact H]|].
    intros [H|H]; [left; split; [discriminate | exact H] | right; exact H].
Qed.

(** C3: for an account whose role is Customer, with [delivered] the orders
    of that account whose status is Delivered, evaluate_and_promote returns
    true and persists role VIP exactly when (a) their totals sum to more
    than 100.0 or (b) there are at least 3 of them, none with an Approved
    complaint; otherwise it returns false and leaves the database as it is.
    For an account that is VIP already it returns true and leaves the
    database as it is. *)
Theorem calculate_vip_status_customer (db : Store) (user_id : Z) (user : User)
    (delivered : list Order) :
  get_user db user_id = Some user ->
  delivered_of db user_id delivered ->
  (u_role user = "Customer" ->
     (promotion_due db delivered ->
        calculate_vip_status db user_id
        = Returned true (update_user db user_id (set_role "VIP"))
        /\ get_user (update_user db user_id (set_role "VIP")) user_id
           = Some (set_role "VIP" user))
     /\ (~ promotion_due db delivered ->
           calculate_vip_status db user_id = Returned false db))
  /\ (u_role user = "VIP" -> calculate_vip_status db user_id = Returned true db).
Proof.
  intros Hu Hd. apply delivered_of_orders in Hd. subst delivered. split.
  - intros Hrole.
    assert (calculate_vip_status db user_id
            = if promotion_rule db user_id
              then Returned true (update_user db user_id (set_role "VIP"))
              else Returned false db) as Hrule.
    { apply (calculate_vip_status_rule db user_id user Hu); rewrite Hrole; reflexivity. }
    split; intros Hp.
    + apply promotion_due_rule in Hp. rewrite Hp in Hrule.
      split; [exact Hrule|].
      rewrite get_user_update_user by reflexivity. rewrite Hu. reflexivity.
    + destruct (promotion_rule db user_id) eqn:E; [|exact Hrule].
      exfalso. apply Hp. apply promotion_due_rule. exact E.
  - intros Hrole. unfold calculate_vip_status. rewrite Hu, Hrole. reflexivity.
Qed.

(** C9, as the code has it: an unknown account and an account whose role is
    Chef, DeliveryPerson or Manager get false at once and nothing changes;
    an account of any other role but VIP, Visitor included, goes through the
    promotion rule like a Customer. *)
Theorem calculate_vip_status_ineligible (db : Store) (user_id : Z) :
  (get_user db user_id = None -> calculate_vip_status db user_id = Returned false db)
  /\ (forall user, get_user db user_id = Some user ->
        In (u_role user) ["Chef"; "DeliveryPerson"; "Manager"] ->
        calculate_vip_status db user_id = Returned false db)
  /\ (forall user, get_user db user_id = Some user ->
        ~ In (u_role user) ["Chef"; "DeliveryPerson"; "Manager"; "VIP"] ->
        calculate_vip_status db user_id
        = if promotion_rule db user_id
          then Returned true (update_user db user_id (set_role "VIP"))
          else Returned false db).
Proof.
  split; [|split].
  - intros Hu. unfold calculate_vip_status. rewrite Hu. reflexivity.
  - intros user Hu Hin. unfold calculate_vip_status. rewrite Hu.
    simpl in Hin. destruct Hin as [H|[H|[H|[]]]]; rewrite <- H; reflexivity.
  - intros user Hu Hnot. apply (calculate_vip_status_rule db user_id user Hu).
    + simpl. rewrite orb_false_r.
      destruct (u_role user =? "Chef")%string eqn:E1;
        [apply String.eqb_eq in E1; exfalso; apply Hnot; simpl; auto|].
      destruct (u_role user =? "DeliveryPerson")%string eqn:E2;
        [apply String.eqb_eq in E2; exfalso; apply Hnot; simpl; auto|].
      destruct (u_role user =? "Manager")%string eqn:E3;
        [apply String.eqb_eq in E3; exfalso; apply Hnot; simpl; auto|].
      reflexivity.
    + destruct (u_role user =? "VIP")%string eqn:E; [|reflexivity].
      apply String.eqb_eq in E. exfalso. apply Hnot. simpl. auto 6.
Qed.

End Promotion.

(** ** Complaint escalation *)

Lemma insert_blacklist_refused (db : Store) (b : Blacklist) :
  is_user_blacklisted db (bl_user_id b) = true -> insert_blacklist db b = None.
Proof.
  unfold is_user_blacklisted, insert_blacklist. intros H.
  destruct (find (fun x => bl_user_id x =? bl_user_id b) (blacklist db)) as [x|] eqn:E;
    [|discriminate].
  apply find_some in E. destruct E as [Hin Hx].
  assert (existsb (fun x => bl_user_id x =? bl_user_id b) (blacklist db) = true) as ->.
  { apply existsb_exists. exists x. auto. }
  reflexivity.
Qed.

Lemma insert_blacklist_accepted (db : Store) (b : Blacklist) :
  is_user_blacklisted db (bl_user_id b) = false ->
  insert_blacklist db b = Some (set_blacklist db (blacklist db ++ [b])).
Proof.
  unfold is_user_blacklisted, insert_blacklist. intros H.
  destruct (existsb (fun x => bl_user_id x =? bl_user_id b) (blacklist db)) eqn:E;
    [|reflexivity].
  apply existsb_exists in E. destruct E as [x [Hin Hx]].
  destruct (find (fun x => bl_user_id x =? bl_user_id b) (blacklist db)) eqn:F;
    [discriminate|].
  apply (find_none _ _ F) in Hin. congruence.
Qed.

Lemma not_blacklisted_no_entry (db : Store) (user_id : Z) :
  is_user_blacklisted db user_id = false -> blacklist_entries db user_id = 0.
Proof.
  unfold is_user_blacklisted, blacklist_entries. intros H.
  apply Z.eqb_eq. rewrite count_where_zero. apply forallb_forall. intros b Hb.
  destruct (find (fun b => bl_user_id b =? user_id) (blacklist db)) eqn:F;
    [discriminate|].
  rewrite (find_none _ _ F b Hb). reflexivity.
Qed.



(** A decision other than 'Rejected' stamps the complaint and does nothing
    else: 'Approved' stamps Approved, anything else stamps Rejected. *)
Lemma process_complaint_decision_not_rejected (db : Store) (now cid : Z)
    (decision notes : option string) (c : Complaint) :
  get_complaint db cid = Some c ->
  opt_str_eqb decision "Rejected" = false ->
  process_complaint_decision db now cid decision notes
  = Returned true
      (set_complaints db
         (update_where (fun x => c_id x =? c_id c)
            (review (if opt_str_eqb decision "Approved" then "Approved" else "Rejected")
                    decision notes now)
            (complaints db))).
Proof.
  intros Hc Hd. unfold process_complaint_decision. rewrite Hc, Hd. reflexivity.
Qed.

(** The Blacklist table after a decision: as it was, or with one more row,
    for a filer who had none. *)
Lemma process_complaint_decision_blacklist (db : Store) (now cid : Z)
    (decision notes : option string) :
  let db' := db_after (process_complaint_decision db now cid decision notes) in
  blacklist db' = blacklist db
  \/ exists b, is_user_blacklisted db (bl_user_id b) = false
               /\ blacklist db' = blacklist db ++ [b].
Proof.
  unfold process_complaint_decision.
  destruct (get_complaint db cid) as [c|]; [|left; reflexivity].
  destruct (opt_str_eqb decision "Rejected"); [|left; reflexivity].
  match goal with
  | |- context [3 <=? ?n] => destruct (3 <=? n)
  end.
  - match goal with
    | |- context [match ?f with Some _ => _ | None => _ end] => destruct f as [f0|]
    end; [|left; reflexivity].
    match goal with
    | |- context [insert_blacklist ?s ?b] =>
      destruct (is_user_blacklisted s (bl_user_id b)) eqn:Eb;
        [rewrite (insert_blacklist_refused s b Eb); left; reflexivity
        |rewrite (insert_blacklist_accepted s b Eb); right; exists b; split;
         [exact Eb | reflexivity]]
    end.
  - match goal with
    | |- context [2 <=? ?n] => destruct (2 <=? n)
    end; [|left; reflexivity].
    match goal with
    | |- context [match ?f with Some _ => _ | None => _ end] => destruct f as [f0|]
    end; [|left; reflexivity].
    destruct (u_role f0 =? "VIP")%string; left; reflexivity.
Qed.

Lemma blacklist_unique_same (db db' : Store) :
  blacklist db' = blacklist db -> blacklist_unique db -> blacklist_unique db'.
Proof.
  intros H Hu uid. unfold blacklist_entries. rewrite H. apply Hu.
Qed.

Lemma process_complaint_decision_unique (db : Store) (now cid : Z)
    (decision notes : option string) :
  blacklist_unique db ->
  blacklist_unique (db_after (process_complaint_decision db now cid decision notes)).
Proof.
  intros Hu.
  destruct (process_complaint_decision_blacklist db now cid decision notes)
    as [H|[b [Hb H]]].
  - exact (blacklist_unique_same _ _ H Hu).
  - intros uid. unfold blacklist_entries. rewrite H, count_where_app.
    unfold count_where at 2. simpl.
    destruct (bl_user_id b =? uid) eqn:E; simpl.
    + apply Z.eqb_eq in E. subst uid.
      pose proof (not_blacklisted_no_entry _ _ Hb) as H0.
      unfold blacklist_entries in H0. lia.
    + specialize (Hu uid). unfold blacklist_entries in Hu. lia.
Qed.


(** An approval stamps the complaint Approved; no warning is issued and no
    account or Blacklist row is touched. *)
Lemma process_complaint_decision_approved (db : Store) (now cid : Z)
    (notes : option string) (c : Complaint) :
  get_complaint db cid = Some c ->
  exists db',
    process_complaint_decision db now cid (Some "Approved") notes = Returned true db'
    /\ get_complaint db' cid = Some (review "Approved" (Some "Approved") notes now c)
    /\ warnings db' = warnings db
    /\ users db' = users db
    /\ blacklist db' = blacklist db.
Proof.
  intros Hc.
  rewrite (process_complaint_decision_not_rejected db now cid _ notes c Hc)
    by reflexivity.
  eexists. split; [reflexivity|]. split; [|repeat split].
  unfold get_complaint in *. simpl.
  rewrite (find_key_eq c_id _ _ _ Hc).
  rewrite (find_update_where_same c_id) by reflexivity.
  rewrite Hc. reflexivity.
Qed.

(** X21: any other text stamps the complaint Rejected, returns true and
    issues no warning. *)
Lemma process_complaint_decision_other_text (db : Store) (now cid : Z)
    (d : string) (notes : option string) (c : Complaint) :
  get_complaint db cid = Some c ->
  d <> "Approved" -> d <> "Rejected" ->
  exists db',
    process_complaint_decision db now cid (Some d) notes = Returned true db'
    /\ get_complaint db' cid = Some (review "Rejected" (Some d) notes now c)
    /\ warnings db' = warnings db
    /\ users db' = users db
    /\ blacklist db' = blacklist db.
Proof.
  intros Hc Ha Hr.
  apply String.eqb_neq in Ha. apply String.eqb_neq in Hr.
  rewrite (process_complaint_decision_not_rejected db now cid _ notes c Hc)
    by exact Hr.
  simpl opt_str_eqb. rewrite Ha.
  eexists. split; [reflexivity|]. split; [|repeat split].
  unfold get_complaint in *. simpl.
  rewrite (find_key_eq c_id _ _ _ Hc).
  rewrite (find_update_where_same c_id) by reflexivity.
  rewrite Hc. reflexivity.
Qed.

(** ** Requests that leave the Blacklist table alone *)

Ltac break_match :=
  match goal with
  | |- context [match ?x with _ => _ end] => destruct x eqn:?
  end.

Ltac by_cases := repeat break_match; simpl; try reflexivity.

Lemma calculate_vip_status_blacklist (db : Store) (user_id : Z) :
  blacklist (db_after (calculate_vip_status db user_id)) = blacklist db.
Proof. unfold calculate_vip_status. by_cases. Qed.

Lemma place_order_blacklist (db : Store) su cart addr notes :
  blacklist (db_after (place_order db su cart addr notes)) = blacklist db.
Proof.
  unfold place_order. by_cases.
  rewrite calculate_vip_status_blacklist. reflexivity.
Qed.

Lemma delivery_bid_blacklist (db : Store) su oid amt :
  blacklist (db_after (delivery_bid db su oid amt)) = blacklist db.
Proof. unfold delivery_bid. by_cases. Qed.

Lemma assign_order_blacklist (db : Store) su oid dp :
  blacklist (db_after (assign_order db su oid dp)) = blacklist db.
Proof. unfold assign_order. by_cases. Qed.

Lemma update_order_status_blacklist (db : Store) su oid st :
  blacklist (db_after (update_order_status db su oid st)) = blacklist db.
Proof. unfold update_order_status. by_cases. Qed.

Lemma file_complaint_blacklist (db : Store) su against oid descr :
  blacklist (db_after (file_complaint db su against oid descr)) = blacklist db.
Proof. unfold file_complaint. by_cases. Qed.

Lemma get_ai_response_blacklist (db : Store) content key post q uid :
  blacklist (db_after (get_ai_response db content key post q uid)) = blacklist db.
Proof.
  unfold get_ai_response.
  destruct (choose_answer content key post q) as [a src].
  destruct (src =? "local")%string; [|reflexivity].
  destruct (find _ _); reflexivity.
Qed.

Lemma rate_ai_response_blacklist (db : Store) rid v :
  blacklist (db_after (rate_ai_response db rid v)) = blacklist db.
Proof. unfold rate_ai_response. by_cases. Qed.

Lemma review_complaint_db_after (db : Store) su now cid dec notes :
  db_after (review_complaint db su now cid dec notes) = db
  \/ db_after (review_complaint db su now cid dec notes)
     = db_after (process_complaint_decision db now cid dec (Some notes)).
Proof.
  unfold review_complaint.
  destruct (current_user db su); [|left; reflexivity].
  destruct (negb _); [left; reflexivity|].
  destruct (process_complaint_decision db now cid dec (Some notes));
    [|right; reflexivity].
  destruct dec; right; reflexivity.
Qed.

Lemma handle_unique (db : Store) (r : request) :
  blacklist_unique db -> blacklist_unique (handle db r).
Proof.
  intros Hu. destruct r; simpl.
  - exact (blacklist_unique_same _ _ (place_order_blacklist _ _ _ _ _) Hu).
  - exact (blacklist_unique_same _ _ (delivery_bid_blacklist _ _ _ _) Hu).
  - exact (blacklist_unique_same _ _ (assign_order_blacklist _ _ _ _) Hu).
  - exact (blacklist_unique_same _ _ (update_order_status_blacklist _ _ _ _) Hu).
  - exact (blacklist_unique_same _ _ (file_complaint_blacklist _ _ _ _ _) Hu).
  - destruct (review_complaint_db_after db session_user now complaint_id decision notes)
      as [H|H]; rewrite H; [exact Hu|].
    apply process_complaint_decision_unique. exact Hu.
  - exact (blacklist_unique_same _ _ (get_ai_response_blacklist _ _ _ _ _ _) Hu).
  - exact (blacklist_unique_same _ _ (rate_ai_response_blacklist _ _ _) Hu).
Qed.

(** C2: if no account has two Blacklist rows, none has after any sequence
    of requests; and a decision on a complaint, a further rejection
    included, leaves an account that has its row with exactly that one
    row. *)
Theorem blacklist_at_most_one_entry (db : Store) :
  blacklist_unique db ->
  (forall rs user_id, blacklist_entries (run db rs) user_id <= 1)
  /\ (forall now cid decision notes user_id,
        blacklist_entries db user_id = 1 ->
        blacklist_entries
          (db_after (process_complaint_decision db now cid decision notes)) user_id = 1).
Proof.
  intros Hu. split.
  - intros rs. revert db Hu.
    induction rs as [|r rs IH]; intros db Hu uid; simpl.
    + apply Hu.
    + apply IH. apply handle_unique. exact Hu.
  - intros now cid decision notes uid H1.
    pose proof (process_complaint_decision_unique db now cid decision notes Hu uid) as Hle.
    destruct (process_complaint_decision_blacklist db now cid decision notes)
      as [H|[b [_ H]]]; unfold blacklist_entries in *; rewrite H in *.
    + exact H1.
    + rewrite count_where_app in *.
      pose proof (count_where_nonneg (fun b0 => bl_user_id b0 =? uid) [b]). lia.
Qed.

(** ** Order placement *)

Lemma can_user_place_order_message (db : Store) (user_id : Z) (msg : option string) :
  can_user_place_order db user_id = (false, msg) -> msg <> None.
Proof.
  unfold can_user_place_order.
  destruct (is_user_blacklisted db user_id); [intros H; inversion H; discriminate|].
  destruct (get_user db user_id) as [u|]; [|intros H; inversion H; discriminate].
  destruct (negb (u_is_active u)); intros H; inversion H; discriminate.
Qed.

(** C5: when the balance of the acting account is below the cart total, the
    order is not placed: the database and the cart are as before and a
    failure message is flashed. *)
Theorem place_order_insufficient_balance (db : Store) (session_user : option Z)
    (cart : Cart) (delivery_address notes : string) (cu : User) :
  current_user db session_user = Some cu ->
  amount_ltb (u_balance cu) (cart_total cart) = true ->
  exists resp,
    place_order db session_user cart delivery_address notes = Returned (resp, cart) db
    /\ is_failure resp
    /\ redirect resp <> "order_history"
    /\ (is_customer cu = true ->
        can_user_place_order db (u_id cu) = (true, None) ->
        cart <> [] ->
        resp = insufficient_balance).
Proof.
  intros Hcu Hlt. unfold place_order. rewrite Hcu.
  fold (is_customer cu).
  destruct (is_customer cu) eqn:Erole; simpl negb; cbv iota.
  - destruct (can_user_place_order db (u_id cu)) as [can_order error_msg] eqn:Ecan.
    destruct can_order; simpl negb; cbv iota.
    + destruct cart as [|item cart'].
      * eexists. split; [reflexivity|].
        split; [split; [discriminate | right; reflexivity]|].
        split; [discriminate|]. intros _ _ H. congruence.
      * rewrite Hlt. eexists. split; [reflexivity|].
        split; [split; [discriminate | left; reflexivity]|].
        split; [discriminate|]. reflexivity.
    + eexists. split; [reflexivity|].
      split; [split; [exact (can_user_place_order_message _ _ _ Ecan) | left; reflexivity]|].
      split; [discriminate|]. intros _ H. discriminate.
  - eexists. split; [reflexivity|].
    split; [split; [discriminate | left; reflexivity]|].
    split; [discriminate|]. intros H. discriminate.
Qed.

(** ** Status updates *)

Lemma str_in_In (x : string) (l : list string) : str_in x l = true <-> In x l.
Proof.
  unfold str_in. rewrite existsb_exists. split.
  - intros [y [Hy E]]. apply String.eqb_eq in E. subst y. exact Hy.
  - intros H. exists x. split; [exact H | apply String.eqb_refl].
Qed.

Lemma can_update_authorized (cu : User) (order : Order) :
  can_update cu order = true <-> authorized cu order.
Proof.
  unfold can_update, authorized, is_manager, is_chef, is_delivery.
  destruct (String.eqb_spec (u_role cu) "Manager") as [Em|Em]; [tauto|].
  destruct (String.eqb_spec (u_role cu) "Chef") as [Ec|Ec]; cbn [andb].
  - destruct (str_in (o_status order) ["Pending"; "Preparing"]) eqn:Es.
    + apply str_in_In in Es. simpl in Es. split; [intros _|reflexivity].
      right. left. split; [exact Ec|]. destruct Es as [H|[H|[]]]; auto.
    + assert (~ In (o_status order) ["Pending"; "Preparing"]) as Hn.
      { rewrite <- str_in_In. rewrite Es. discriminate. }
      destruct (String.eqb_spec (u_role cu) "DeliveryPerson") as [Ed|Ed];
        [congruence|]. cbn [andb].
      split; [discriminate|].
      intros [H|[[_ [H|H]]|[H _]]]; try congruence;
        exfalso; apply Hn; simpl; auto.
  - destruct (String.eqb_spec (u_role cu) "DeliveryPerson") as [Ed|Ed]; cbn [andb].
    + destruct (o_delivery_person_id order) as [dp|]; cbn [option_Z_eqb].
      * destruct (Z.eqb_spec dp (u_id cu)) as [E|E].
        -- subst dp. split; [intros _|reflexivity]. auto.
        -- split; [discriminate|].
           intros [H|[[H _]|[_ H]]]; congruence.
      * split; [discriminate|]. intros [H|[[H _]|[_ H]]]; congruence.
    + split; [discriminate|]. intros [H|[[H _]|[H _]]]; congruence.
Qed.

Lemma get_order_update_order (db : Store) (id : Z) (f : Order -> Order) :
  (forall o, o_id (f o) = o_id o) ->
  get_order (update_order db id f) id = option_map f (get_order db id).
Proof. intros H. apply (find_update_where_same o_id); exact H. Qed.

(** C8, as the code has it.  An actor whom the login check lets through
    (a session whose account is active) and who is authorized (a manager; a
    chef while the order is Pending or Preparing; the delivery person the
    order is assigned to) sets any of the five statuses Pending, Preparing,
    Ready, Out for Delivery, Delivered.  Every other attempt of such an
    actor, an authorized one asking for Cancelled or any other value
    included, changes nothing and is answered with the permission message.
    An anonymous request and one that comes with the session of an unknown
    or deactivated account, a manager included, change nothing and are sent
    to the login page. *)
Theorem update_order_status_authorization (db : Store) (session_user : option Z)
    (order_id : Z) (new_status : option string) (order : Order) :
  get_order db order_id = Some order ->
  (forall id cu,
     session_user = Some id -> get_user db id = Some cu -> u_is_active cu = true ->
     (forall st, new_status = Some st -> authorized cu order ->
        In st ["Pending"; "Preparing"; "Ready"; "Out for Delivery"; "Delivered"] ->
        exists resp,
          update_order_status db session_user order_id new_status
          = Returned resp (update_order db order_id (set_status st))
          /\ flash_category resp = "success"
          /\ get_order (update_order db order_id (set_status st)) order_id
             = Some (set_status st order))
     /\ ((~ authorized cu order
          \/ forall st, new_status = Some st ->
               ~ In st ["Pending"; "Preparing"; "Ready"; "Out for Delivery";
                        "Delivered"]) ->
         update_order_status db session_user order_id new_status
         = Returned (permission_denied cu) db))
  /\ ((session_user = None
       \/ (exists id, session_user = Some id /\ get_user db id = None)
       \/ (exists id cu, session_user = Some id /\ get_user db id = Some cu
                         /\ u_is_active cu = false)) ->
      update_order_status db session_user order_id new_status
      = Returned unauthorized db).
Proof.
  intros Ho. pose proof (find_key_eq o_id _ _ _ Ho) as Hid. split.
  - intros id cu -> Hu Hact.
    pose proof (current_user_active _ _ _ Hu Hact) as Hcu.
    unfold update_order_status. rewrite Hcu, Ho, Hid. split.
    + intros st -> Hauth Hin. change (In st settable_statuses) in Hin.
      apply can_update_authorized in Hauth. apply str_in_In in Hin.
      rewrite Hauth, Hin. simpl andb. cbv iota.
      eexists. split; [reflexivity|]. split; [reflexivity|].
      rewrite get_order_update_order by reflexivity. rewrite Ho. reflexivity.
    + intros H. destruct new_status as [st|]; [|reflexivity].
      destruct (can_update cu order && str_in st settable_statuses) eqn:E; [|reflexivity].
      apply andb_true_iff in E. destruct E as [E1 E2].
      apply can_update_authorized in E1. apply str_in_In in E2.
      exfalso. destruct H as [H|H]; [exact (H E1) | exact (H st eq_refl E2)].
  - intros H. unfold update_order_status.
    assert (current_user db session_user = None) as ->; [|reflexivity].
    destruct H as [->|[[id [-> Hu]]|[id [cu [-> [Hu Ha]]]]]].
    + reflexivity.
    + unfold current_user. rewrite Hu. reflexivity.
    + exact (current_user_inactive _ _ _ Hu Ha).
Qed.

(** ** Delivery assignment *)

Lemma in_same_key {R : Type} (key : R -> Z) (l : list R) (x y : R) :
  NoDup (map key l) -> In x l -> In y l -> key x = key y -> x = y.
Proof.
  induction l as [|r l IH]; simpl; [tauto|].
  intros Hnd Hx Hy Hk. inversion Hnd as [|k ks Hnotin Hnd']. subst.
  destruct Hx as [Hx|Hx], Hy as [Hy|Hy]; subst.
  - reflexivity.
  - exfalso. apply Hnotin. rewrite Hk. apply in_map. exact Hy.
  - exfalso. apply Hnotin. rewrite <- Hk. apply in_map. exact Hx.
  - apply IH; assumption.
Qed.

Lemma count_where_map {R S : Type} (p : S -> bool) (f : R -> S) (l : list R) :
  count_where p (map f l) = count_where (fun x => p (f x)) l.
Proof.
  unfold count_where. f_equal.
  induction l as [|r l IH]; simpl; [reflexivity|].
  destruct (p (f r)); simpl; rewrite IH; reflexivity.
Qed.

Lemma count_where_ext_in {R : Type} (p q : R -> bool) (l : list R) :
  (forall x, In x l -> p x = q x) -> count_where p l = count_where q l.
Proof.
  intros H. unfold count_where. f_equal. f_equal. apply filter_ext_in. exact H.
Qed.

Lemma count_where_key {R : Type} (key : R -> Z) (l : list R) (c : R) :
  NoDup (map key l) -> In c l -> count_where (fun x => key x =? key c) l = 1.
Proof.
  induction l as [|r l IH]; simpl; [tauto|].
  intros Hnd Hc. inversion Hnd as [|k ks Hnotin Hnd']. subst.
  change (r :: l) with ([r] ++ l). rewrite count_where_app.
  destruct Hc as [Hc|Hc].
  - subst r. unfold count_where at 1. simpl. rewrite Z.eqb_refl. simpl.
    assert (count_where (fun x => key x =? key c) l = 0) as ->; [|reflexivity].
    apply Z.eqb_eq. rewrite count_where_zero. apply forallb_forall.
    intros x Hx. apply negb_true_iff. apply Z.eqb_neq. intros E.
    apply Hnotin. rewrite <- E. apply in_map. exact Hx.
  - rewrite (IH Hnd' Hc). unfold count_where. simpl.
    assert ((key r =? key c) = false) as ->; [|reflexivity].
    apply Z.eqb_neq. intros E. apply Hnotin. rewrite E. apply in_map. exact Hc.
Qed.

(** The bids after an assignment, row by row. *)
Lemma assign_order_bids (db : Store) (session_user : option Z) (order_id dp : Z)
    (cu : User) (order : Order) :
  current_user db session_user = Some cu ->
  u_role cu = "Manager" ->
  get_order db order_id = Some order ->
  assign_order db session_user order_id dp
  = Returned (mkResponse (Some "Order assigned successfully.") "success"
                         "manager_dashboard")
      (set_delivery_bids
         (update_order db order_id
            (fun o => set_status "Out for Delivery"
                        (set_delivery_person (Some dp) o)))
         (map (assigned_bid order_id (first_bid db order_id dp)) (delivery_bids db))).
Proof.
  intros Hcu Hrole Ho. pose proof (find_key_eq o_id _ _ _ Ho) as Hid.
  unfold assign_order. rewrite Hcu, Hrole, Ho, Hid. simpl negb. cbv iota.
  f_equal.
  match goal with
  | |- context [first_bid ?s order_id dp] =>
    change (first_bid s order_id dp) with (first_bid db order_id dp)
  end.
  destruct (first_bid db order_id dp) as [c|]; unfold set_delivery_bids; simpl.
  - f_equal. unfold update_where. rewrite map_map. apply map_ext. intros b.
    unfold assigned_bid.
    destruct (bid_id b =? bid_id c); [|reflexivity].
    unfold is_pending_on. simpl. rewrite andb_false_r. reflexivity.
  - reflexivity.
Qed.

(** The bids after an assignment, in the terms of the queries of the
    code. *)
Lemma assign_order_rows (db : Store) (session_user : option Z)
    (order_id dp : Z) (cu : User) (order : Order) :
  current_user db session_user = Some cu ->
  u_role cu = "Manager" ->
  get_order db order_id = Some order ->
  NoDup (map bid_id (delivery_bids db)) ->
  exists resp db',
    assign_order db session_user order_id dp = Returned resp db'
    /\ get_order db' order_id
       = Some (set_status "Out for Delivery" (set_delivery_person (Some dp) order))
    /\ (forall c, first_bid db order_id dp = Some c ->
          In (set_bid_status "Accepted" c) (delivery_bids db'))
    /\ (forall b, In b (delivery_bids db) -> is_pending_on order_id b = true ->
          first_bid db order_id dp <> Some b ->
          In (set_bid_status "Rejected" b) (delivery_bids db'))
    /\ (forall b, In b (delivery_bids db) -> is_pending_on order_id b = false ->
          first_bid db order_id dp <> Some b ->
          In b (delivery_bids db'))
    /\ (forall b', In b' (delivery_bids db') -> is_pending_on order_id b' = false)
    /\ (accepted_bids db order_id = 0 ->
          accepted_bids db' order_id
          = match first_bid db order_id dp with Some _ => 1 | None => 0 end).
Proof.
  intros Hcu Hrole Ho Hnd.
  rewrite (assign_order_bids db session_user order_id dp cu order Hcu Hrole Ho).
  eexists. eexists. split; [reflexivity|].
  assert (forall c, first_bid db order_id dp = Some c ->
            In c (delivery_bids db) /\ bid_order_id c = order_id) as Hfirst.
  { intros c Hc. apply find_some in Hc. destruct Hc as [Hin Hc].
    apply andb_true_iff in Hc. split; [exact Hin | lia]. }
  assert (forall b c, In b (delivery_bids db) -> first_bid db order_id dp = Some c ->
            (bid_id b =? bid_id c) = true -> b = c) as Hsame.
  { intros b c Hb Hc E. destruct (Hfirst c Hc) as [Hin _].
    apply (in_same_key bid_id (delivery_bids db)); [assumption..|lia]. }
  split; [|split; [|split; [|split; [|split]]]].
  - unfold get_order. simpl. fold (get_order db order_id).
    change (find (fun o => o_id o =? order_id)
              (update_where (fun o => o_id o =? order_id)
                 (fun o => set_status "Out for Delivery"
                             (set_delivery_person (Some dp) o)) (orders db)))
      with (get_order (update_order db order_id
              (fun o => set_status "Out for Delivery"
                          (set_delivery_person (Some dp) o))) order_id).
    rewrite get_order_update_order by reflexivity. rewrite Ho. reflexivity.
  - intros c Hc. destruct (Hfirst c Hc) as [Hin _]. simpl.
    apply in_map_iff. exists c. split; [|exact Hin].
    unfold assigned_bid. rewrite Hc, Z.eqb_refl. reflexivity.
  - intros b Hb Hp Hnot. simpl. apply in_map_iff. exists b. split; [|exact Hb].
    unfold assigned_bid. destruct (first_bid db order_id dp) as [c|] eqn:Hc.
    + destruct (bid_id b =? bid_id c) eqn:E.
      * exfalso. apply Hnot. f_equal. symmetry. exact (Hsame b c Hb eq_refl E).
      * rewrite Hp. reflexivity.
    + rewrite Hp. reflexivity.
  - intros b Hb Hp Hnot. simpl. apply in_map_iff. exists b. split; [|exact Hb].
    unfold assigned_bid. destruct (first_bid db order_id dp) as [c|] eqn:Hc.
    + destruct (bid_id b =? bid_id c) eqn:E.
      * exfalso. apply Hnot. f_equal. symmetry. exact (Hsame b c Hb eq_refl E).
      * rewrite Hp. reflexivity.
    + rewrite Hp. reflexivity.
  - intros b' Hb'. simpl in Hb'. apply in_map_iff in Hb'.
    destruct Hb' as [b [Hb' Hb]]. subst b'. unfold assigned_bid.
    destruct (match first_bid db order_id dp with
              | Some c => bid_id b =? bid_id c
              | None => false
              end).
    + unfold is_pending_on. simpl. apply andb_false_r.
    + destruct (is_pending_on order_id b) eqn:Hp; [|exact Hp].
      unfold is_pending_on. simpl. apply andb_false_r.
  - intros Hzero. unfold accepted_bids in *. simpl.
    rewrite count_where_map.
    apply Z.eqb_eq in Hzero. rewrite count_where_zero in Hzero.
    rewrite forallb_forall in Hzero.
    destruct (first_bid db order_id dp) as [c|] eqn:Hc.
    + destruct (Hfirst c eq_refl) as [Hin Hoid].
      rewrite <- (count_where_key bid_id (delivery_bids db) c Hnd Hin).
      apply count_where_ext_in. intros b Hb. unfold assigned_bid.
      destruct (bid_id b =? bid_id c) eqn:E.
      * rewrite (Hsame b c Hb eq_refl E). simpl. rewrite Hoid, Z.eqb_refl.
        reflexivity.
      * destruct (is_pending_on order_id b).
        -- simpl. apply andb_false_r.
        -- apply negb_true_iff. exact (Hzero b Hb).
    + transitivity (count_where (fun _ : DeliveryBid => false) (delivery_bids db)).
      * apply count_where_ext_in. intros b Hb. unfold assigned_bid.
        destruct (is_pending_on order_id b).
        -- simpl. apply andb_false_r.
        -- apply negb_true_iff. exact (Hzero b Hb).
      * apply Z.eqb_eq. rewrite count_where_zero. apply forallb_forall. reflexivity.
Qed.

Lemma is_pending_on_spec (order_id : Z) (b : DeliveryBid) :
  is_pending_on order_id b = true
  <-> bid_order_id b = order_id /\ bid_status b = "Pending".
Proof.
  unfold is_pending_on. rewrite andb_true_iff, Z.eqb_eq, String.eqb_eq. reflexivity.
Qed.

Lemma find_first {R : Type} (p : R -> bool) (l : list R) (x : R) :
  find p l = Some x ->
  exists before after,
    l = before ++ x :: after /\ p x = true
    /\ forall y, In y before -> p y = false.
Proof.
  induction l as [|a l IH]; simpl; [discriminate|].
  destruct (p a) eqn:E.
  - intros H. inversion H. subst. exists [], l. repeat split; [exact E | intros y []].
  - intros H. destruct (IH H) as [before [after [-> [Hx Hb]]]].
    exists (a :: before), after. repeat split; [exact Hx|].
    intros y [<-|Hy]; [exact E | exact (Hb y Hy)].
Qed.

Lemma first_bid_chosen (db : Store) (order_id dp : Z) :
  chosen_bid db order_id dp (first_bid db order_id dp).
Proof.
  unfold chosen_bid, first_bid.
  destruct (find _ (delivery_bids db)) as [c|] eqn:F.
  - destruct (find_first _ _ _ F) as [before [after [E [Hc Hb]]]].
    apply andb_true_iff in Hc. destruct Hc as [H1 H2].
    exists before, after. split; [exact E|]. split; [lia|]. split; [lia|].
    intros b Hin [Ho Hp]. specialize (Hb b Hin).
    apply andb_false_iff in Hb. destruct Hb as [Hb|Hb]; lia.
  - intros b Hin [Ho Hp]. pose proof (find_none _ _ F b Hin) as Hb.
    simpl in Hb. apply andb_false_iff in Hb. destruct Hb as [Hb|Hb]; lia.
Qed.

(** C4, as the code has it.  An assignment by a manager whom the login
    check lets through sets the delivery person and the status 'Out for
    Delivery' of the order, marks the first bid of that person on the order,
    if there is one, Accepted and every other bid on that order that is
    still Pending Rejected, in one commit; no bid is added or removed, and a
    bid on another order or no longer Pending stays as it is.  If no bid on
    the order was Accepted before, exactly one is afterwards when the person
    had bid on the order, and none otherwise.  A request that does not come
    with the session of an active manager changes nothing. *)
Theorem assign_order_transition (db : Store) (session_user : option Z)
    (order_id dp : Z) (order : Order) :
  get_order db order_id = Some order ->
  NoDup (map bid_id (delivery_bids db)) ->
  (forall id cu,
     session_user = Some id -> get_user db id = Some cu ->
     u_is_active cu = true -> u_role cu = "Manager" ->
     exists resp db' chosen,
       assign_order db session_user order_id dp = Returned resp db'
       /\ chosen_bid db order_id dp chosen
       /\ get_order db' order_id
          = Some (set_status "Out for Delivery" (set_delivery_person (Some dp) order))
       /\ map bid_id (delivery_bids db') = map bid_id (delivery_bids db)
       /\ (forall c, chosen = Some c ->
             In (set_bid_status "Accepted" c) (delivery_bids db'))
       /\ (forall b, In b (delivery_bids db) ->
             bid_order_id b = order_id -> bid_status b = "Pending" ->
             chosen <> Some b ->
             In (set_bid_status "Rejected" b) (delivery_bids db'))
       /\ (forall b, In b (delivery_bids db) ->
             ~ (bid_order_id b = order_id /\ bid_status b = "Pending") ->
             chosen <> Some b ->
             In b (delivery_bids db'))
       /\ (forall b', In b' (delivery_bids db') ->
             ~ (bid_order_id b' = order_id /\ bid_status b' = "Pending"))
       /\ (accepted_bids db order_id = 0 ->
             accepted_bids db' order_id
             = match chosen with Some _ => 1 | None => 0 end))
  /\ ((forall id cu,
         session_user = Some id -> get_user db id = Some cu ->
         u_is_active cu = true -> u_role cu <> "Manager") ->
      exists resp,
        assign_order db session_user order_id dp = Returned resp db
        /\ flash_category resp <> "success").
Proof.
  intros Ho Hnd. split.
  - intros id cu -> Hu Hact Hrole.
    pose proof (current_user_active _ _ _ Hu Hact) as Hcu.
    destruct (assign_order_rows db (Some id) order_id dp cu order Hcu Hrole Ho Hnd)
      as [resp [db' [Hrun [Horder [Hacc [Hrej [Hkeep [Hnone Hcount]]]]]]]].
    exists resp, db', (first_bid db order_id dp).
    split; [exact Hrun|]. split; [apply first_bid_chosen|]. split; [exact Horder|].
    split.
    { rewrite (assign_order_bids db (Some id) order_id dp cu order Hcu Hrole Ho) in Hrun.
      inversion Hrun. cbn [delivery_bids set_delivery_bids].
      rewrite map_map. apply map_ext. intros b. unfold assigned_bid.
      repeat break_match; reflexivity. }
    split; [exact Hacc|]. split; [|split; [|split; [|exact Hcount]]].
    + intros b Hb H1 H2 Hc. apply (Hrej b Hb); [|exact Hc].
      apply is_pending_on_spec. split; assumption.
    + intros b Hb Hn Hc. apply (Hkeep b Hb); [|exact Hc].
      destruct (is_pending_on order_id b) eqn:E; [|reflexivity].
      apply is_pending_on_spec in E. contradiction.
    + intros b' Hb' Hp. apply is_pending_on_spec in Hp.
      rewrite (Hnone b' Hb') in Hp. discriminate.
  - intros H. unfold assign_order.
    destruct (current_user db session_user) as [cu|] eqn:Hcu;
      [|eexists; split; [reflexivity | discriminate]].
    destruct (current_user_inv _ _ _ Hcu) as [id [E [Hu Hact]]].
    specialize (H id cu E Hu Hact).
    apply String.eqb_neq in H. unfold str_in. simpl. rewrite H. simpl.
    eexists. split; [reflexivity | discriminate].
Qed.

(** ** Feedback on answers *)

Lemma in_update_where {R : Type} (p : R -> bool) (f : R -> R) (l : list R) (r : R) :
  In r l -> p r = true -> In (f r) (update_where p f l).
Proof.
  intros Hin Hp. unfold update_where. apply in_map_iff. exists r.
  rewrite Hp. auto.
Qed.

(** What a call does.  A value outside 0..5 is refused and nothing changes.
    A value in 0..5 is stored on the rating record, and the knowledge base
    is left as it is: no flag is set and no stored average or count is
    rewritten.  The call returns true, except for the value 0 on a record
    linked to an entry that exists: there it raises AttributeError, once the
    value is stored. *)
Lemma rate_ai_response_outcomes (db : Store) (rating_id v : Z) :
  ((v < 0 \/ 5 < v) -> rate_ai_response db rating_id v = Returned false db)
  /\ (forall r, 0 <= v <= 5 -> get_ai_response_rating db rating_id = Some r ->
      let db' := db_after (rate_ai_response db rating_id v) in
      get_ai_response_rating db' rating_id = Some (set_rating v r)
      /\ knowledge_base_entries db' = knowledge_base_entries db
      /\ (1 <= v -> rate_ai_response db rating_id v = Returned true db')
      /\ (v = 0 -> forall kb e,
            ar_kb_entry_id r = Some kb -> kb <> 0 -> get_kb_entry db kb = Some e ->
            rate_ai_response db rating_id v = Raised AttributeError db')
      /\ (v = 0 ->
            (ar_kb_entry_id r = None \/ ar_kb_entry_id r = Some 0
             \/ exists kb, ar_kb_entry_id r = Some kb /\ get_kb_entry db kb = None) ->
            rate_ai_response db rating_id v = Returned true db')).
Proof.
  split.
  - intros H. unfold rate_ai_response.
    assert ((v <? 0) || (5 <? v) = true) as ->; [|reflexivity].
    apply orb_true_iff. destruct H; [left | right]; apply Z.ltb_lt; assumption.
  - intros r Hv Hr. pose proof (find_key_eq ar_id _ _ _ Hr) as Hid.
    unfold rate_ai_response.
    assert ((v <? 0) || (5 <? v) = false) as ->.
    { apply orb_false_iff. split; apply Z.ltb_ge; lia. }
    rewrite Hr, Hid.
    set (s1 := set_ai_response_ratings db
                 (update_where (fun x => ar_id x =? rating_id) (set_rating v)
                               (ai_response_ratings db))).
    assert (get_ai_response_rating s1 rating_id = Some (set_rating v r)) as Hget.
    { unfold get_ai_response_rating, s1. simpl.
      rewrite (find_update_where_same ar_id) by reflexivity.
      fold (get_ai_response_rating db rating_id). rewrite Hr. reflexivity. }
    change (get_kb_entry s1) with (get_kb_entry db).
    destruct (Z.eqb_spec v 0) as [Hv0|Hv0]; cbn [andb].
    + destruct (ar_kb_entry_id r) as [kb|] eqn:Ekb; cbn [truthy_id].
      2:{ cbv iota zeta. cbn [db_after]. split; [exact Hget|]. split; [reflexivity|].
          split; [intros; lia|]. split; [intros _ kb e H; discriminate|].
          intros; reflexivity. }
      destruct (Z.eqb_spec kb 0) as [Hkb|Hkb]; cbn [negb]; cbv iota.
      { cbv zeta. cbn [db_after]. split; [exact Hget|]. split; [reflexivity|].
        split; [intros; lia|]. split; [|intros; reflexivity].
        intros _ kb' e H. inversion H. subst kb'. tauto. }
      destruct (get_kb_entry db kb) as [e|] eqn:Ee; cbv zeta; cbn [db_after].
      * split; [exact Hget|]. split; [reflexivity|]. split; [intros; lia|].
        split; [intros; reflexivity|].
        intros _ [H|[H|[kb' [H H']]]]; congruence.
      * split; [exact Hget|]. split; [reflexivity|]. split; [intros; lia|].
        split; [|intros; reflexivity].
        intros _ kb' e H. inversion H. subst kb'. intros _ H'. congruence.
    + cbv iota zeta. cbn [db_after]. split; [exact Hget|]. split; [reflexivity|].
      split; [intros; reflexivity|]. split; intros; lia.
Qed.

(** ** Keyword search *)

Lemma split_go_words (s : string) :
  all_chars not_space (fst (split_go s)) = true
  /\ Forall is_word (snd (split_go s)).
Proof.
  induction s as [|c r [IHw IHws]]; simpl; [auto|].
  destruct (split_go r) as [w ws]. simpl in *.
  destruct (is_space c) eqn:E; simpl.
  - split; [reflexivity|]. unfold cons_nonempty.
    destruct w as [|a w']; simpl; [exact IHws|].
    constructor; [|exact IHws]. split; [discriminate | exact IHw].
  - split; [|exact IHws]. unfold not_space at 1. rewrite E. exact IHw.
Qed.

Lemma split_words (s : string) : Forall is_word (split s).
Proof.
  unfold split. pose proof (split_go_words s) as [Hw Hws].
  destruct (split_go s) as [w ws]. simpl in *. unfold cons_nonempty.
  destruct w as [|a w']; simpl; [exact Hws|].
  constructor; [|exact Hws]. split; [discriminate | exact Hw].
Qed.

Lemma query_words_words (query : string) : Forall is_word (query_words query).
Proof.
  unfold query_words. pose proof (split_words (lower query)) as H.
  destruct (filter significant (split (lower query))) as [|w ws] eqn:E; [exact H|].
  rewrite <- E. apply Forall_forall. intros x Hx. apply filter_In in Hx.
  rewrite Forall_forall in H. apply H. tauto.
Qed.

Lemma is_space_lower_char (a : ascii) : is_space (lower_char a) = is_space a.
Proof. destruct a as [[] [] [] [] [] [] [] []]; reflexivity. Qed.

Lemma any_char_lower (p : ascii -> bool) (s : string) :
  any_char p (lower s) = any_char (fun c => p (lower_char c)) s.
Proof.
  induction s as [|c r IH]; simpl; [reflexivity|]. rewrite IH. reflexivity.
Qed.

Lemma any_char_ext (p q : ascii -> bool) (s : string) :
  (forall c, p c = true -> q c = true) -> any_char p s = true -> any_char q s = true.
Proof.
  intros H. induction s as [|c r IH]; simpl; [auto|].
  rewrite !orb_true_iff. intros [Hc|Hr]; [left; auto | right; auto].
Qed.

Lemma contains_head (c : ascii) (w s : string) :
  contains (String c w) s = true -> any_char (Ascii.eqb c) s = true.
Proof.
  induction s as [|a r IH]; simpl; [discriminate|].
  rewrite !orb_true_iff. intros [H|H].
  - left. destruct (ascii_dec c a) as [E|E]; [|discriminate].
    subst a. apply Ascii.eqb_refl.
  - right. apply IH. exact H.
Qed.

Lemma lstrip_head (s : string) :
  any_char not_space s = true ->
  exists c r, lstrip s = String c r /\ is_space c = false.
Proof.
  induction s as [|c r IH]; simpl; [discriminate|].
  unfold not_space at 1. destruct (is_space c) eqn:E; simpl.
  - exact IH.
  - intros _. exists c, r. auto.
Qed.

Lemma strip_not_empty (s : string) :
  any_char not_space s = true -> strip s <> EmptyString.
Proof.
  intros H. unfold strip. destruct (lstrip_head s H) as [c [r [-> Hc]]].
  simpl. rewrite Hc. discriminate.
Qed.

Lemma count_where_positive {R : Type} (p : R -> bool) (l : list R) :
  0 < count_where p l -> exists x, In x l /\ p x = true.
Proof.
  induction l as [|r l IH]; [unfold count_where; simpl; lia|].
  change (r :: l) with ([r] ++ l). rewrite count_where_app.
  unfold count_where at 1. simpl. destruct (p r) eqn:E.
  - intros _. exists r. auto.
  - simpl. intros H. destruct (IH H) as [x [Hx Hp]]. exists x. auto.
Qed.

(** A text that matches a word of the query strips to a non-empty text. *)
Lemma matched_text_not_empty (words : list string) (text : string) :
  Forall is_word words -> 0 < matches words text -> strip text <> EmptyString.
Proof.
  intros Hw Hm. apply count_where_positive in Hm. destruct Hm as [w [Hin Hc]].
  rewrite Forall_forall in Hw. destruct (Hw w Hin) as [Hne Hns].
  destruct w as [|c w']; [congruence|]. simpl in Hns.
  apply andb_true_iff in Hns. destruct Hns as [Hc0 _].
  apply contains_head in Hc. rewrite any_char_lower in Hc.
  apply strip_not_empty. revert Hc. apply any_char_ext.
  intros a Ha. apply Ascii.eqb_eq in Ha. unfold not_space in *.
  rewrite <- is_space_lower_char, <- Ha. exact Hc0.
Qed.

Lemma score_all_In (words texts : list string) (m : Z) (t : string) :
  In (m, t) (score_all words texts)
  <-> exists p, In p texts /\ m = matches words p /\ 0 < m /\ t = strip p.
Proof.
  induction texts as [|p texts IH]; simpl.
  - split; [tauto | intros [p [[] _]]].
  - destruct (0 <? matches words p) eqn:E; simpl; rewrite IH.
    + apply Z.ltb_lt in E. split.
      * intros [H|[q [Hq H]]].
        -- inversion H. subst. exists p. auto.
        -- exists q. tauto.
      * intros [q [[Hq|Hq] [H1 [H2 H3]]]].
        -- subst. left. reflexivity.
        -- right. exists q. auto.
    + apply Z.ltb_ge in E. split.
      * intros [q [Hq H]]. exists q. tauto.
      * intros [q [[Hq|Hq] [H1 [H2 H3]]]]; [subst; lia|]. exists q. auto.
Qed.

Lemma insert_desc_In (x y : Z * string) (l : list (Z * string)) :
  In y (insert_desc x l) <-> y = x \/ In y l.
Proof.
  induction l as [|z l IH]; simpl; [intuition congruence|].
  destruct (fst x <? fst z); simpl; [rewrite IH|]; intuition congruence.
Qed.

Lemma sort_desc_In (y : Z * string) (l : list (Z * string)) :
  In y (sort_desc l) <-> In y l.
Proof.
  induction l as [|x l IH]; simpl; [tauto|].
  rewrite insert_desc_In, IH. intuition congruence.
Qed.

Lemma insert_desc_ranked (x : Z * string) (l : list (Z * string)) :
  ranked l -> ranked (insert_desc x l).
Proof.
  unfold ranked. induction l as [|z l IH]; simpl; intros H.
  - constructor; constructor.
  - apply StronglySorted_inv in H. destruct H as [Hl Hz].
    destruct (fst x <? fst z) eqn:E.
    + apply Z.ltb_lt in E. constructor; [exact (IH Hl)|].
      apply Forall_forall. intros y Hy. apply insert_desc_In in Hy.
      destruct Hy as [->|Hy]; [lia|]. rewrite Forall_forall in Hz. exact (Hz y Hy).
    + apply Z.ltb_ge in E. constructor; [constructor; assumption|].
      constructor; [exact E|]. rewrite Forall_forall in *. intros y Hy.
      specialize (Hz y Hy). simpl in Hz. lia.
Qed.

Lemma sort_desc_ranked (l : list (Z * string)) : ranked (sort_desc l).
Proof.
  induction l as [|x l IH]; simpl; [constructor|].
  apply insert_desc_ranked. exact IH.
Qed.

(** The head of the ranking has the largest score. *)
Lemma best_matches_top (words : list string) (content : string)
    (top : Z * string) (rest : list (Z * string)) :
  best_matches words content = top :: rest ->
  (exists p, In p (split_paragraphs content)
             /\ top = (matches words p, strip p) /\ 0 < fst top)
  /\ (forall p, In p (split_paragraphs content) -> matches words p <= fst top)
  /\ (forall x, In x rest -> fst x <= fst top).
Proof.
  unfold best_matches. intros H.
  pose proof (sort_desc_ranked (score_all words (split_paragraphs content))) as Hr.
  rewrite H in Hr. apply StronglySorted_inv in Hr. destruct Hr as [_ Hr].
  rewrite Forall_forall in Hr.
  assert (In top (score_all words (split_paragraphs content))) as Htop.
  { apply sort_desc_In. rewrite H. left. reflexivity. }
  destruct top as [m t]. apply score_all_In in Htop.
  destruct Htop as [p [Hp [Hm [Hpos Ht]]]].
  split; [|split].
  - exists p. subst. auto.
  - intros q Hq. simpl. destruct (Z_lt_le_dec 0 (matches words q)) as [Hlt|Hle]; [|lia].
    assert (In (matches words q, strip q) ((m, t) :: rest)) as Hin.
    { rewrite <- H. apply sort_desc_In. apply score_all_In. exists q. auto. }
    destruct Hin as [Hin|Hin]; [inversion Hin; lia|].
    exact (Hr _ Hin).
  - exact Hr.
Qed.

Lemma top_paragraphs_not_empty (n : Z) (top : Z * string) (rest : list (Z * string)) :
  snd top <> EmptyString -> top_paragraphs n top rest <> EmptyString.
Proof.
  intros H. unfold top_paragraphs. destruct (snd top) as [|c r]; [congruence|].
  destruct rest as [|second rest']; [discriminate|].
  destruct (3 * n <=? 10 * fst second); discriminate.
Qed.


(** ** Growing tables *)

Lemma Forall2_same {R : Type} (keep : R -> R -> Prop) (t : list R) :
  (forall r, keep r r) -> Forall2 keep t t.
Proof. intros H. induction t; constructor; auto. Qed.

Lemma Forall2_keys {R : Type} (key : R -> Z) (keep : R -> R -> Prop) (t t' : list R) :
  (forall r r', keep r r' -> key r' = key r) ->
  Forall2 keep t t' -> map key t' = map key t.
Proof.
  intros Hk H. induction H as [|r r' t t' Hr _ IH]; simpl; [reflexivity|].
  rewrite (Hk _ _ Hr), IH. reflexivity.
Qed.

Lemma Forall2_chain {R : Type} (keep : R -> R -> Prop) (t t' t'' : list R) :
  (forall a b c, keep a b -> keep b c -> keep a c) ->
  Forall2 keep t t' -> Forall2 keep t' t'' -> Forall2 keep t t''.
Proof.
  intros Htr H. revert t''. induction H as [|r r' t t' Hr _ IH]; intros t'' H';
    inversion H'; subst; constructor; eauto.
Qed.

Lemma Forall2_split_left {R : Type} (keep : R -> R -> Prop) (a b t' : list R) :
  Forall2 keep (a ++ b) t' ->
  exists a' b', t' = a' ++ b' /\ Forall2 keep a a' /\ Forall2 keep b b'.
Proof.
  revert t'. induction a as [|r a IH]; simpl; intros t' H.
  - exists [], t'. repeat split; [constructor | exact H].
  - inversion H as [|x r' l t1 Hr Ht]. subst.
    destruct (IH t1 Ht) as [a' [b' [-> [Ha Hb]]]].
    exists (r' :: a'), b'. repeat split; [constructor; assumption | exact Hb].
Qed.

Lemma table_grows_refl {R : Type} (key : R -> Z) (keep : R -> R -> Prop) (t : list R) :
  (forall r, keep r r) -> table_grows key keep t t.
Proof.
  intros H. exists t, []. rewrite app_nil_r.
  repeat split; [apply Forall2_same; exact H | constructor | intros r []].
Qed.

Lemma table_grows_trans {R : Type} (key : R -> Z) (keep : R -> R -> Prop)
    (t t' t'' : list R) :
  (forall r r', keep r r' -> key r' = key r) ->
  (forall a b c, keep a b -> keep b c -> keep a c) ->
  table_grows key keep t t' -> table_grows key keep t' t'' ->
  table_grows key keep t t''.
Proof.
  intros Hk Htr [k1 [a1 [-> [H1 [Hn1 Hf1]]]]] [k2 [a2 [-> [H2 [Hn2 Hf2]]]]].
  destruct (Forall2_split_left keep k1 a1 k2 H2) as [k1' [a1' [-> [Hk1 Ha1]]]].
  exists k1', (a1' ++ a2). rewrite app_assoc.
  pose proof (Forall2_keys key keep _ _ Hk Ha1) as Ekeys.
  pose proof (Forall2_keys key keep _ _ Hk H1) as Ekept.
  split; [reflexivity|]. split; [exact (Forall2_chain keep _ _ _ Htr H1 Hk1)|].
  split.
  - rewrite map_app, Ekeys. apply NoDup_app; [exact Hn1 | exact Hn2 |].
    intros k Hin1 Hin2. apply in_map_iff in Hin2. destruct Hin2 as [r [<- Hr]].
    apply (Hf2 r Hr). rewrite map_app. apply in_or_app. right. exact Hin1.
  - intros r Hr Hin. apply in_app_or in Hr. destruct Hr as [Hr|Hr].
    + assert (In (key r) (map key a1)) as Hka by (rewrite <- Ekeys; apply in_map; exact Hr).
      apply in_map_iff in Hka. destruct Hka as [r0 [E Hr0]].
      apply (Hf1 r0 Hr0). rewrite E. exact Hin.
    + apply (Hf2 r Hr). rewrite map_app, Ekept. apply in_or_app. left. exact Hin.
Qed.

Lemma table_grows_update {R : Type} (key : R -> Z) (keep : R -> R -> Prop)
    (p : R -> bool) (f : R -> R) (t : list R) :
  (forall r, keep r r) -> (forall r, keep r (f r)) ->
  table_grows key keep t (update_where p f t).
Proof.
  intros Hr Hf. exists (update_where p f t), []. rewrite app_nil_r.
  repeat split; [|constructor | intros r []].
  unfold update_where. induction t as [|r t IH]; simpl; constructor; [|exact IH].
  destruct (p r); auto.
Qed.

Lemma table_grows_map {R : Type} (key : R -> Z) (keep : R -> R -> Prop)
    (g : R -> R) (t : list R) :
  (forall r, keep r (g r)) -> table_grows key keep t (map g t).
Proof.
  intros Hg. exists (map g t), []. rewrite app_nil_r.
  repeat split; [|constructor | intros r []].
  induction t as [|r t IH]; simpl; constructor; auto.
Qed.

Lemma next_id_above (ids : list Z) (i : Z) : In i ids -> i < next_id ids.
Proof.
  unfold next_id. induction ids as [|x ids IH]; cbn [fold_right In]; [tauto|].
  intros [->|H]; [lia|]. specialize (IH H). lia.
Qed.

Lemma next_id_fresh (ids : list Z) : ~ In (next_id ids) ids.
Proof. intros H. apply next_id_above in H. lia. Qed.

Lemma table_grows_add {R : Type} (key : R -> Z) (keep : R -> R -> Prop)
    (t : list R) (r : R) :
  (forall x, keep x x) -> key r = next_id (map key t) ->
  table_grows key keep t (t ++ [r]).
Proof.
  intros Hr Hkey. exists t, [r].
  repeat split; [apply Forall2_same; exact Hr | | ].
  - simpl. constructor; [tauto | constructor].
  - intros x [<-|[]]. rewrite Hkey. apply next_id_fresh.
Qed.

Lemma table_grows_unique {R : Type} (key : R -> Z) (keep : R -> R -> Prop)
    (t t' : list R) :
  (forall r r', keep r r' -> key r' = key r) ->
  table_grows key keep t t' -> NoDup (map key t) -> NoDup (map key t').
Proof.
  intros Hk [kept [added [-> [H [Hn Hf]]]]] Ht.
  rewrite map_app, (Forall2_keys key keep _ _ Hk H).
  apply NoDup_app; [exact Ht | exact Hn |].
  intros k Hin1 Hin2. apply in_map_iff in Hin2. destruct Hin2 as [r [<- Hr]].
  exact (Hf r Hr Hin1).
Qed.

Lemma table_grows_prefix {R : Type} (key : R -> Z) (t t' : list R) :
  table_grows key eq t t' -> exists added, t' = t ++ added.
Proof.
  intros [kept [added [-> [H _]]]]. exists added. f_equal.
  induction H; [reflexivity | congruence].
Qed.

Lemma table_grows_find {R : Type} (key : R -> Z) (keep : R -> R -> Prop)
    (t t' : list R) (k : Z) (r : R) :
  (forall r r', keep r r' -> key r' = key r) ->
  table_grows key keep t t' ->
  find (fun x => key x =? k) t = Some r ->
  exists r', find (fun x => key x =? k) t' = Some r' /\ keep r r'.
Proof.
  intros Hk [kept [added [-> [H _]]]] Hfind.
  induction H as [|x x' t kept Hx _ IH]; simpl in *; [discriminate|].
  rewrite (Hk _ _ Hx). destruct (key x =? k).
  - inversion Hfind. subst. exists x'. auto.
  - exact (IH Hfind).
Qed.

Ltac same_refl :=
  intros; unfold same_user, same_order, same_complaint, same_bid, same_entry,
    same_rating; simpl; repeat split; reflexivity.

Ltac same_key :=
  unfold same_user, same_order, same_complaint, same_bid, same_entry, same_rating;
  intros; intuition congruence.

Ltac grow :=
  lazymatch goal with
  | |- table_grows _ _ ?t ?t => apply table_grows_refl; same_refl
  | |- table_grows ?key ?keep ?t (update_where _ _ ?t') =>
    apply (table_grows_trans key keep t t');
      [same_key | same_key | grow | apply table_grows_update; same_refl]
  | |- table_grows ?key ?keep ?t (map _ ?t') =>
    apply (table_grows_trans key keep t t');
      [same_key | same_key | grow | apply table_grows_map; same_refl]
  | |- table_grows ?key ?keep ?t (?t' ++ [_]) =>
    apply (table_grows_trans key keep t t');
      [same_key | same_key | grow | apply table_grows_add; [same_refl | reflexivity]]
  end.

Ltac tables :=
  unfold evolves;
  cbn [db_after users orders order_items complaints warnings blacklist
       delivery_bids knowledge_base_entries ai_response_ratings
       set_users set_orders set_order_items set_complaints set_warnings
       set_blacklist set_delivery_bids set_knowledge_base_entries
       set_ai_response_ratings update_user update_order];
  repeat apply conj; grow.

Lemma evolves_refl (db : Store) : evolves db db.
Proof. tables. Qed.

Lemma evolves_trans (db db' db'' : Store) :
  evolves db db' -> evolves db' db'' -> evolves db db''.
Proof.
  unfold evolves.
  intros [H1 [H2 [H3 [H4 [H5 [H6 [H7 [H8 H9]]]]]]]]
         [G1 [G2 [G3 [G4 [G5 [G6 [G7 [G8 G9]]]]]]]].
  repeat apply conj;
    (eapply table_grows_trans; [| | eassumption | eassumption]; same_key).
Qed.

Lemma new_order_items_keys (n order_id : Z) (cart : Cart) (i : OrderItem) :
  In i (new_order_items n order_id cart) -> n <= oi_id i.
Proof.
  revert n. induction cart as [|[menu_id item] cart IH]; simpl; intros n; [tauto|].
  intros [<-|H]; [simpl; lia|]. specialize (IH _ H). lia.
Qed.

Lemma new_order_items_unique (n order_id : Z) (cart : Cart) :
  NoDup (map oi_id (new_order_items n order_id cart)).
Proof.
  revert n. induction cart as [|[menu_id item] cart IH]; simpl; intros n;
    constructor; [|apply IH].
  intros H. apply in_map_iff in H. destruct H as [i [E Hi]].
  apply new_order_items_keys in Hi. lia.
Qed.

Lemma order_items_grow (t : list OrderItem) (order_id : Z) (cart : Cart) :
  table_grows oi_id eq t
    (t ++ new_order_items (next_id (map oi_id t)) order_id cart).
Proof.
  exists t, (new_order_items (next_id (map oi_id t)) order_id cart).
  repeat split; [apply Forall2_same; reflexivity | apply new_order_items_unique |].
  intros i Hi Hin. apply new_order_items_keys in Hi.
  apply next_id_above in Hin. lia.
Qed.

Lemma calculate_vip_status_evolves (db : Store) (user_id : Z) :
  evolves db (db_after (calculate_vip_status db user_id)).
Proof. unfold calculate_vip_status. repeat break_match; tables. Qed.

Lemma place_order_evolves (db : Store) su cart addr notes :
  evolves db (db_after (place_order db su cart addr notes)).
Proof.
  unfold place_order. repeat break_match; try apply evolves_refl.
  cbn [db_after].
  eapply evolves_trans; [|apply calculate_vip_status_evolves].
  unfold evolves.
  cbn [users orders order_items complaints warnings blacklist
       delivery_bids knowledge_base_entries ai_response_ratings
       set_users set_orders set_order_items update_user].
  repeat apply conj; try grow.
  apply order_items_grow.
Qed.

Lemma delivery_bid_evolves (db : Store) su oid amt :
  evolves db (db_after (delivery_bid db su oid amt)).
Proof. unfold delivery_bid. repeat break_match; tables. Qed.

Lemma assign_order_evolves (db : Store) su oid dp :
  evolves db (db_after (assign_order db su oid dp)).
Proof. unfold assign_order. repeat break_match; tables. Qed.

Lemma update_order_status_evolves (db : Store) su oid st :
  evolves db (db_after (update_order_status db su oid st)).
Proof. unfold update_order_status. repeat break_match; tables. Qed.

Lemma file_complaint_evolves (db : Store) su against oid descr :
  evolves db (db_after (file_complaint db su against oid descr)).
Proof. unfold file_complaint. repeat break_match; tables. Qed.

Lemma insert_blacklist_some (db db' : Store) (b : Blacklist) :
  insert_blacklist db b = Some db' ->
  db' = set_blacklist db (blacklist db ++ [b]).
Proof.
  unfold insert_blacklist. destruct (existsb _ _); intros H; inversion H. reflexivity.
Qed.

Lemma process_complaint_decision_evolves (db : Store) now cid decision notes :
  evolves db (db_after (process_complaint_decision db now cid decision notes)).
Proof.
  unfold process_complaint_decision.
  repeat break_match; try apply evolves_refl;
    try match goal with
        | H : insert_blacklist _ _ = Some _ |- _ =>
          apply insert_blacklist_some in H; subst
        end;
    tables.
Qed.

Lemma review_complaint_evolves (db : Store) su now cid dec notes :
  evolves db (db_after (review_complaint db su now cid dec notes)).
Proof.
  destruct (review_complaint_db_after db su now cid dec notes) as [H|H]; rewrite H.
  - apply evolves_refl.
  - apply process_complaint_decision_evolves.
Qed.

Lemma get_ai_response_evolves (db : Store) content key post q uid :
  evolves db (db_after (get_ai_response db content key post q uid)).
Proof.
  unfold get_ai_response.
  destruct (choose_answer content key post q) as [a src].
  destruct (src =? "local")%string; [|tables].
  destruct (find _ _); tables.
Qed.

Lemma rate_ai_response_evolves (db : Store) rid v :
  evolves db (db_after (rate_ai_response db rid v)).
Proof. unfold rate_ai_response. repeat break_match; tables. Qed.

Lemma handle_evolves (db : Store) (r : request) : evolves db (handle db r).
Proof.
  destruct r; simpl.
  - apply place_order_evolves.
  - apply delivery_bid_evolves.
  - apply assign_order_evolves.
  - apply update_order_status_evolves.
  - apply file_complaint_evolves.
  - apply review_complaint_evolves.
  - apply get_ai_response_evolves.
  - apply rate_ai_response_evolves.
Qed.

Lemma run_evolves (db : Store) (rs : list request) : evolves db (run db rs).
Proof.
  revert db. induction rs as [|r rs IH]; intros db; simpl.
  - apply evolves_refl.
  - eapply evolves_trans; [apply handle_evolves | apply IH].
Qed.

(** ** What no request undoes *)

(** X1: primary keys stay unique.  If no table of the database holds a
    primary key twice, none does after any sequence of requests: every row
    a request adds gets a key that is larger than the keys in use. *)
Theorem run_keeps_keys_unique (db : Store) (rs : list request) :
  pk_unique db -> pk_unique (run db rs).
Proof.
  pose proof (run_evolves db rs) as E. unfold evolves in E. unfold pk_unique.
  intros [H1 [H2 [H3 [H4 [H5 [H6 [H7 [H8 H9]]]]]]]].
  destruct E as [E1 [E2 [E3 [E4 [E5 [E6 [E7 [E8 E9]]]]]]]].
  repeat apply conj;
    (eapply table_grows_unique; [| eassumption | assumption]; same_key).
Qed.

(** X2: nothing is deleted.  After any sequence of requests the warnings,
    the Blacklist rows and the order items that were there are still there,
    unchanged and in place, followed by the new ones; so the number of
    warnings of an account never decreases.  The other tables keep the
    primary keys of their rows, in place. *)
Theorem run_never_deletes (db : Store) (rs : list request) :
  (exists added, warnings (run db rs) = warnings db ++ added)
  /\ (exists added, blacklist (run db rs) = blacklist db ++ added)
  /\ (exists added, order_items (run db rs) = order_items db ++ added)
  /\ (forall user_id,
        warning_count db user_id <= warning_count (run db rs) user_id)
  /\ (exists added, map u_id (users (run db rs)) = map u_id (users db) ++ added)
  /\ (exists added, map o_id (orders (run db rs)) = map o_id (orders db) ++ added)
  /\ (exists added,
        map c_id (complaints (run db rs)) = map c_id (complaints db) ++ added)
  /\ (exists added,
        map bid_id (delivery_bids (run db rs))
        = map bid_id (delivery_bids db) ++ added)
  /\ (exists added,
        map ar_id (ai_response_ratings (run db rs))
        = map ar_id (ai_response_ratings db) ++ added).
Proof.
  pose proof (run_evolves db rs) as E. unfold evolves in E.
  destruct E as [E1 [E2 [E3 [E4 [E5 [E6 [E7 [E8 E9]]]]]]]].
  assert (forall (R : Type) (key : R -> Z) (keep : R -> R -> Prop) (t t' : list R),
            (forall r r', keep r r' -> key r' = key r) ->
            table_grows key keep t t' ->
            exists added, map key t' = map key t ++ added) as Hkeys.
  { intros R key keep t t' Hk [kept [added [-> [H _]]]].
    exists (map key added). rewrite map_app, (Forall2_keys key keep _ _ Hk H).
    reflexivity. }
  split; [exact (table_grows_prefix _ _ _ E5)|].
  split; [exact (table_grows_prefix _ _ _ E6)|].
  split; [exact (table_grows_prefix _ _ _ E3)|].
  split.
  { intros uid. destruct (table_grows_prefix _ _ _ E5) as [added Ha].
    unfold warning_count. rewrite Ha, count_where_app.
    pose proof (count_where_nonneg (fun w => w_user_id w =? uid) added). lia. }
  repeat apply conj; (eapply Hkeys; [| eassumption]; same_key).
Qed.

Lemma find_app_some {R : Type} (p : R -> bool) (t added : list R) (r : R) :
  find p t = Some r -> find p (t ++ added) = Some r.
Proof.
  induction t as [|x t IH]; simpl; [discriminate|].
  destruct (p x); [auto | exact IH].
Qed.

Lemma place_order_blacklisted (db : Store) (user_id : Z) (cart : Cart)
    (addr notes : string) :
  is_user_blacklisted db user_id = true ->
  exists resp,
    place_order db (Some user_id) cart addr notes = Returned (resp, cart) db
    /\ flash_category resp <> "success".
Proof.
  intros Hb. unfold place_order.
  destruct (current_user db (Some user_id)) as [cu|] eqn:Hcu.
  - destruct (current_user_inv _ _ _ Hcu) as [id [E [Hu _]]].
    inversion E. subst id. rewrite (get_user_id _ _ _ Hu).
    destruct (negb (str_in (u_role cu) ["Customer"; "VIP"])).
    + eexists. split; [reflexivity | discriminate].
    + unfold can_user_place_order. rewrite Hb. simpl.
      eexists. split; [reflexivity | discriminate].
  - eexists. split; [reflexivity | discriminate].
Qed.

(** X3: a ban is permanent.  An account with a Blacklist row keeps it
    through every sequence of requests, and each order it tries to place
    afterwards is refused: database and cart stay as they are. *)
Theorem blacklisted_never_orders (db : Store) (user_id : Z) (rs : list request)
    (cart : Cart) (addr notes : string) :
  is_user_blacklisted db user_id = true ->
  is_user_blacklisted (run db rs) user_id = true
  /\ exists resp,
       place_order (run db rs) (Some user_id) cart addr notes
       = Returned (resp, cart) (run db rs)
       /\ flash_category resp <> "success".
Proof.
  intros Hb.
  assert (is_user_blacklisted (run db rs) user_id = true) as Hb'.
  { pose proof (run_evolves db rs) as E. unfold evolves in E.
    destruct E as [_ [_ [_ [_ [_ [E6 _]]]]]].
    destruct (table_grows_prefix _ _ _ E6) as [added Ha].
    unfold is_user_blacklisted in *. rewrite Ha.
    destruct (find (fun b => bl_user_id b =? user_id) (blacklist db)) as [b|] eqn:F;
      [|discriminate].
    rewrite (find_app_some _ _ added b F). reflexivity. }
  split; [exact Hb'|]. apply place_order_blacklisted. exact Hb'.
Qed.

(** X4: what a row keeps.  Through every sequence of requests an order
    keeps its customer, total, address and notes; a complaint its filer, its
    target, its order and its description; a knowledge-base entry its
    question and answer; a feedback record its entry, user, query, response
    and source; an account stays in the table. *)
Theorem run_keeps_columns (db : Store) (rs : list request) :
  (forall id o, get_order db id = Some o ->
     exists o', get_order (run db rs) id = Some o' /\ same_order o o')
  /\ (forall id c, get_complaint db id = Some c ->
        exists c', get_complaint (run db rs) id = Some c' /\ same_complaint c c')
  /\ (forall id e, get_kb_entry db id = Some e ->
        exists e', get_kb_entry (run db rs) id = Some e' /\ same_entry e e')
  /\ (forall id r, get_ai_response_rating db id = Some r ->
        exists r', get_ai_response_rating (run db rs) id = Some r' /\ same_rating r r')
  /\ (forall id u, get_user db id = Some u ->
        exists u', get_user (run db rs) id = Some u').
Proof.
  pose proof (run_evolves db rs) as E. unfold evolves in E.
  destruct E as [E1 [E2 [E3 [E4 [E5 [E6 [E7 [E8 E9]]]]]]]].
  repeat apply conj; intros id r Hr.
  - eapply (table_grows_find o_id); [| eassumption | exact Hr]. same_key.
  - eapply (table_grows_find c_id); [| eassumption | exact Hr]. same_key.
  - eapply (table_grows_find kb_id); [| eassumption | exact Hr]. same_key.
  - eapply (table_grows_find ar_id); [| eassumption | exact Hr]. same_key.
  - destruct (table_grows_find u_id same_user _ _ id r
                ltac:(same_key) E1 Hr) as [u' [Hu' _]].
    exists u'. exact Hu'.
Qed.

(** ** Order totals *)

Lemma Forall2_update_where {R : Type} (keep : R -> R -> Prop) (p : R -> bool)
    (f : R -> R) (t : list R) :
  (forall r, keep r r) -> (forall r, keep r (f r)) ->
  Forall2 keep t (update_where p f t).
Proof.
  intros Hr Hf. unfold update_where.
  induction t as [|r t IH]; simpl; constructor; [|exact IH].
  destruct (p r); auto.
Qed.

Lemma Forall2_in_right {R : Type} (keep : R -> R -> Prop) (t t' : list R) (y : R) :
  Forall2 keep t t' -> In y t' -> exists x, In x t /\ keep x y.
Proof.
  intros H. induction H as [|a b t t' Hab _ IH]; simpl; [tauto|].
  intros [<-|Hy]; [exists a; auto|].
  destruct (IH Hy) as [x [Hx Hk]]. exists x. auto.
Qed.

Ltac kept :=
  unfold orders_kept;
  cbn [db_after users orders order_items complaints warnings blacklist
       delivery_bids knowledge_base_entries ai_response_ratings
       set_users set_orders set_order_items set_complaints set_warnings
       set_blacklist set_delivery_bids set_knowledge_base_entries
       set_ai_response_ratings update_user update_order];
  split; [|reflexivity];
  first [ apply Forall2_same; same_refl
        | apply Forall2_update_where; same_refl ].

Lemma calculate_vip_status_orders_kept (db : Store) (user_id : Z) :
  orders_kept db (db_after (calculate_vip_status db user_id)).
Proof. unfold calculate_vip_status. repeat break_match; kept. Qed.

Lemma delivery_bid_orders_kept (db : Store) su oid amt :
  orders_kept db (db_after (delivery_bid db su oid amt)).
Proof. unfold delivery_bid. repeat break_match; kept. Qed.

Lemma assign_order_orders_kept (db : Store) su oid dp :
  orders_kept db (db_after (assign_order db su oid dp)).
Proof. unfold assign_order. repeat break_match; kept. Qed.

Lemma update_order_status_orders_kept (db : Store) su oid st :
  orders_kept db (db_after (update_order_status db su oid st)).
Proof. unfold update_order_status. repeat break_match; kept. Qed.

Lemma file_complaint_orders_kept (db : Store) su against oid descr :
  orders_kept db (db_after (file_complaint db su against oid descr)).
Proof. unfold file_complaint. repeat break_match; kept. Qed.

Lemma process_complaint_decision_orders_kept (db : Store) now cid decision notes :
  orders_kept db (db_after (process_complaint_decision db now cid decision notes)).
Proof.
  unfold process_complaint_decision.
  repeat break_match;
    try match goal with
        | H : insert_blacklist _ _ = Some _ |- _ =>
          apply insert_blacklist_some in H; subst
        end;
    kept.
Qed.

Lemma review_complaint_orders_kept (db : Store) su now cid dec notes :
  orders_kept db (db_after (review_complaint db su now cid dec notes)).
Proof.
  destruct (review_complaint_db_after db su now cid dec notes) as [H|H]; rewrite H.
  - kept.
  - apply process_complaint_decision_orders_kept.
Qed.

Lemma get_ai_response_orders_kept (db : Store) content key post q uid :
  orders_kept db (db_after (get_ai_response db content key post q uid)).
Proof.
  unfold get_ai_response.
  destruct (choose_answer content key post q) as [a src].
  destruct (src =? "local")%string; [|kept].
  destruct (find _ _); kept.
Qed.

Lemma rate_ai_response_orders_kept (db : Store) rid v :
  orders_kept db (db_after (rate_ai_response db rid v)).
Proof. unfold rate_ai_response. repeat break_match; kept. Qed.

Lemma totals_kept (db db' : Store) :
  orders_kept db db' -> totals_consistent db -> totals_consistent db'.
Proof.
  intros [Ho Hi] [Ht Hr]. unfold totals_consistent, items_of. rewrite Hi. split.
  - intros o' Ho'. destruct (Forall2_in_right _ _ _ _ Ho Ho') as [o [Hin Hs]].
    destruct Hs as [Hid [_ [Htot _]]]. rewrite Hid, Htot. exact (Ht o Hin).
  - intros i Hin.
    rewrite (Forall2_keys o_id same_order _ _ ltac:(same_key) Ho).
    exact (Hr i Hin).
Qed.

Lemma filter_none {R : Type} (p : R -> bool) (l : list R) :
  (forall x, In x l -> p x = false) -> filter p l = [].
Proof.
  induction l as [|x l IH]; simpl; intros H; [reflexivity|].
  rewrite (H x (or_introl eq_refl)). apply IH. auto.
Qed.

Lemma filter_all {R : Type} (p : R -> bool) (l : list R) :
  (forall x, In x l -> p x = true) -> filter p l = l.
Proof.
  induction l as [|x l IH]; simpl; intros H; [reflexivity|].
  rewrite (H x (or_introl eq_refl)). f_equal. apply IH. auto.
Qed.

Lemma new_order_items_order (n order_id : Z) (cart : Cart) (i : OrderItem) :
  In i (new_order_items n order_id cart) -> oi_order_id i = order_id.
Proof.
  revert n. induction cart as [|[menu_id item] cart IH]; simpl; intros n; [tauto|].
  intros [<-|H]; [reflexivity | exact (IH _ H)].
Qed.


Lemma new_order_items_subtotals (n order_id : Z) (cart : Cart) :
  map oi_subtotal (new_order_items n order_id cart)
  = map (fun kv => amount_mul (ci_price (snd kv)) (ci_quantity (snd kv))) cart.
Proof.
  revert n. induction cart as [|[menu_id item] cart IH]; simpl; intros n;
    [reflexivity|]. rewrite IH. reflexivity.
Qed.

Lemma place_order_totals (db : Store) su cart addr notes :
  totals_consistent db ->
  totals_consistent (db_after (place_order db su cart addr notes)).
Proof.
  intros Hc. unfold place_order. repeat break_match; try exact Hc.
  cbn [db_after].
  eapply totals_kept; [apply calculate_vip_status_orders_kept|].
  destruct Hc as [Ht Hr].
  set (new_id := next_id (map o_id (orders db))).
  unfold totals_consistent, items_of.
  cbn [orders order_items set_users set_orders set_order_items update_user o_id].
  fold new_id. split.
  - intros ord Hord. rewrite filter_app. apply in_app_or in Hord.
    destruct Hord as [Hord|[<-|[]]].
    + rewrite (filter_none _ (new_order_items _ new_id _)).
      * rewrite app_nil_r. exact (Ht ord Hord).
      * intros itm Hitm. apply new_order_items_order in Hitm. rewrite Hitm.
        apply Z.eqb_neq. intros E.
        apply (next_id_fresh (map o_id (orders db))). fold new_id. rewrite E.
        apply in_map. exact Hord.
    + cbn [o_id o_total_amount].
      rewrite (filter_none _ (order_items db)).
      * rewrite (filter_all _ (new_order_items _ new_id _)).
        -- rewrite app_nil_l, new_order_items_subtotals. reflexivity.
        -- intros itm Hitm. apply new_order_items_order in Hitm. rewrite Hitm.
           apply Z.eqb_refl.
      * intros itm Hitm. apply Z.eqb_neq. intros E.
        apply (next_id_fresh (map o_id (orders db))). fold new_id. rewrite <- E.
        exact (Hr itm Hitm).
  - intros itm Hitm. rewrite map_app. apply in_or_app.
    apply in_app_or in Hitm. destruct Hitm as [Hitm|Hitm].
    + left. exact (Hr itm Hitm).
    + right. apply new_order_items_order in Hitm. rewrite Hitm. simpl. auto.
Qed.

Lemma handle_totals (db : Store) (r : request) :
  totals_consistent db -> totals_consistent (handle db r).
Proof.
  intros Hc. destruct r; simpl.
  - apply place_order_totals. exact Hc.
  - exact (totals_kept _ _ (delivery_bid_orders_kept _ _ _ _) Hc).
  - exact (totals_kept _ _ (assign_order_orders_kept _ _ _ _) Hc).
  - exact (totals_kept _ _ (update_order_status_orders_kept _ _ _ _) Hc).
  - exact (totals_kept _ _ (file_complaint_orders_kept _ _ _ _ _) Hc).
  - exact (totals_kept _ _ (review_complaint_orders_kept _ _ _ _ _ _) Hc).
  - exact (totals_kept _ _ (get_ai_response_orders_kept _ _ _ _ _ _) Hc).
  - exact (totals_kept _ _ (rate_ai_response_orders_kept _ _ _) Hc).
Qed.

(** X5: order totals.  If every order totals the subtotals of its line
    items (Python's sum of them, in table order) and every line item belongs
    to an order, the same holds after any sequence of requests: placement
    adds an order together with its items, and no request touches a total, a
    subtotal or the order of an item afterwards. *)
Theorem run_keeps_totals (db : Store) (rs : list request) :
  totals_consistent db -> totals_consistent (run db rs).
Proof.
  revert db. induction rs as [|r rs IH]; intros db Hc; simpl.
  - exact Hc.
  - apply IH. apply handle_totals. exact Hc.
Qed.

(** ** A placed order *)




(** ** Calls one after the other *)

(** X7: promotion is idempotent.  A second call of calculate_vip_status on
    the database the first call left returns what the first returned and
    changes nothing more. *)
Theorem calculate_vip_status_idempotent (db db' : Store) (user_id : Z) (b : bool) :
  calculate_vip_status db user_id = Returned b db' ->
  calculate_vip_status db' user_id = Returned b db'.
Proof.
  intros H. pose proof H as H0. unfold calculate_vip_status in H.
  destruct (get_user db user_id) as [user|] eqn:Hu.
  2:{ inversion H. subst. exact H0. }
  pose proof (get_user_id _ _ _ Hu) as Hid. rewrite Hid in H.
  assert (calculate_vip_status (update_user db user_id (set_role "VIP")) user_id
          = Returned true (update_user db user_id (set_role "VIP"))) as Hvip.
  { unfold calculate_vip_status.
    rewrite get_user_update_user by reflexivity. rewrite Hu. reflexivity. }
  destruct (str_in (u_role user) ["Chef"; "DeliveryPerson"; "Manager"]);
    [inversion H; subst; exact H0|].
  destruct (u_role user =? "VIP")%string; [inversion H; subst; exact H0|].
  destruct (amount_ltb amount_100 (or_zero (sum_delivered db user_id)));
    [inversion H; subst; exact Hvip|].
  destruct ((3 <=? Z.of_nat (List.length (delivered_orders db user_id)))
            && (approved_complaints db (map o_id (delivered_orders db user_id)) =? 0));
    inversion H; subst; [exact Hvip | exact H0].
Qed.

Lemma place_order_inactive (db : Store) (user_id : Z) (user : User) (cart : Cart)
    (addr notes : string) :
  get_user db user_id = Some user ->
  u_is_active user = false ->
  place_order db (Some user_id) cart addr notes = Returned (unauthorized, cart) db.
Proof.
  intros Hu Hact. unfold place_order.
  rewrite (current_user_inactive _ _ _ Hu Hact). reflexivity.
Qed.

(** X9: firing and rehiring.  After an active manager fires an account,
    that account is turned away at the login check: an order it tries to
    place changes nothing, and neither does its own attempt to hire or fire.
    Rehiring makes the account active again and leaves the Blacklist table
    as it is: an account that was blacklisted is still refused. *)
Theorem hire_fire_and_orders (username : Z -> string) (db : Store)
    (id user_id : Z) (cu user : User) (cart : Cart) (addr notes : string) :
  get_user db id = Some cu ->
  u_is_active cu = true ->
  u_role cu = "Manager" ->
  get_user db user_id = Some user ->
  (let db' := db_after (hire_fire username db (Some id) user_id (Some "fire")) in
   get_user db' user_id = Some (set_is_active false user)
   /\ place_order db' (Some user_id) cart addr notes = Returned (unauthorized, cart) db'
   /\ forall target action,
        hire_fire username db' (Some user_id) target action = Returned unauthorized db')
  /\ (let db' := db_after (hire_fire username db (Some id) user_id (Some "hire")) in
      get_user db' user_id = Some (set_is_active true user)
      /\ blacklist db' = blacklist db
      /\ (is_user_blacklisted db user_id = true ->
          exists resp,
            place_order db' (Some user_id) cart addr notes = Returned (resp, cart) db'
            /\ flash_category resp <> "success")).
Proof.
  intros Hcu Hact Hrole Hu. pose proof (get_user_id _ _ _ Hu) as Hid.
  unfold hire_fire at 1 3.
  rewrite (current_user_active _ _ _ Hcu Hact), Hrole, Hu, Hid. simpl negb. cbv iota.
  simpl opt_str_eqb. cbv iota. cbn [db_after]. split.
  - assert (get_user (update_user db user_id (set_is_active false)) user_id
            = Some (set_is_active false user)) as Hget.
    { rewrite get_user_update_user by reflexivity. rewrite Hu. reflexivity. }
    split; [exact Hget|]. split.
    + exact (place_order_inactive _ _ _ cart addr notes Hget eq_refl).
    + intros target action. unfold hire_fire.
      rewrite (current_user_inactive _ _ _ Hget eq_refl). reflexivity.
  - split; [|split; [reflexivity|]].
    + rewrite get_user_update_user by reflexivity. rewrite Hu. reflexivity.
    + intros Hb. apply place_order_blacklisted. exact Hb.
Qed.

(** ** Answers and their feedback records *)

Lemma find_app_new {R : Type} (key : R -> Z) (t : list R) (r : R) :
  key r = next_id (map key t) ->
  find (fun x => key x =? key r) (t ++ [r]) = Some r.
Proof.
  intros Hk.
  assert (forall x, In x t -> (key x =? key r) = false) as Hnew.
  { intros x Hx. apply Z.eqb_neq. intros E.
    apply (next_id_fresh (map key t)). rewrite <- Hk, <- E. apply in_map. exact Hx. }
  induction t as [|x t IH]; simpl.
  - rewrite Z.eqb_refl. reflexivity.
  - rewrite (Hnew x (or_introl eq_refl)).
    assert (find (fun x0 => key x0 =? key r) (t ++ [r]) = Some r) as Hrec; [|exact Hrec].
    clear IH Hk.
    induction t as [|y t IH]; simpl; [rewrite Z.eqb_refl; reflexivity|].
    rewrite (Hnew y (or_intror (or_introl eq_refl))). apply IH.
    intros z Hz. apply Hnew. destruct Hz as [<-|Hz]; simpl; auto.
Qed.

Lemma get_ai_response_record (db : Store) (content : option string)
    (api_key : string) (post : string -> http_outcome) (query : string)
    (user_id : option Z) :
  exists reply db' r,
    get_ai_response db content api_key post query user_id = Returned reply db'
    /\ (answer reply, source reply) = choose_answer content api_key post query
    /\ get_ai_response_rating db' (rating_id reply) = Some r
    /\ ar_rating r = 0 /\ ar_query r = query /\ ar_user_id r = user_id
    /\ ar_response r = answer reply /\ ar_source r = source reply
    /\ (source reply = "local" ->
          exists e, In e (knowledge_base_entries db')
                    /\ kb_question e = query
                    /\ ar_kb_entry_id r = Some (kb_id e)
                    /\ (In e (knowledge_base_entries db)
                        \/ kb_id e = next_id (map kb_id (knowledge_base_entries db))))
    /\ (source reply <> "local" ->
          ar_kb_entry_id r = None
          /\ knowledge_base_entries db' = knowledge_base_entries db).
Proof.
  unfold get_ai_response.
  destruct (choose_answer content api_key post query) as [a src].
  set (found := find (fun e => (kb_question e =? query)%string)
                     (knowledge_base_entries db)).
  assert (forall kb_entry s1,
            ai_response_ratings s1 = ai_response_ratings db ->
            let r := mkAIResponseRating (next_id (map ar_id (ai_response_ratings s1)))
                       (option_map kb_id kb_entry) user_id query a 0 src in
            get_ai_response_rating
              (set_ai_response_ratings s1 (ai_response_ratings s1 ++ [r])) (ar_id r)
            = Some r) as Hnew.
  { intros kb_entry s1 _ r. unfold get_ai_response_rating.
    cbn [ai_response_ratings set_ai_response_ratings].
    apply (find_app_new ar_id). reflexivity. }
  destruct (String.eqb_spec src "local") as [Hsrc|Hsrc].
  - destruct found as [e|] eqn:Hfound.
    + eexists. eexists. eexists. split; [reflexivity|]. split; [reflexivity|].
      split; [exact (Hnew (Some e) db eq_refl)|].
      repeat (split; [reflexivity|]).
      split; [|intros H; contradiction].
      intros _. exists e. unfold found in Hfound. apply find_some in Hfound.
      destruct Hfound as [Hin Hq]. apply String.eqb_eq in Hq.
      split; [exact Hin|]. split; [exact Hq|]. split; [reflexivity|].
      left. exact Hin.
    + eexists. eexists. eexists. split; [reflexivity|]. split; [reflexivity|].
      split; [exact (Hnew (Some _) (set_knowledge_base_entries db _) eq_refl)|].
      repeat (split; [reflexivity|]).
      split; [|intros H; contradiction].
      intros _. eexists. split; [|split; [|split; [reflexivity|]]].
      * cbn [knowledge_base_entries set_ai_response_ratings
             set_knowledge_base_entries].
        apply in_or_app. right. left. reflexivity.
      * reflexivity.
      * right. reflexivity.
  - eexists. eexists. eexists. split; [reflexivity|]. split; [reflexivity|].
    split; [exact (Hnew None db eq_refl)|].
    repeat (split; [reflexivity|]).
    split; [intros H; contradiction|]. intros _; split; reflexivity.
Qed.


Lemma find_in_key {R : Type} (key : R -> Z) (t : list R) (x : R) :
  In x t -> exists y, find (fun r => key r =? key x) t = Some y.
Proof.
  intros H. destruct (find (fun r => key r =? key x) t) as [y|] eqn:E.
  - exists y. reflexivity.
  - exfalso. pose proof (find_none _ _ E x H) as Hx. simpl in Hx. lia.
Qed.

(** X10: every answer leaves a record, and what rating it does.
    get_ai_response returns the id of a new feedback record that holds the
    query, the answer and the source, with the value 0; a local answer is
    linked to an entry of the knowledge base whose question is the query, an
    answer of the completion service is linked to none and adds no entry.
    Rating that id with a value of 1..5 returns true and stores the value.
    Rating it 0 returns true for an answer of the completion service; for a
    local answer, entry ids being other than 0, it raises AttributeError and
    leaves the knowledge base as it is: the entry is not flagged. *)
Theorem get_ai_response_stores (db : Store) (content : option string)
    (api_key : string) (post : string -> http_outcome) (query : string)
    (user_id : option Z) :
  exists reply db' r,
    get_ai_response db content api_key post query user_id = Returned reply db'
    /\ (answer reply, source reply) = choose_answer content api_key post query
    /\ get_ai_response_rating db' (rating_id reply) = Some r
    /\ ar_rating r = 0 /\ ar_query r = query /\ ar_user_id r = user_id
    /\ ar_response r = answer reply /\ ar_source r = source reply
    /\ (source reply = "local" ->
          exists e, In e (knowledge_base_entries db')
                    /\ kb_question e = query
                    /\ ar_kb_entry_id r = Some (kb_id e))
    /\ (source reply <> "local" ->
          ar_kb_entry_id r = None
          /\ knowledge_base_entries db' = knowledge_base_entries db)
    /\ (forall v, 1 <= v <= 5 ->
          exists db'',
            rate_ai_response db' (rating_id reply) v = Returned true db''
            /\ option_map ar_rating (get_ai_response_rating db'' (rating_id reply))
               = Some v
            /\ knowledge_base_entries db'' = knowledge_base_entries db')
    /\ (source reply <> "local" ->
          exists db'', rate_ai_response db' (rating_id reply) 0 = Returned true db'')
    /\ (source reply = "local" ->
          (forall e, In e (knowledge_base_entries db) -> kb_id e <> 0) ->
          exists db'',
            rate_ai_response db' (rating_id reply) 0 = Raised AttributeError db''
            /\ knowledge_base_entries db'' = knowledge_base_entries db').
Proof.
  destruct (get_ai_response_record db content api_key post query user_id)
    as [reply [db' [r [Hrun [Hans [Hr [H0 [Hq [Hu [Hresp [Hsrc [Hloc Hllm]]]]]]]]]]]].
  exists reply, db', r.
  repeat (split; [assumption|]).
  split.
  { intros Hl. destruct (Hloc Hl) as [e [He [Hqe [Hk _]]]]. exists e. auto. }
  split; [exact Hllm|].
  split; [|split].
  - intros v Hv.
    destruct (rate_ai_response_outcomes db' (rating_id reply) v) as [_ H].
    specialize (H r ltac:(lia) Hr). cbv zeta in H.
    destruct H as [Hget [Hkb [Htrue _]]].
    eexists. split; [apply Htrue; lia|]. split; [rewrite Hget; reflexivity | exact Hkb].
  - intros Hl. destruct (Hllm Hl) as [Hnone _].
    destruct (rate_ai_response_outcomes db' (rating_id reply) 0) as [_ H].
    specialize (H r ltac:(lia) Hr). cbv zeta in H.
    destruct H as [_ [_ [_ [_ Htrue]]]].
    eexists. apply Htrue; [reflexivity | left; exact Hnone].
  - intros Hl Hids. destruct (Hloc Hl) as [e [He [_ [Hk Horigin]]]].
    destruct (rate_ai_response_outcomes db' (rating_id reply) 0) as [_ H].
    specialize (H r ltac:(lia) Hr). cbv zeta in H.
    destruct H as [_ [Hkb [_ [Hraise _]]]].
    destruct (find_in_key kb_id _ _ He) as [e0 He0].
    eexists. split; [|exact Hkb].
    apply (Hraise eq_refl (kb_id e) e0 Hk); [|exact He0].
    destruct Horigin as [Hin|Hnew]; [exact (Hids e Hin)|].
    rewrite Hnew. unfold next_id.
    assert (0 <= fold_right Z.max 0 (map kb_id (knowledge_base_entries db))) as Hpos.
    { generalize (map kb_id (knowledge_base_entries db)). intros l.
      induction l as [|x l IH]; simpl; lia. }
    lia.
Qed.

(** ** The knowledge base over time *)

Ltac untouched := unfold kb_untouched; split; reflexivity.

Lemma calculate_vip_status_kb (db : Store) (user_id : Z) :
  kb_untouched db (db_after (calculate_vip_status db user_id)).
Proof. unfold calculate_vip_status. repeat break_match; untouched. Qed.

Lemma place_order_kb (db : Store) su cart addr notes :
  kb_untouched db (db_after (place_order db su cart addr notes)).
Proof.
  unfold place_order. repeat break_match; try untouched.
  cbn [db_after].
  match goal with
  | |- kb_untouched _ (db_after (calculate_vip_status ?s ?u)) =>
    destruct (calculate_vip_status_kb s u) as [H1 H2]
  end.
  split; [rewrite H1 | rewrite H2]; reflexivity.
Qed.

Lemma delivery_bid_kb (db : Store) su oid amt :
  kb_untouched db (db_after (delivery_bid db su oid amt)).
Proof. unfold delivery_bid. repeat break_match; untouched. Qed.

Lemma assign_order_kb (db : Store) su oid dp :
  kb_untouched db (db_after (assign_order db su oid dp)).
Proof. unfold assign_order. repeat break_match; untouched. Qed.

Lemma update_order_status_kb (db : Store) su oid st :
  kb_untouched db (db_after (update_order_status db su oid st)).
Proof. unfold update_order_status. repeat break_match; untouched. Qed.

Lemma file_complaint_kb (db : Store) su against oid descr :
  kb_untouched db (db_after (file_complaint db su against oid descr)).
Proof. unfold file_complaint. repeat break_match; untouched. Qed.

Lemma process_complaint_decision_kb (db : Store) now cid decision notes :
  kb_untouched db (db_after (process_complaint_decision db now cid decision notes)).
Proof.
  unfold process_complaint_decision.
  repeat break_match;
    try match goal with
        | H : insert_blacklist _ _ = Some _ |- _ =>
          apply insert_blacklist_some in H; subst
        end;
    untouched.
Qed.

Lemma review_complaint_kb (db : Store) su now cid dec notes :
  kb_untouched db (db_after (review_complaint db su now cid dec notes)).
Proof.
  destruct (review_complaint_db_after db su now cid dec notes) as [H|H]; rewrite H.
  - untouched.
  - apply process_complaint_decision_kb.
Qed.

Lemma map_update_where_field {R F : Type} (field : R -> F) (p : R -> bool)
    (f : R -> R) (t : list R) :
  (forall r, field (f r) = field r) ->
  map field (update_where p f t) = map field t.
Proof.
  intros H. unfold update_where. rewrite map_map. apply map_ext.
  intros r. destruct (p r); [apply H | reflexivity].
Qed.

Lemma get_ai_response_questions (db : Store) content key post q uid :
  questions_unique db ->
  questions_unique (db_after (get_ai_response db content key post q uid)).
Proof.
  unfold questions_unique, get_ai_response. intros Hq.
  destruct (choose_answer content key post q) as [a src].
  destruct (src =? "local")%string; [|exact Hq].
  destruct (find (fun e => (kb_question e =? q)%string) (knowledge_base_entries db))
    eqn:F; [exact Hq|].
  cbn [db_after knowledge_base_entries set_ai_response_ratings
       set_knowledge_base_entries].
  rewrite map_app. apply NoDup_app; [exact Hq | constructor; [tauto | constructor] |].
  intros x Hx [<-|[]]. apply in_map_iff in Hx. destruct Hx as [e [He Hin]].
  pose proof (find_none _ _ F e Hin) as Hn. simpl in He, Hn.
  rewrite He, String.eqb_refl in Hn. discriminate.
Qed.

Lemma rate_ai_response_questions (db : Store) rid v :
  map kb_question (knowledge_base_entries (db_after (rate_ai_response db rid v)))
  = map kb_question (knowledge_base_entries db).
Proof.
  unfold rate_ai_response.
  repeat break_match;
    cbn [db_after knowledge_base_entries set_ai_response_ratings
         set_knowledge_base_entries];
    rewrite ?map_update_where_field by reflexivity; reflexivity.
Qed.

Lemma handle_questions (db : Store) (r : request) :
  questions_unique db -> questions_unique (handle db r).
Proof.
  intros Hq.
  assert (forall db', kb_untouched db db' -> questions_unique db') as Hsame.
  { intros db' [H _]. unfold questions_unique. rewrite H. exact Hq. }
  destruct r; simpl.
  - apply Hsame, place_order_kb.
  - apply Hsame, delivery_bid_kb.
  - apply Hsame, assign_order_kb.
  - apply Hsame, update_order_status_kb.
  - apply Hsame, file_complaint_kb.
  - apply Hsame, review_complaint_kb.
  - apply get_ai_response_questions. exact Hq.
  - unfold questions_unique. rewrite rate_ai_response_questions. exact Hq.
Qed.

(** X11: one entry per question.  If no two entries of the knowledge base
    hold the same question, none do after any sequence of requests: an
    answer is stored under a question only when no entry holds exactly that
    question, and no request rewrites a question. *)
Theorem run_keeps_questions_unique (db : Store) (rs : list request) :
  questions_unique db -> questions_unique (run db rs).
Proof.
  revert db. induction rs as [|r rs IH]; intros db Hq; simpl.
  - exact Hq.
  - apply IH. apply handle_questions. exact Hq.
Qed.

Lemma in_update_where_inv {R : Type} (p : R -> bool) (f : R -> R) (l : list R) (y : R) :
  In y (update_where p f l) -> In y l \/ exists x, In x l /\ p x = true /\ y = f x.
Proof.
  unfold update_where. intros H. apply in_map_iff in H. destruct H as [x [E Hx]].
  destruct (p x) eqn:Ep; [right; exists x; auto | left; subst; exact Hx].
Qed.

Lemma rate_ai_response_in_range (db : Store) rid v :
  ratings_in_range db -> ratings_in_range (db_after (rate_ai_response db rid v)).
Proof.
  intros Hr. unfold rate_ai_response.
  destruct ((v <? 0) || (5 <? v)) eqn:Ev; [exact Hr|].
  apply orb_false_iff in Ev. destruct Ev as [E1 E2].
  apply Z.ltb_ge in E1. apply Z.ltb_ge in E2.
  assert (forall db',
            ai_response_ratings db'
            = update_where (fun r => ar_id r =? rid) (set_rating v)
                           (ai_response_ratings db) ->
            ratings_in_range db') as Hset.
  { intros db' E r Hin. rewrite E in Hin. apply in_update_where_inv in Hin.
    destruct Hin as [Hin|[x [_ [_ ->]]]]; [exact (Hr r Hin) | simpl; lia]. }
  destruct (get_ai_response_rating db rid) as [rec|] eqn:Hrec; [|exact Hr].
  rewrite (find_key_eq ar_id _ _ _ Hrec).
  repeat break_match; apply Hset; reflexivity.
Qed.

Lemma get_ai_response_in_range (db : Store) content key post q uid :
  ratings_in_range db ->
  ratings_in_range (db_after (get_ai_response db content key post q uid)).
Proof.
  intros Hr. unfold get_ai_response.
  destruct (choose_answer content key post q) as [a src].
  assert (forall db' r0,
            ar_rating r0 = 0 ->
            ai_response_ratings db' = ai_response_ratings db ++ [r0] ->
            ratings_in_range db') as Hadd.
  { intros db' r0 H0 E r Hin. rewrite E in Hin. apply in_app_or in Hin.
    destruct Hin as [Hin|[<-|[]]]; [exact (Hr r Hin) | lia]. }
  destruct (src =? "local")%string.
  - destruct (find _ _); (eapply Hadd; [|reflexivity]); reflexivity.
  - (eapply Hadd; [|reflexivity]); reflexivity.
Qed.

Lemma handle_in_range (db : Store) (r : request) :
  ratings_in_range db -> ratings_in_range (handle db r).
Proof.
  intros Hr.
  assert (forall db', kb_untouched db db' -> ratings_in_range db') as Hsame.
  { intros db' [_ H]. unfold ratings_in_range. rewrite H. exact Hr. }
  destruct r; simpl.
  - apply Hsame, place_order_kb.
  - apply Hsame, delivery_bid_kb.
  - apply Hsame, assign_order_kb.
  - apply Hsame, update_order_status_kb.
  - apply Hsame, file_complaint_kb.
  - apply Hsame, review_complaint_kb.
  - apply get_ai_response_in_range. exact Hr.
  - apply rate_ai_response_in_range. exact Hr.
Qed.

(** ** Averages *)

Lemma sum_bounds (l : list Z) (lo hi : Z) :
  (forall x, In x l -> lo <= x <= hi) ->
  lo * Z.of_nat (List.length l) <= fold_right Z.add 0 l <= hi * Z.of_nat (List.length l).
Proof.
  induction l as [|x l IH]; intros H.
  - simpl. lia.
  - cbn [fold_right List.length]. rewrite Nat2Z.inj_succ.
    pose proof (H x (or_introl eq_refl)).
    assert (forall y, In y l -> lo <= y <= hi) as Hl by (intros y Hy; apply H; right; exact Hy).
    specialize (IH Hl). nia.
Qed.

Lemma mean_bounds (l : list Z) (lo hi : Z) :
  l <> [] -> (forall x, In x l -> lo <= x <= hi) ->
  (inject_Z lo <= true_div (fold_right Z.add 0%Z l) (Z.of_nat (List.length l)))%Q
  /\ (true_div (fold_right Z.add 0%Z l) (Z.of_nat (List.length l)) <= inject_Z hi)%Q.
Proof.
  intros Hne H. pose proof (sum_bounds l lo hi H) as [Hlo Hhi].
  assert (0 < Z.of_nat (List.length l)) as Hn.
  { destruct l; [congruence | simpl; lia]. }
  assert (0 < inject_Z (Z.of_nat (List.length l)))%Q as Hq.
  { rewrite <- (Zlt_Qlt 0). exact Hn. }
  unfold true_div. split.
  - apply Qle_shift_div_l; [exact Hq|].
    rewrite <- inject_Z_mult. rewrite <- Zle_Qle. exact Hlo.
  - apply Qle_shift_div_r; [exact Hq|].
    rewrite <- inject_Z_mult. rewrite <- Zle_Qle. exact Hhi.
Qed.

(** X12: the average rating of a menu item.  Without ratings it is 0; with
    ratings that all lie between two bounds it lies between the same
    bounds, so ratings of 1..5 give an average of 1..5. *)
Theorem average_rating_bounds (ratings : list Z) (lo hi : Z) :
  (forall x, In x ratings -> lo <= x <= hi) ->
  (ratings = [] -> average_rating ratings = 0%Q)
  /\ (ratings <> [] ->
        (inject_Z lo <= average_rating ratings)%Q
        /\ (average_rating ratings <= inject_Z hi)%Q).
Proof.
  intros H. split.
  - intros ->. reflexivity.
  - intros Hne. destruct ratings as [|x l]; [congruence|].
    unfold average_rating. apply mean_bounds; [discriminate | exact H].
Qed.

Lemma rate_ai_response_entries (db : Store) rid v :
  knowledge_base_entries (db_after (rate_ai_response db rid v))
  = knowledge_base_entries db.
Proof. unfold rate_ai_response. repeat break_match; reflexivity. Qed.

Lemma rate_ai_response_averages (db : Store) rid v :
  averages_in_range db -> averages_in_range (db_after (rate_ai_response db rid v)).
Proof.
  intros [Hr Ha]. split; [apply rate_ai_response_in_range; exact Hr|].
  rewrite rate_ai_response_entries. exact Ha.
Qed.

Lemma get_ai_response_averages (db : Store) content key post q uid :
  averages_in_range db ->
  averages_in_range (db_after (get_ai_response db content key post q uid)).
Proof.
  intros [Hr Ha]. split; [apply get_ai_response_in_range; exact Hr|].
  unfold get_ai_response.
  destruct (choose_answer content key post q) as [a src].
  destruct (src =? "local")%string; [|exact Ha].
  destruct (find _ _); [exact Ha|].
  cbn [db_after knowledge_base_entries set_ai_response_ratings
       set_knowledge_base_entries].
  intros e He. apply in_app_or in He. destruct He as [He|[<-|[]]].
  - exact (Ha e He).
  - left. split; reflexivity.
Qed.

Lemma handle_averages (db : Store) (r : request) :
  averages_in_range db -> averages_in_range (handle db r).
Proof.
  intros Ha.
  assert (forall db', kb_untouched db db' -> averages_in_range db') as Hsame.
  { intros db' [H1 H2]. destruct Ha as [Hr Hk]. split.
    - unfold ratings_in_range. rewrite H2. exact Hr.
    - rewrite H1. exact Hk. }
  destruct r; simpl.
  - apply Hsame, place_order_kb.
  - apply Hsame, delivery_bid_kb.
  - apply Hsame, assign_order_kb.
  - apply Hsame, update_order_status_kb.
  - apply Hsame, file_complaint_kb.
  - apply Hsame, review_complaint_kb.
  - apply get_ai_response_averages. exact Ha.
  - apply rate_ai_response_averages. exact Ha.
Qed.

(** X13: stored averages stay in range.  If every feedback value is one of
    0..5 and every entry of the knowledge base holds either average 0 with
    count 0 or an average of 1..5 with a count of at least 1, the same holds
    after any sequence of requests: a new entry starts with average 0 and
    count 0, and no request rewrites a stored average. *)
Theorem run_keeps_averages_in_range (db : Store) (rs : list request) :
  averages_in_range db -> averages_in_range (run db rs).
Proof.
  revert db. induction rs as [|r rs IH]; intros db Ha; simpl.
  - exact Ha.
  - apply IH. apply handle_averages. exact Ha.
Qed.

(** ** The ranking of the paragraphs *)

Lemma sort_desc_first_max (l : list (Z * string)) (top : Z * string)
    (rest : list (Z * string)) :
  sort_desc l = top :: rest ->
  exists before after,
    l = before ++ top :: after
    /\ (forall x, In x before -> fst x < fst top)
    /\ (forall x, In x after -> fst x <= fst top).
Proof.
  revert top rest. induction l as [|x l IH]; simpl; intros top rest H; [discriminate|].
  destruct (sort_desc l) as [|t r] eqn:Hs.
  - assert (l = []) as ->.
    { destruct l as [|y l']; [reflexivity|]. simpl in Hs.
      destruct (sort_desc l') as [|z zs]; simpl in Hs; [discriminate|].
      destruct (fst y <? fst z); discriminate. }
    simpl in H. inversion H. subst. exists [], []. repeat split; intros y [].
  - destruct (IH t r eq_refl) as [before [after [-> [Hb Ha]]]].
    simpl in H. destruct (fst x <? fst t) eqn:E; inversion H; subst.
    + apply Z.ltb_lt in E. exists (x :: before), after.
      repeat split; [|exact Ha]. intros y [<-|Hy]; [exact E | exact (Hb y Hy)].
    + apply Z.ltb_ge in E. exists [], (before ++ t :: after).
      repeat split; [intros y []|].
      intros y Hy. apply in_app_or in Hy. destruct Hy as [Hy|[<-|Hy]].
      * specialize (Hb y Hy). lia.
      * exact E.
      * specialize (Ha y Hy). lia.
Qed.

Lemma score_all_split (words texts : list string) (before after : list (Z * string))
    (m : Z) (t : string) :
  score_all words texts = before ++ (m, t) :: after ->
  exists tb p ta,
    texts = tb ++ p :: ta /\ m = matches words p /\ t = strip p /\ 0 < m
    /\ score_all words tb = before /\ score_all words ta = after.
Proof.
  revert before. induction texts as [|q texts IH]; simpl; intros before H.
  - destruct before; discriminate.
  - destruct (0 <? matches words q) eqn:E.
    + destruct before as [|b before']; simpl in H; inversion H; subst.
      * apply Z.ltb_lt in E. exists [], q, texts. repeat split. exact E.
      * destruct (IH before' H2) as [tb [p [ta [-> [Hm [Ht [Hpos [Hb Ha]]]]]]]].
        exists (q :: tb), p, ta. repeat split; try assumption.
        simpl. rewrite E, Hb. reflexivity.
    + destruct (IH before H) as [tb [p [ta [-> [Hm [Ht [Hpos [Hb Ha]]]]]]]].
      exists (q :: tb), p, ta. repeat split; try assumption.
      simpl. rewrite E. exact Hb.
Qed.

(** X14: ties go to the earlier paragraph.  The paragraph that heads the
    ranking is the first paragraph of the corpus with the largest number of
    matching tokens: every paragraph before it matches strictly fewer
    tokens, every paragraph after it at most as many. *)
Theorem best_matches_first_maximal (words : list string) (content : string)
    (top : Z * string) (rest : list (Z * string)) :
  best_matches words content = top :: rest ->
  exists before p after,
    split_paragraphs content = before ++ p :: after
    /\ top = (matches words p, strip p)
    /\ (forall q, In q before -> matches words q < matches words p)
    /\ (forall q, In q after -> matches words q <= matches words p).
Proof.
  unfold best_matches. intros H.
  destruct (sort_desc_first_max _ _ _ H) as [sb [sa [Hl [Hb Ha]]]].
  destruct top as [m t].
  destruct (score_all_split _ _ _ _ _ _ Hl) as [tb [p [ta [Ht [Hm [Hs [Hpos [Eb Ea]]]]]]]].
  exists tb, p, ta. subst m t. split; [exact Ht|]. split; [reflexivity|]. split.
  - intros q Hq. destruct (Z_lt_le_dec 0 (matches words q)) as [Hlt|Hle]; [|lia].
    apply (Hb (matches words q, strip q)). rewrite <- Eb.
    apply score_all_In. exists q. auto.
  - intros q Hq. destruct (Z_lt_le_dec 0 (matches words q)) as [Hlt|Hle]; [|lia].
    apply (Ha (matches words q, strip q)). rewrite <- Ea.
    apply score_all_In. exists q. auto.
Qed.

(** ** What an answer looks like *)

Lemma endswith_dot_added (r : string) : endswith_dot (r ++ ".") = true.
Proof.
  induction r as [|c r IH]; [reflexivity|].
  simpl. destruct (r ++ ".")%string eqn:E; [|exact IH].
  destruct r; discriminate.
Qed.

Lemma search_sentences_period (words : list string) (content a : string) :
  search_sentences words content = Some a -> endswith_dot a = true.
Proof.
  unfold search_sentences.
  destruct (sentence_matches words content) as [|top rest]; [discriminate|].
  destruct (2 <=? fst top); [|discriminate].
  destruct (endswith_dot (join ". " (map snd (firstn 3 (top :: rest))))) eqn:E;
    intros H; inversion H; [exact E | apply endswith_dot_added].
Qed.

(** X15: what a local answer looks like.  An answer found in the corpus is
    never empty and is tagged local whatever the completion service is.  It
    is either the paragraph answer, the top paragraph passing the 50%
    threshold, or the sentence answer, which ends with a period. *)
Theorem local_answer_shape (content query a : string) :
  search_local_knowledge_base (Some content) query = Some a ->
  a <> EmptyString
  /\ (forall api_key post,
        choose_answer (Some content) api_key post query = (a, "local"))
  /\ ((exists top rest,
         best_matches (query_words query) content = top :: rest
         /\ Z.of_nat (List.length (query_words query)) <= 2 * fst top
         /\ a = top_paragraphs (Z.of_nat (List.length (query_words query))) top rest)
      \/ (search_sentences (query_words query) content = Some a
          /\ endswith_dot a = true)).
Proof.
  intros H.
  assert ((exists top rest,
             best_matches (query_words query) content = top :: rest
             /\ Z.of_nat (List.length (query_words query)) <= 2 * fst top
             /\ a = top_paragraphs (Z.of_nat (List.length (query_words query))) top rest)
          \/ (search_sentences (query_words query) content = Some a
              /\ endswith_dot a = true)) as Hshape.
  { unfold search_local_knowledge_base in H.
    destruct (best_matches (query_words query) content) as [|top rest] eqn:Hbest.
    - right. split; [exact H | exact (search_sentences_period _ _ _ H)].
    - destruct (Z.of_nat (List.length (query_words query)) <=? 2 * fst top) eqn:E.
      + left. exists top, rest. apply Z.leb_le in E.
        split; [reflexivity|]. split; [exact E|].
        unfold top_paragraphs. destruct rest as [|second rest'].
        * inversion H. reflexivity.
        * destruct (3 * Z.of_nat (List.length (query_words query)) <=? 10 * fst second);
            inversion H; reflexivity.
      + right. split; [exact H | exact (search_sentences_period _ _ _ H)]. }
  assert (a <> EmptyString) as Hne.
  { destruct Hshape as [[top [rest [Hbest [_ ->]]]]|[_ Hdot]].
    - apply top_paragraphs_not_empty.
      destruct (best_matches_top _ _ _ _ Hbest) as [[p [_ [-> Hpos]]] _]. simpl.
      apply (matched_text_not_empty (query_words query));
        [apply query_words_words | exact Hpos].
    - intros ->. discriminate. }
  split; [exact Hne|]. split; [|exact Hshape].
  intros api_key post. unfold choose_answer. rewrite H.
  destruct a; [congruence | reflexivity].
Qed.

(** ** No match without a word of the query *)

Lemma lower_app (a b : string) : lower (a ++ b) = (lower a ++ lower b)%string.
Proof. induction a as [|c a IH]; simpl; [reflexivity | rewrite IH; reflexivity]. Qed.

Lemma prefix_app (w p b : string) :
  prefix w p = true -> prefix w (p ++ b) = true.
Proof.
  revert p. induction w as [|c w IH]; intros p H;
    [destruct (p ++ b)%string; reflexivity|].
  destruct p as [|d p]; simpl in *; [discriminate|].
  destruct (ascii_dec c d); [apply IH; exact H | discriminate].
Qed.

Lemma contains_app_r (w p b : string) :
  contains w p = true -> contains w (p ++ b) = true.
Proof.
  induction p as [|c p IH]; simpl; intros H.
  - rewrite orb_false_r in H. destruct w; [|discriminate].
    destruct b; reflexivity.
  - apply orb_true_iff in H. apply orb_true_iff. destruct H as [H|H].
    + left. destruct w as [|d w]; [reflexivity|].
      simpl in *. destruct (ascii_dec d c); [|discriminate].
      apply prefix_app. exact H.
    + right. apply IH. exact H.
Qed.

Lemma contains_app_l (w a s : string) :
  contains w s = true -> contains w (a ++ s) = true.
Proof.
  intros H. induction a as [|c a IH]; simpl; [exact H|].
  rewrite IH. apply orb_true_r.
Qed.

Lemma contains_substring (w p s : string) :
  substring_of p s -> contains w (lower p) = true -> contains w (lower s) = true.
Proof.
  intros [a [b ->]] H. rewrite !lower_app.
  apply contains_app_l, contains_app_r. exact H.
Qed.

Lemma substring_of_cons (c : ascii) (p s : string) :
  substring_of p s -> substring_of p (String c s).
Proof. intros [a [b ->]]. exists (String c a), b. reflexivity. Qed.

Lemma pieces_of_all (ps : list string) (s : string) :
  pieces_of ps s -> Forall (fun p => substring_of p s) ps.
Proof.
  destruct ps as [|p0 rest]; simpl; [tauto|].
  intros [[b ->] H]. constructor; [exists EmptyString, b; reflexivity | exact H].
Qed.

Lemma pieces_of_cons_char (c : ascii) (ps : list string) (s : string) :
  pieces_of ps s -> pieces_of (cons_char c ps) (String c s).
Proof.
  destruct ps as [|p0 rest]; simpl; [tauto|].
  intros [[b ->] H]. split; [exists b; reflexivity|].
  eapply Forall_impl; [|exact H]. intros p. apply substring_of_cons.
Qed.

Lemma split_paragraphs_pieces (s : string) :
  pieces_of (split_paragraphs s) s
  /\ forall c, pieces_of (split_paragraphs (String c s)) (String c s).
Proof.
  induction s as [|c' r' [IH1 IH2]].
  - split; [|intros c]; simpl.
    + split; [exists EmptyString; reflexivity | constructor].
    + destruct (is_newline c); simpl;
        (split; [exists EmptyString; reflexivity | constructor]).
  - split; [exact (IH2 c')|]. intros c.
    change (split_paragraphs (String c (String c' r')))
      with (if is_newline c
            then if is_newline c' then EmptyString :: split_paragraphs r'
                 else cons_char c (split_paragraphs (String c' r'))
            else cons_char c (split_paragraphs (String c' r'))).
    destruct (is_newline c); [destruct (is_newline c')|];
      try (apply pieces_of_cons_char; exact (IH2 c')).
    split; [exists (String c (String c' r')); reflexivity|].
    eapply Forall_impl; [|exact (pieces_of_all _ _ IH1)].
    intros p Hp. apply substring_of_cons, substring_of_cons. exact Hp.
Qed.

Lemma re_split_go_pieces (skipping : bool) (s : string) :
  (if skipping then substring_of (fst (re_split_go skipping s)) s
   else exists b, s = (fst (re_split_go skipping s) ++ b)%string)
  /\ Forall (fun p => substring_of p s) (snd (re_split_go skipping s)).
Proof.
  revert skipping. induction s as [|c r IH]; intros skipping.
  - simpl. destruct skipping; split; try constructor;
      [exists EmptyString, EmptyString | exists EmptyString]; reflexivity.
  - assert (forall k, substring_of (fst (re_split_go k r)) r) as Hfst.
    { intros k. destruct (IH k) as [H _]. destruct k; [exact H|].
      destruct H as [b Hb]. exists EmptyString, b. exact Hb. }
    assert (forall k, Forall (fun p => substring_of p (String c r))
                             (snd (re_split_go k r))) as Hsnd.
    { intros k. destruct (IH k) as [_ H]. eapply Forall_impl; [|exact H].
      intros p. apply substring_of_cons. }
    simpl. destruct (skipping && is_space c) eqn:E1.
    + apply andb_true_iff in E1. destruct E1 as [-> _]. split; [|apply Hsnd].
      apply substring_of_cons. apply Hfst.
    + destruct (is_sentence_end c && starts_with_space r).
      * destruct (re_split_go true r) as [p ps] eqn:Ego. simpl. split.
        -- destruct skipping;
             [exists EmptyString, (String c r) | exists (String c r)]; reflexivity.
        -- constructor.
           ++ apply substring_of_cons. specialize (Hfst true). rewrite Ego in Hfst.
              exact Hfst.
           ++ specialize (Hsnd true). rewrite Ego in Hsnd. exact Hsnd.
      * destruct (re_split_go false r) as [p ps] eqn:Ego. simpl. split.
        -- destruct (IH false) as [[b Hb] _]. rewrite Ego in Hb. simpl in Hb.
           destruct skipping; [exists EmptyString, b | exists b];
             simpl; rewrite Hb; reflexivity.
        -- specialize (Hsnd false). rewrite Ego in Hsnd. exact Hsnd.
Qed.

Lemma score_all_none (words texts : list string) (s : string) :
  (forall w, In w words -> contains w (lower s) = false) ->
  Forall (fun p => substring_of p s) texts ->
  score_all words texts = [].
Proof.
  intros Hw H. induction H as [|p texts Hp _ IH]; simpl; [reflexivity|].
  assert (matches words p = 0) as ->; [|exact IH].
  unfold matches. apply Z.eqb_eq. rewrite count_where_zero.
  apply forallb_forall. intros w Hin. apply negb_true_iff.
  destruct (contains w (lower p)) eqn:E; [|reflexivity].
  rewrite <- (Hw w Hin). symmetry. exact (contains_substring w p s Hp E).
Qed.

(** X16: no answer without a word of the query.  When no token of the
    query occurs in the lowered corpus, a query without any token
    included, the search finds nothing, in the paragraphs and in the
    sentences alike. *)
Theorem search_needs_a_word (content query : string) :
  (forall w, In w (query_words query) -> contains w (lower content) = false) ->
  search_local_knowledge_base (Some content) query = None.
Proof.
  intros Hw. unfold search_local_knowledge_base, best_matches.
  rewrite (score_all_none _ _ content Hw).
  - simpl. unfold search_sentences, sentence_matches.
    rewrite (score_all_none _ _ content Hw); [reflexivity|].
    unfold re_split_sentences.
    pose proof (re_split_go_pieces false content) as [[b Hb] Hrest].
    destruct (re_split_go false content) as [p ps]. simpl in *.
    constructor; [exists EmptyString, b; exact Hb | exact Hrest].
  - apply pieces_of_all. apply split_paragraphs_pieces.
Qed.

(** ** The tokens of a query *)

Lemma lower_char_twice (c : ascii) : lower_char (lower_char c) = lower_char c.
Proof. destruct c as [[] [] [] [] [] [] [] []]; reflexivity. Qed.

Lemma lower_twice (s : string) : lower (lower s) = lower s.
Proof.
  induction s as [|c r IH]; simpl; [reflexivity|].
  rewrite lower_char_twice, IH. reflexivity.
Qed.

Lemma split_go_lower (s : string) :
  lower s = s ->
  lower (fst (split_go s)) = fst (split_go s)
  /\ Forall (fun w => lower w = w) (snd (split_go s)).
Proof.
  induction s as [|c r IH]; simpl; intros H; [auto|].
  inversion H as [[Hc Hr]]. rewrite Hc, Hr. specialize (IH Hr).
  destruct (split_go r) as [w ws]. simpl in *. destruct IH as [IHw IHws].
  destruct (is_space c); simpl.
  - split; [reflexivity|]. unfold cons_nonempty.
    destruct (is_empty w); [exact IHws | constructor; assumption].
  - split; [|exact IHws]. rewrite Hc, IHw. reflexivity.
Qed.

Lemma split_lower (s : string) :
  lower s = s -> Forall (fun w => lower w = w) (split s).
Proof.
  intros H. unfold split. pose proof (split_go_lower s H) as [Hw Hws].
  destruct (split_go s) as [w ws]. simpl in *. unfold cons_nonempty.
  destruct (is_empty w); [exact Hws | constructor; assumption].
Qed.

(** X17: the tokens of a query.  The token list is empty only for a query
    without any word; every token is a non-empty run of non-whitespace
    characters in lower case; and when the query has a word that is not a
    stop word and longer than two characters, every token is such a word. *)
Theorem query_words_tokens (query : string) :
  (query_words query = [] <-> split (lower query) = [])
  /\ Forall (fun w => is_word w /\ lower w = w) (query_words query)
  /\ (filter significant (split (lower query)) <> [] ->
      Forall (fun w => significant w = true) (query_words query)).
Proof.
  split; [|split].
  - unfold query_words.
    destruct (filter significant (split (lower query))) as [|w ws] eqn:E.
    + tauto.
    + split; [discriminate|]. intros H. rewrite H in E. discriminate.
  - pose proof (query_words_words query) as Hw.
    assert (Forall (fun w => lower w = w) (query_words query)) as Hl.
    { pose proof (split_lower (lower query) (lower_twice query)) as H.
      unfold query_words.
      destruct (filter significant (split (lower query))) as [|w ws] eqn:E; [exact H|].
      rewrite <- E. rewrite Forall_forall in *. intros x Hx.
      apply filter_In in Hx. apply H. tauto. }
    rewrite Forall_forall in *. intros w Hin. split; [exact (Hw w Hin) | exact (Hl w Hin)].
  - intros Hne. unfold query_words.
    destruct (filter significant (split (lower query))) as [|w ws] eqn:E; [congruence|].
    rewrite <- E. apply Forall_forall. intros x Hx. apply filter_In in Hx. tauto.
Qed.

(** ** The cart *)

Lemma find_update_where_other {R : Type} (key : R -> Z) (f : R -> R) (id id' : Z)
    (t : list R) :
  (forall r, key (f r) = key r) -> id' <> id ->
  find (fun x => key x =? id') (update_where (fun x => key x =? id) f t)
  = find (fun x => key x =? id') t.
Proof.
  intros Hkey Hne. induction t as [|r t IH]; simpl; [reflexivity|].
  destruct (key r =? id) eqn:E.
  - rewrite Hkey. assert ((key r =? id') = false) as -> by lia. exact IH.
  - destruct (key r =? id'); [reflexivity | exact IH].
Qed.

Lemma find_app_none {R : Type} (p : R -> bool) (t added : list R) :
  find p t = None -> find p (t ++ added) = find p added.
Proof.
  induction t as [|x t IH]; simpl; [reflexivity|].
  destruct (p x); [discriminate | exact IH].
Qed.

Lemma in_cart_line (cart : Cart) (menu_id : Z) :
  in_cart cart menu_id = match cart_line cart menu_id with
                         | Some _ => true
                         | None => false
                         end.
Proof.
  unfold in_cart, cart_line. induction cart as [|kv cart IH]; simpl; [reflexivity|].
  destruct (fst kv =? menu_id); [reflexivity | exact IH].
Qed.

Lemma in_cart_keys (cart : Cart) (menu_id : Z) :
  in_cart cart menu_id = false -> ~ In menu_id (map fst cart).
Proof.
  unfold in_cart. intros H Hin. apply in_map_iff in Hin. destruct Hin as [kv [E Hkv]].
  assert (existsb (fun kv => fst kv =? menu_id) cart = true) as Ht.
  { apply existsb_exists. exists kv. split; [exact Hkv | lia]. }
  congruence.
Qed.

Lemma add_line_others (item : Menu) (cart : Cart) (menu_id quantity other : Z) :
  other <> menu_id ->
  cart_line (add_line item cart menu_id quantity) other = cart_line cart other.
Proof.
  intros Hne. unfold add_line.
  destruct (in_cart cart menu_id); unfold cart_line.
  - rewrite (find_update_where_other fst) by (reflexivity || exact Hne). reflexivity.
  - destruct (find (fun kv => fst kv =? other) cart) as [kv|] eqn:F.
    + rewrite (find_app_some _ _ _ _ F). reflexivity.
    + rewrite (find_app_none _ _ _ F). simpl.
      assert ((menu_id =? other) = false) as -> by lia. reflexivity.
Qed.

(** The dict inside the request: the item is on one line, the other lines
    are as they were. *)
Lemma add_line_spec (item : Menu) (cart : Cart) (menu_id quantity : Z) :
  let cart' := add_line item cart menu_id quantity in
  (cart_line cart menu_id = None ->
     cart_line cart' menu_id
     = Some (mkCartItem (m_name item) (m_price item) quantity
                        (image_or_default (m_image_path item))))
  /\ (forall line, cart_line cart menu_id = Some line ->
        cart_line cart' menu_id
        = Some (mkCartItem (ci_name line) (ci_price line)
                           (ci_quantity line + quantity) (ci_image line)))
  /\ (NoDup (map fst cart) -> NoDup (map fst cart'))
  /\ (forall k, In k (map fst cart') <-> k = menu_id \/ In k (map fst cart)).
Proof.
  intros cart'. unfold cart', add_line. rewrite in_cart_line.
  destruct (cart_line cart menu_id) as [line|] eqn:El.
  - assert (map fst (update_where (fun kv => fst kv =? menu_id)
                                  (add_quantity quantity) cart)
            = map fst cart) as Hkeys
      by (apply map_update_where_field; reflexivity).
    assert (In menu_id (map fst cart)) as Hin.
    { unfold cart_line in El.
      destruct (find (fun kv => fst kv =? menu_id) cart) as [kv|] eqn:F;
        [|discriminate].
      apply find_some in F. destruct F as [F1 F2].
      apply in_map_iff. exists kv. split; [lia | exact F1]. }
    split; [intros H0; discriminate|]. split; [|split].
    + intros line0 E. inversion E. subst line0.
      unfold cart_line in *.
      rewrite (find_update_where_same fst) by reflexivity.
      destruct (find (fun kv => fst kv =? menu_id) cart) as [kv|];
        [|discriminate]. simpl in *. inversion El. reflexivity.
    + intros Hnd. rewrite Hkeys. exact Hnd.
    + intros k. rewrite Hkeys. split; [auto|]. intros [->|H]; assumption.
  - assert (find (fun kv : Z * CartItem => fst kv =? menu_id) cart = None) as Hnone.
    { unfold cart_line in El.
      destruct (find (fun kv => fst kv =? menu_id) cart); [discriminate | reflexivity]. }
    split; [|split; [intros line E; discriminate|split]].
    + intros _. unfold cart_line.
      rewrite (find_app_none _ _ _ Hnone). simpl. rewrite Z.eqb_refl. reflexivity.
    + intros Hnd. rewrite map_app. apply NoDup_app;
        [exact Hnd | constructor; [tauto | constructor] |].
      intros k Hk [E|[]]. subst k. revert Hk. apply in_cart_keys.
      rewrite in_cart_line. cbn [fst]. rewrite El. reflexivity.
    + intros k. rewrite map_app, in_app_iff. simpl. intuition.
Qed.

Lemma insert_line_perm (kv : Z * CartItem) (cart : Cart) :
  Permutation (kv :: cart) (insert_line kv cart).
Proof.
  induction cart as [|x cart IH]; simpl; [apply Permutation_refl|].
  destruct (String.leb _ _); [apply Permutation_refl|].
  eapply perm_trans; [apply perm_swap|]. apply perm_skip. exact IH.
Qed.

Lemma store_cart_perm (cart : Cart) : Permutation cart (store_cart cart).
Proof.
  induction cart as [|kv cart IH]; simpl; [constructor|].
  eapply perm_trans; [apply perm_skip; exact IH | apply insert_line_perm].
Qed.

Lemma insert_line_sorted (kv : Z * CartItem) (cart : Cart) :
  Sorted key_le cart -> Sorted key_le (insert_line kv cart).
Proof.
  induction cart as [|x cart IH]; simpl; intros Hs.
  - constructor; constructor.
  - destruct (String.leb (Z_to_string (fst kv)) (Z_to_string (fst x))) eqn:E.
    + constructor; [exact Hs|]. constructor. exact E.
    + inversion Hs as [|? ? Hs' Hd]. subst.
      assert (key_le x kv) as Hx.
      { unfold key_le.
        destruct (String.leb_total (Z_to_string (fst kv)) (Z_to_string (fst x)));
          congruence. }
      constructor; [exact (IH Hs')|].
      destruct cart as [|y cart']; simpl; [constructor; exact Hx|].
      destruct (String.leb (Z_to_string (fst kv)) (Z_to_string (fst y)));
        constructor; [exact Hx|].
      inversion Hd. assumption.
Qed.

Lemma store_cart_stored (cart : Cart) : Sorted key_le cart -> store_cart cart = cart.
Proof.
  induction cart as [|kv cart IH]; simpl; intros Hs; [reflexivity|].
  inversion Hs as [|? ? Hs' Hd]. subst. rewrite (IH Hs').
  destruct cart as [|x cart']; simpl; [reflexivity|].
  inversion Hd as [|? ? Hle]. subst. unfold key_le in Hle. rewrite Hle. reflexivity.
Qed.

Lemma store_cart_sorted (cart : Cart) : Sorted key_le (store_cart cart).
Proof.
  induction cart as [|kv cart IH]; simpl; [constructor|].
  apply insert_line_sorted. exact IH.
Qed.

Lemma cart_line_in (cart : Cart) (k : Z) (line : CartItem) :
  NoDup (map fst cart) -> In (k, line) cart -> cart_line cart k = Some line.
Proof.
  unfold cart_line. induction cart as [|x cart IH]; simpl; [tauto|].
  intros Hnd Hin. inversion Hnd as [|? ? Hnotin Hnd']. subst.
  destruct Hin as [->|Hin].
  - simpl. rewrite Z.eqb_refl. reflexivity.
  - destruct (fst x =? k) eqn:E; [|exact (IH Hnd' Hin)].
    exfalso. apply Hnotin. apply in_map_iff. exists (k, line).
    split; [simpl; lia | exact Hin].
Qed.

Lemma cart_line_perm (cart cart' : Cart) (k : Z) :
  Permutation cart cart' -> NoDup (map fst cart) ->
  cart_line cart' k = cart_line cart k.
Proof.
  intros Hp Hnd.
  assert (NoDup (map fst cart')) as Hnd'
    by exact (Permutation_NoDup (Permutation_map fst Hp) Hnd).
  destruct (cart_line cart k) as [line|] eqn:E.
  - apply cart_line_in; [exact Hnd'|].
    apply (Permutation_in _ Hp).
    unfold cart_line in E.
    destruct (find (fun kv => fst kv =? k) cart) as [[k0 l0]|] eqn:F; [|discriminate].
    apply find_some in F. destruct F as [F1 F2]. simpl in *.
    inversion E. subst. assert (k0 = k) by lia. subst. exact F1.
  - destruct (cart_line cart' k) as [line|] eqn:E'; [|reflexivity].
    unfold cart_line in E'.
    destruct (find (fun kv => fst kv =? k) cart') as [[k0 l0]|] eqn:F; [|discriminate].
    apply find_some in F. destruct F as [F1 F2]. simpl in F2.
    assert (k0 = k) by lia. subst k0.
    apply (Permutation_in _ (Permutation_sym Hp)) in F1.
    rewrite (cart_line_in cart k l0 Hnd F1) in E. discriminate.
Qed.

Lemma store_cart_line (cart : Cart) (k : Z) :
  NoDup (map fst cart) -> cart_line (store_cart cart) k = cart_line cart k.
Proof. apply cart_line_perm. apply store_cart_perm. Qed.

Lemma store_cart_keys (cart : Cart) (k : Z) :
  In k (map fst (store_cart cart)) <-> In k (map fst cart).
Proof.
  pose proof (Permutation_map fst (store_cart_perm cart)) as Hp. split.
  - apply (Permutation_in _ (Permutation_sym Hp)).
  - apply (Permutation_in _ Hp).
Qed.

Lemma store_cart_unique (cart : Cart) :
  NoDup (map fst cart) -> NoDup (map fst (store_cart cart)).
Proof. apply Permutation_NoDup. apply Permutation_map. apply store_cart_perm. Qed.

(** X18: adding to the cart.  An unknown menu item leaves the cart as it
    is.  A known one ends up on exactly one line of the cart that the
    session holds afterwards: a new line with the given quantity and the
    name, price and image of the menu, or, when the item had a line, that
    line with the quantity added to its own.  No other line changes, no item
    gets a second line, the items of the cart are those it had and the one
    added, and the lines are in the order of their string keys. *)
Theorem add_to_cart_line (menu : list Menu) (cart : Cart) (menu_id quantity : Z) :
  NoDup (map fst cart) ->
  (find (fun m => m_id m =? menu_id) menu = None ->
     snd (add_to_cart menu cart menu_id quantity) = cart
     /\ flash_category (fst (add_to_cart menu cart menu_id quantity)) = "danger")
  /\ (forall item, find (fun m => m_id m =? menu_id) menu = Some item ->
      let cart' := snd (add_to_cart menu cart menu_id quantity) in
      (cart_line cart menu_id = None ->
         cart_line cart' menu_id
         = Some (mkCartItem (m_name item) (m_price item) quantity
                            (image_or_default (m_image_path item))))
      /\ (forall line, cart_line cart menu_id = Some line ->
            cart_line cart' menu_id
            = Some (mkCartItem (ci_name line) (ci_price line)
                               (ci_quantity line + quantity) (ci_image line)))
      /\ (forall other, other <> menu_id ->
            cart_line cart' other = cart_line cart other)
      /\ NoDup (map fst cart')
      /\ (forall k, In k (map fst cart') <-> k = menu_id \/ In k (map fst cart))
      /\ Sorted key_le cart').
Proof.
  intros Hnd. split.
  - intros H. unfold add_to_cart. rewrite H. split; reflexivity.
  - intros item H cart'. unfold cart', add_to_cart. rewrite H. cbn [snd].
    destruct (add_line_spec item cart menu_id quantity) as [Hnew [Hold [Huniq Hkeys]]].
    specialize (Huniq Hnd).
    split; [|split; [|split; [|split; [|split]]]].
    + intros E. rewrite (store_cart_line _ _ Huniq). exact (Hnew E).
    + intros line E. rewrite (store_cart_line _ _ Huniq). exact (Hold line E).
    + intros other Hne. rewrite (store_cart_line _ _ Huniq).
      apply add_line_others. exact Hne.
    + apply store_cart_unique. exact Huniq.
    + intros k. rewrite store_cart_keys. apply Hkeys.
    + apply store_cart_sorted.
Qed.

Lemma find_filter_key {R : Type} (key : R -> Z) (k m : Z) (l : list R) :
  find (fun x => key x =? k) (filter (fun x => negb (key x =? m)) l)
  = if k =? m then None else find (fun x => key x =? k) l.
Proof.
  induction l as [|x l IH]; simpl; [destruct (k =? m); reflexivity|].
  destruct (key x =? m) eqn:Em; simpl.
  - rewrite IH. destruct (Z.eqb_spec k m) as [E|E]; [reflexivity|].
    assert ((key x =? k) = false) as -> by lia. reflexivity.
  - destruct (key x =? k) eqn:Ek.
    + assert ((k =? m) = false) as -> by lia. reflexivity.
    + exact IH.
Qed.

Lemma pop_line_unique (cart : Cart) (menu_id : Z) :
  NoDup (map fst cart) -> NoDup (map fst (pop_line cart menu_id)).
Proof.
  unfold pop_line. intros Hnd. induction cart as [|kv cart IH]; simpl; [constructor|].
  inversion Hnd as [|k ks Hnotin Hnd']. subst.
  destruct (fst kv =? menu_id); simpl; [exact (IH Hnd')|].
  constructor; [|exact (IH Hnd')].
  intros Hin. apply Hnotin. apply in_map_iff in Hin.
  destruct Hin as [x [E Hx]]. apply filter_In in Hx.
  rewrite <- E. apply in_map. tauto.
Qed.

Lemma pop_line_line (cart : Cart) (menu_id other : Z) :
  cart_line (pop_line cart menu_id) other
  = if other =? menu_id then None else cart_line cart other.
Proof.
  unfold cart_line, pop_line. rewrite (find_filter_key fst).
  destruct (other =? menu_id); reflexivity.
Qed.

(** X19: removing from the cart.  For a user whom the login check lets
    through, the item has no line left in the cart that the session holds
    afterwards, every other line is as it was, no item gets a second line
    and the lines are in the order of their string keys; removing an item
    right after adding it gives back the other lines of the cart.  An
    anonymous request, and one that comes with the session of a deactivated
    account, leaves the cart as it is. *)
Theorem remove_from_cart_line (db : Store) (session_user : option Z) (cart : Cart)
    (menu_id : Z) :
  NoDup (map fst cart) ->
  ((session_user = None
    \/ (exists id, session_user = Some id /\ get_user db id = None)
    \/ (exists id user, session_user = Some id /\ get_user db id = Some user
                        /\ u_is_active user = false)) ->
     remove_from_cart db session_user cart menu_id = (unauthorized, cart))
  /\ (forall id user,
        session_user = Some id -> get_user db id = Some user ->
        u_is_active user = true ->
        let cart' := snd (remove_from_cart db session_user cart menu_id) in
        cart_line cart' menu_id = None
        /\ (forall other, other <> menu_id ->
              cart_line cart' other = cart_line cart other)
        /\ NoDup (map fst cart')
        /\ Sorted key_le cart'
        /\ (forall menu quantity other, other <> menu_id ->
              cart_line
                (snd (remove_from_cart db session_user
                        (snd (add_to_cart menu cart menu_id quantity)) menu_id)) other
              = cart_line cart other)).
Proof.
  intros Hnd. split.
  - intros H. unfold remove_from_cart.
    assert (current_user db session_user = None) as ->; [|reflexivity].
    destruct H as [->|[[id [-> Hu]]|[id [user [-> [Hu Ha]]]]]].
    + reflexivity.
    + unfold current_user. rewrite Hu. reflexivity.
    + exact (current_user_inactive _ _ _ Hu Ha).
  - intros id user -> Hu Ha cart'. unfold cart', remove_from_cart.
    rewrite (current_user_active _ _ _ Hu Ha). cbn [snd].
    pose proof (pop_line_unique cart menu_id Hnd) as Hpop.
    split; [|split; [|split; [|split]]].
    + rewrite (store_cart_line _ _ Hpop), pop_line_line, Z.eqb_refl. reflexivity.
    + intros other Hne. rewrite (store_cart_line _ _ Hpop), pop_line_line.
      assert ((other =? menu_id) = false) as -> by lia. reflexivity.
    + apply store_cart_unique. exact Hpop.
    + apply store_cart_sorted.
    + intros menu quantity other Hne.
      assert (NoDup (map fst (snd (add_to_cart menu cart menu_id quantity)))) as Hadd.
      { unfold add_to_cart.
        destruct (find (fun m => m_id m =? menu_id) menu) as [item|]; [|exact Hnd].
        cbn [snd]. apply store_cart_unique.
        destruct (add_line_spec item cart menu_id quantity) as [_ [_ [Huniq _]]].
        exact (Huniq Hnd). }
      rewrite (store_cart_line _ _ (pop_line_unique _ menu_id Hadd)), pop_line_line.
      assert ((other =? menu_id) = false) as -> by lia.
      unfold add_to_cart.
      destruct (find (fun m => m_id m =? menu_id) menu) as [item|]; [|reflexivity].
      cbn [snd].
      destruct (add_line_spec item cart menu_id quantity) as [_ [_ [Huniq _]]].
      rewrite (store_cart_line _ _ (Huniq Hnd)).
      apply add_line_others. exact Hne.
Qed.

(** ** Delivered orders *)

Lemma update_where_no_match {R : Type} (p : R -> bool) (f : R -> R) (l : list R) :
  (forall x, In x l -> p x = false) -> update_where p f l = l.
Proof.
  unfold update_where. induction l as [|x l IH]; simpl; intros H; [reflexivity|].
  rewrite (H x (or_introl eq_refl)). f_equal. apply IH. auto.
Qed.

Lemma update_where_split {R : Type} (key : R -> Z) (id : Z) (f : R -> R)
    (l : list R) (r : R) :
  NoDup (map key l) ->
  find (fun x => key x =? id) l = Some r ->
  exists l1 l2,
    l = l1 ++ r :: l2
    /\ update_where (fun x => key x =? id) f l = l1 ++ f r :: l2.
Proof.
  induction l as [|a l IH]; simpl; intros Hnd Hf; [discriminate|].
  inversion Hnd as [|? ? Hnotin Hnd']; subst.
  destruct (key a =? id) eqn:E.
  - injection Hf as ->. exists [], l. split; [reflexivity|].
    unfold update_where. simpl. f_equal.
    apply update_where_no_match. intros x Hx.
    apply Z.eqb_neq. intros Hk. apply Hnotin. apply in_map_iff.
    exists x. split; [lia | exact Hx].
  - destruct (IH Hnd' Hf) as [l1 [l2 [-> Hu]]].
    exists (a :: l1), l2. split; [reflexivity|].
    unfold update_where in *. simpl. f_equal. exact Hu.
Qed.

Lemma filter_app_skip {R : Type} (p : R -> bool) (l1 l2 : list R) (x : R) :
  p x = false -> filter p (l1 ++ x :: l2) = filter p l1 ++ filter p l2.
Proof. intros H. rewrite filter_app. simpl. rewrite H. reflexivity. Qed.

Lemma filter_app_keep {R : Type} (p : R -> bool) (l1 l2 : list R) (x : R) :
  p x = true -> filter p (l1 ++ x :: l2) = filter p l1 ++ x :: filter p l2.
Proof. intros H. rewrite filter_app. simpl. rewrite H. reflexivity. Qed.

(** X22: a delivery counts at once, promotion waits.  When an actor whom
    the login check lets through and who is authorized to update an order
    sets it to Delivered, and it was not Delivered before, the Delivered
    orders of its customer gain exactly that order, in its place, so
    [get_user_order_count] goes up by one; the count and the spending of
    every other account stay as they are; and no account changes: the
    customer is not promoted at this point. *)
Theorem update_order_status_delivered (db : Store) (id order_id : Z)
    (cu : User) (order : Order) :
  get_user db id = Some cu ->
  u_is_active cu = true ->
  get_order db order_id = Some order ->
  authorized cu order ->
  o_status order <> "Delivered" ->
  NoDup (map o_id (orders db)) ->
  exists resp db' before after,
    update_order_status db (Some id) order_id (Some "Delivered") = Returned resp db'
    /\ flash_category resp = "success"
    /\ users db' = users db
    /\ delivered_orders db (o_customer_id order) = before ++ after
    /\ delivered_orders db' (o_customer_id order)
       = before ++ set_status "Delivered" order :: after
    /\ get_user_order_count db' (o_customer_id order)
       = get_user_order_count db (o_customer_id order) + 1
    /\ (forall user_id, user_id <> o_customer_id order ->
          get_user_order_count db' user_id = get_user_order_count db user_id
          /\ get_user_total_spending db' user_id = get_user_total_spending db user_id).
Proof.
  intros Huser Hact Hget Hauth Hst Hnd.
  pose proof (current_user_active _ _ _ Huser Hact) as Hcu.
  pose proof (proj2 (can_update_authorized cu order) Hauth) as Hcan.
  pose proof (find_key_eq o_id _ _ _ Hget) as Hid.
  destruct (update_where_split o_id order_id (set_status "Delivered") _ _ Hnd Hget)
    as [l1 [l2 [Hl Hu]]].
  apply String.eqb_neq in Hst.
  set (P := fun user_id (o : Order) =>
              (o_customer_id o =? user_id) && (o_status o =? "Delivered")%string).
  assert (forall user_id, delivered_orders db user_id
                          = filter (P user_id) l1 ++ filter (P user_id) l2) as Hbefore.
  { intros user_id. unfold delivered_orders. fold (P user_id). rewrite Hl.
    apply filter_app_skip. unfold P. rewrite Hst. apply andb_false_r. }
  assert (forall user_id,
            delivered_orders (update_order db (o_id order) (set_status "Delivered"))
                             user_id
            = filter (P user_id) (l1 ++ set_status "Delivered" order :: l2)) as Hafter.
  { intros user_id. unfold delivered_orders, update_order. simpl orders.
    fold (P user_id). rewrite Hid, Hu. reflexivity. }
  exists (mkResponse (Some "Order status updated to Delivered.") "success"
                     (status_redirect cu)),
         (update_order db (o_id order) (set_status "Delivered")),
         (filter (P (o_customer_id order)) l1), (filter (P (o_customer_id order)) l2).
  assert (P (o_customer_id order) (set_status "Delivered" order) = true) as Hkeep.
  { unfold P. simpl. rewrite Z.eqb_refl. reflexivity. }
  repeat apply conj.
  - unfold update_order_status. rewrite Hcu, Hget, Hcan. reflexivity.
  - reflexivity.
  - reflexivity.
  - apply Hbefore.
  - rewrite Hafter. apply filter_app_keep. exact Hkeep.
  - unfold get_user_order_count. rewrite Hbefore, Hafter.
    rewrite (filter_app_keep _ _ _ _ Hkeep).
    rewrite !length_app. simpl. lia.
  - intros user_id Hne.
    assert (delivered_orders (update_order db (o_id order) (set_status "Delivered"))
                             user_id
            = delivered_orders db user_id) as Hsame.
    { rewrite Hbefore, Hafter. apply filter_app_skip.
      unfold P. simpl.
      assert ((o_customer_id order =? user_id) = false) as -> by lia.
      reflexivity. }
    unfold get_user_order_count, get_user_total_spending, sum_delivered.
    rewrite Hsame. split; reflexivity.
Qed.

(** ** Roles and privileges *)

Lemma Forall2_find {R : Type} (key : R -> Z) (keep : R -> R -> Prop)
    (t t' : list R) (k : Z) (r : R) :
  (forall r r', keep r r' -> key r' = key r) ->
  Forall2 keep t t' ->
  find (fun x => key x =? k) t = Some r ->
  exists r', find (fun x => key x =? k) t' = Some r' /\ keep r r'.
Proof.
  intros Hk H. induction H as [|x x' t t' Hx _ IH]; simpl; [discriminate|].
  rewrite (Hk _ _ Hx). destruct (key x =? k).
  - intros E. inversion E. subst. exists x'. auto.
  - exact IH.
Qed.

Lemma Forall2_find_back {R : Type} (key : R -> Z) (keep : R -> R -> Prop)
    (t t' : list R) (k : Z) (r' : R) :
  (forall r r', keep r r' -> key r' = key r) ->
  Forall2 keep t t' ->
  find (fun x => key x =? k) t' = Some r' ->
  exists r, find (fun x => key x =? k) t = Some r /\ keep r r'.
Proof.
  intros Hk H. induction H as [|x x' t t' Hx _ IH]; simpl; [discriminate|].
  rewrite (Hk _ _ Hx). destruct (key x =? k).
  - intros E. inversion E. subst. exists x. auto.
  - exact IH.
Qed.

Lemma Forall2_find_none {R : Type} (key : R -> Z) (keep : R -> R -> Prop)
    (t t' : list R) (k : Z) :
  (forall r r', keep r r' -> key r' = key r) ->
  Forall2 keep t t' ->
  find (fun x => key x =? k) t = None ->
  find (fun x => key x =? k) t' = None.
Proof.
  intros Hk H Hnone.
  destruct (find (fun x => key x =? k) t') as [r'|] eqn:E; [|reflexivity].
  destruct (Forall2_find_back key keep t t' k r' Hk H E) as [r [Hr _]].
  congruence.
Qed.

Lemma Forall2_update_unique {R : Type} (key : R -> Z) (keep : R -> R -> Prop)
    (id : Z) (f : R -> R) (t : list R) (r0 : R) :
  (forall r, keep r r) ->
  NoDup (map key t) ->
  find (fun x => key x =? id) t = Some r0 ->
  keep r0 (f r0) ->
  Forall2 keep t (update_where (fun x => key x =? id) f t).
Proof.
  intros Hr Hnd Hfind Hk.
  destruct (update_where_split key id f t r0 Hnd Hfind) as [l1 [l2 [Hl Hu]]].
  rewrite Hu. rewrite Hl.
  apply Forall2_app; [apply Forall2_same; exact Hr|].
  constructor; [exact Hk | apply Forall2_same; exact Hr].
Qed.

Lemma same_job_refl (u : User) : same_job u u.
Proof. split; reflexivity. Qed.

Lemma same_job_trans (a b c : User) : same_job a b -> same_job b c -> same_job a c.
Proof. unfold same_job. intros [H1 H2] [H3 H4]. split; congruence. Qed.

Lemma same_job_key (u u' : User) : same_job u u' -> u_id u' = u_id u.
Proof. intros [H _]. exact H. Qed.

Lemma is_manager_job (u : User) : is_manager u = opt_str_eqb (job u) "Manager".
Proof.
  unfold is_manager, job, is_staff, str_in. simpl.
  destruct (u_role u =? "Manager")%string eqn:E.
  - rewrite !orb_true_r. simpl. exact (eq_sym E).
  - destruct ((u_role u =? "Chef")%string || ((u_role u =? "DeliveryPerson")%string
              || (false || false)));
      simpl; [exact (eq_sym E) | reflexivity].
Qed.

Lemma calculate_vip_status_jobs (db : Store) (user_id : Z) :
  NoDup (map u_id (users db)) ->
  Forall2 same_job (users db) (users (db_after (calculate_vip_status db user_id))).
Proof.
  intros Hnd. unfold calculate_vip_status.
  destruct (get_user db user_id) as [user|] eqn:Hu;
    [|apply Forall2_same; exact same_job_refl].
  destruct (str_in (u_role user) ["Chef"; "DeliveryPerson"; "Manager"]) eqn:Hstaff;
    [apply Forall2_same; exact same_job_refl|].
  assert (Forall2 same_job (users db)
            (users (update_user db (u_id user) (set_role "VIP")))) as Hup.
  { cbn [update_user users set_users]. rewrite (get_user_id _ _ _ Hu).
    apply (Forall2_update_unique u_id same_job user_id _ _ user
             same_job_refl Hnd Hu).
    split; [reflexivity|]. unfold job, is_staff. rewrite Hstaff. reflexivity. }
  repeat break_match; cbn [db_after];
    try exact Hup; apply Forall2_same; exact same_job_refl.
Qed.

Lemma place_order_jobs (db : Store) su cart addr notes :
  NoDup (map u_id (users db)) ->
  Forall2 same_job (users db) (users (db_after (place_order db su cart addr notes))).
Proof.
  intros Hnd. unfold place_order.
  repeat break_match; try (apply Forall2_same; exact same_job_refl).
  cbn [db_after].
  eapply (Forall2_chain same_job); [exact same_job_trans | |
    apply calculate_vip_status_jobs].
  - cbn [update_user users set_users set_order_items set_orders].
    apply Forall2_update_where; intros; split; reflexivity.
  - cbn [update_user users set_users set_order_items set_orders].
    rewrite map_update_where_field by reflexivity. exact Hnd.
Qed.

Lemma process_complaint_decision_jobs (db : Store) now cid decision notes :
  NoDup (map u_id (users db)) ->
  Forall2 same_job (users db)
    (users (db_after (process_complaint_decision db now cid decision notes))).
Proof.
  intros Hnd. unfold process_complaint_decision.
  repeat break_match;
    try match goal with
        | H : insert_blacklist _ _ = Some _ |- _ =>
          apply insert_blacklist_some in H; subst
        end;
    cbn [db_after update_user users set_users set_complaints set_warnings set_blacklist];
    try (apply Forall2_same; exact same_job_refl);
    try (apply Forall2_update_where; intros; split; reflexivity).
  all: match goal with
       | H : get_user _ _ = Some ?f, Hv : (u_role ?f =? "VIP")%string = true |- _ =>
         pose proof (get_user_id _ _ _ H) as Hid;
         apply String.eqb_eq in Hv;
         apply (Forall2_update_unique u_id same_job (u_id f) _ _ f same_job_refl Hnd);
           [rewrite Hid; exact H|];
         split; [reflexivity|]; unfold job, is_staff; simpl; rewrite Hv; reflexivity
       end.
Qed.

Lemma handle_jobs (db : Store) (r : request) :
  NoDup (map u_id (users db)) ->
  Forall2 same_job (users db) (users (handle db r)).
Proof.
  intros Hnd. destruct r; simpl.
  - apply place_order_jobs. exact Hnd.
  - unfold delivery_bid. repeat break_match; apply Forall2_same; exact same_job_refl.
  - unfold assign_order. repeat break_match; apply Forall2_same; exact same_job_refl.
  - unfold update_order_status.
    repeat break_match; apply Forall2_same; exact same_job_refl.
  - unfold file_complaint. repeat break_match; apply Forall2_same; exact same_job_refl.
  - destruct (review_complaint_db_after db session_user now complaint_id decision notes)
      as [H|H]; rewrite H.
    + apply Forall2_same. exact same_job_refl.
    + apply process_complaint_decision_jobs. exact Hnd.
  - unfold get_ai_response.
    destruct (choose_answer content api_key post query) as [a src].
    destruct (src =? "local")%string;
      [destruct (find _ _)|]; apply Forall2_same; exact same_job_refl.
  - unfold rate_ai_response.
    repeat break_match; apply Forall2_same; exact same_job_refl.
Qed.

Lemma run_jobs (db : Store) (rs : list request) :
  NoDup (map u_id (users db)) ->
  Forall2 same_job (users db) (users (run db rs)).
Proof.
  revert db. induction rs as [|r rs IH]; intros db Hnd; simpl.
  - apply Forall2_same. exact same_job_refl.
  - pose proof (handle_jobs db r Hnd) as H.
    eapply (Forall2_chain same_job); [exact same_job_trans | exact H |].
    apply IH. rewrite (Forall2_keys u_id same_job _ _ same_job_key H). exact Hnd.
Qed.

(** X23: the staff is fixed.  With unique account ids, through every
    sequence of requests no account is added or removed, a Chef, a
    DeliveryPerson and a Manager keep their role, and no other account gets
    one of these roles: who is a manager never changes. *)
Theorem run_keeps_jobs (db : Store) (rs : list request) :
  NoDup (map u_id (users db)) ->
  map u_id (users (run db rs)) = map u_id (users db)
  /\ (forall id u, get_user db id = Some u ->
        exists u', get_user (run db rs) id = Some u'
                   /\ job u' = job u /\ is_manager u' = is_manager u)
  /\ (forall id u', get_user (run db rs) id = Some u' ->
        exists u, get_user db id = Some u
                  /\ job u' = job u /\ is_manager u' = is_manager u).
Proof.
  intros Hnd. pose proof (run_jobs db rs Hnd) as H.
  split; [exact (Forall2_keys u_id same_job _ _ same_job_key H)|]. split.
  - intros id u Hu.
    destruct (Forall2_find u_id same_job _ _ id u same_job_key H Hu) as [u' [Hu' [_ Hj]]].
    exists u'. split; [exact Hu'|]. split; [exact Hj|].
    rewrite !is_manager_job, Hj. reflexivity.
  - intros id u' Hu'.
    destruct (Forall2_find_back u_id same_job _ _ id u' same_job_key H Hu')
      as [u [Hu [_ Hj]]].
    exists u. split; [exact Hu|]. split; [exact Hj|].
    rewrite !is_manager_job, Hj. reflexivity.
Qed.

Lemma same_activity_key (u u' : User) : same_activity u u' -> u_id u' = u_id u.
Proof. intros [H _]. exact H. Qed.

Lemma same_activity_trans (a b c : User) :
  same_activity a b -> same_activity b c -> same_activity a c.
Proof. unfold same_activity. intros [H1 H2] [H3 H4]. split; congruence. Qed.

Lemma from_manager_kept (db db' : Store) (r : request) :
  Forall2 same_job (users db) (users db') ->
  Forall2 same_activity (users db) (users db') ->
  from_manager db' r = from_manager db r.
Proof.
  intros H Hact. unfold from_manager, current_user.
  destruct (actor r) as [id|]; [|reflexivity].
  unfold get_user.
  destruct (find (fun u => u_id u =? id) (users db)) as [u|] eqn:E.
  - destruct (Forall2_find u_id same_job _ _ id u same_job_key H E) as [u' [Hu' [_ Hj]]].
    destruct (Forall2_find u_id same_activity _ _ id u same_activity_key Hact E)
      as [u'' [Hu'' [_ Ha]]].
    assert (u'' = u') by congruence. subst u''.
    rewrite Hu', Ha. destruct (u_is_active u); [|reflexivity].
    rewrite !is_manager_job, Hj. reflexivity.
  - rewrite (Forall2_find_none u_id same_job _ _ id same_job_key H E). reflexivity.
Qed.

Lemma same_courier_key (o o' : Order) : same_courier o o' -> o_id o' = o_id o.
Proof. intros [H _]. exact H. Qed.

Lemma same_courier_trans (a b c : Order) :
  same_courier a b -> same_courier b c -> same_courier a c.
Proof. unfold same_courier. intros [H1 H2] [H3 H4]. split; congruence. Qed.

Ltac keep_rows :=
  lazymatch goal with
  | |- Forall2 _ ?t ?t => apply Forall2_same; intros; split; reflexivity
  | |- Forall2 _ ?t (update_where _ _ ?t) =>
    apply Forall2_update_where; intros; split; reflexivity
  | |- exists added, ?t = ?t ++ added => exists []; symmetry; apply app_nil_r
  | |- exists added, ?t ++ ?a = ?t ++ added => exists a; reflexivity
  | |- table_grows _ _ ?t ?t => apply table_grows_refl; intros; split; reflexivity
  | |- table_grows _ _ ?t (update_where _ _ ?t) =>
    apply table_grows_update; intros; split; reflexivity
  | |- table_grows _ _ ?t (?t ++ [_]) =>
    apply table_grows_add; [intros; split; reflexivity | reflexivity]
  | |- _ = _ => reflexivity
  end.

Ltac unsanction :=
  unfold unsanctioned;
  cbn [db_after users orders order_items complaints warnings blacklist
       delivery_bids knowledge_base_entries ai_response_ratings
       set_users set_orders set_order_items set_complaints set_warnings
       set_blacklist set_delivery_bids set_knowledge_base_entries
       set_ai_response_ratings update_user update_order];
  repeat apply conj; keep_rows.

Lemma unsanctioned_refl (db : Store) : unsanctioned db db.
Proof. unsanction. Qed.

Lemma unsanctioned_trans (db db' db'' : Store) :
  unsanctioned db db' -> unsanctioned db' db'' -> unsanctioned db db''.
Proof.
  unfold unsanctioned.
  intros [H1 [H2 [H3 [[c1 H4] [[b1 H5] H6]]]]] [G1 [G2 [G3 [[c2 G4] [[b2 G5] G6]]]]].
  repeat apply conj.
  - congruence.
  - congruence.
  - exact (Forall2_chain same_activity _ _ _ same_activity_trans H3 G3).
  - exists (c1 ++ c2). rewrite G4, H4, app_assoc. reflexivity.
  - exists (b1 ++ b2). rewrite G5, H5, app_assoc. reflexivity.
  - exact (table_grows_trans o_id same_courier _ _ _ same_courier_key
             same_courier_trans H6 G6).
Qed.

Lemma calculate_vip_status_unsanctioned (db : Store) (user_id : Z) :
  unsanctioned db (db_after (calculate_vip_status db user_id)).
Proof. unfold calculate_vip_status. repeat break_match; unsanction. Qed.

Lemma place_order_unsanctioned (db : Store) su cart addr notes :
  unsanctioned db (db_after (place_order db su cart addr notes)).
Proof.
  unfold place_order. repeat break_match; try apply unsanctioned_refl.
  cbn [db_after].
  eapply unsanctioned_trans; [|apply calculate_vip_status_unsanctioned].
  unsanction.
Qed.

Lemma not_manager_forbidden (cu : User) :
  is_manager cu = false -> negb (str_in (u_role cu) ["Manager"]) = true.
Proof.
  unfold is_manager, str_in. simpl. intros ->. reflexivity.
Qed.

Lemma handle_unsanctioned (db : Store) (r : request) :
  from_manager db r = false -> unsanctioned db (handle db r).
Proof.
  unfold from_manager. destruct r; simpl; intros Hm.
  - apply place_order_unsanctioned.
  - unfold delivery_bid. repeat break_match; unsanction.
  - unfold assign_order.
    destruct (current_user db session_user) as [cu|]; [|apply unsanctioned_refl].
    rewrite (not_manager_forbidden cu Hm). apply unsanctioned_refl.
  - unfold update_order_status. repeat break_match; unsanction.
  - unfold file_complaint. repeat break_match; unsanction.
  - unfold review_complaint.
    destruct (current_user db session_user) as [cu|]; [|apply unsanctioned_refl].
    rewrite (not_manager_forbidden cu Hm). apply unsanctioned_refl.
  - unfold get_ai_response.
    destruct (choose_answer content api_key post query) as [a src].
    destruct (src =? "local")%string; [destruct (find _ _)|]; unsanction.
  - unfold rate_ai_response. repeat break_match; unsanction.
Qed.

Lemma run_unsanctioned (db : Store) (rs : list request) :
  NoDup (map u_id (users db)) ->
  (forall r, In r rs -> from_manager db r = false) ->
  unsanctioned db (run db rs).
Proof.
  revert db. induction rs as [|r rs IH]; intros db Hnd Hrs; simpl.
  - apply unsanctioned_refl.
  - pose proof (handle_jobs db r Hnd) as Hj.
    eapply unsanctioned_trans.
    + apply handle_unsanctioned. apply Hrs. left. reflexivity.
    + apply IH.
      * rewrite (Forall2_keys u_id same_job _ _ same_job_key Hj). exact Hnd.
      * intros r' Hr'.
        assert (unsanctioned db (handle db r)) as Hun.
        { apply handle_unsanctioned. apply Hrs. left. reflexivity. }
        destruct Hun as [_ [_ [Hact _]]].
        rewrite (from_manager_kept db _ r' Hj Hact).
        apply Hrs. right. exact Hr'.
Qed.

(** X8: no bid after an assignment.  Once a manager whom the login check
    lets through has assigned an order to a delivery person (an id other
    than 0), the order records that person, and a bid on that order, by
    anyone and for any amount, is turned down and changes nothing: right
    after the assignment, and after any sequence of requests none of which
    comes with the session of an active manager. *)
Theorem delivery_bid_after_assignment (db : Store) (id order_id dp : Z)
    (cu : User) (order : Order) (rs : list request)
    (bidder : option Z) (amount_offered : option amount) :
  get_user db id = Some cu ->
  u_is_active cu = true ->
  u_role cu = "Manager" ->
  get_order db order_id = Some order ->
  dp <> 0 ->
  NoDup (map u_id (users db)) ->
  (forall r, In r rs ->
     from_manager (db_after (assign_order db (Some id) order_id dp)) r = false) ->
  let db' := run (db_after (assign_order db (Some id) order_id dp)) rs in
  option_map o_delivery_person_id (get_order db' order_id) = Some (Some dp)
  /\ exists resp,
       delivery_bid db' bidder order_id amount_offered = Returned resp db'
       /\ flash_category resp <> "success".
Proof.
  intros Hu Hact Hrole Ho Hdp Hnd Hrs db'.
  pose proof (current_user_active _ _ _ Hu Hact) as Hcu.
  set (db1 := db_after (assign_order db (Some id) order_id dp)) in *.
  assert (get_order db1 order_id
          = Some (set_status "Out for Delivery" (set_delivery_person (Some dp) order))
          /\ users db1 = users db) as [Ho1 Hus].
  { unfold db1. rewrite (assign_order_bids db (Some id) order_id dp cu order Hcu Hrole Ho).
    cbn [db_after]. split; [|reflexivity].
    unfold get_order. cbn [orders set_delivery_bids].
    change (find (fun o => o_id o =? order_id) (orders (update_order db order_id _)))
      with (get_order (update_order db order_id
              (fun o => set_status "Out for Delivery"
                          (set_delivery_person (Some dp) o))) order_id).
    rewrite get_order_update_order by reflexivity. rewrite Ho. reflexivity. }
  assert (NoDup (map u_id (users db1))) as Hnd1 by (rewrite Hus; exact Hnd).
  destruct (run_unsanctioned db1 rs Hnd1 Hrs) as [_ [_ [_ [_ [_ Hord]]]]].
  destruct (table_grows_find o_id same_courier _ _ order_id _ same_courier_key Hord Ho1)
    as [o' [Ho' [_ Hc]]].
  fold (get_order (run db1 rs) order_id) in Ho'. fold db' in Ho'.
  cbn [o_delivery_person_id set_status set_delivery_person] in Hc.
  split; [rewrite Ho'; simpl; rewrite Hc; reflexivity|].
  unfold delivery_bid.
  destruct (current_user db' bidder) as [b|];
    [|eexists; split; [reflexivity | discriminate]].
  destruct (negb (str_in (u_role b) ["DeliveryPerson"]));
    [eexists; split; [reflexivity | discriminate]|].
  rewrite Ho', Hc. cbn [truthy_id].
  assert ((dp =? 0) = false) as -> by (apply Z.eqb_neq; exact Hdp).
  cbn [negb]. eexists. split; [reflexivity | discriminate].
Qed.

(** X24: sanctions need a manager.  With unique account ids, a sequence of
    requests none of which comes with the session of a manager issues no
    warning and no ban, activates and deactivates no account, decides no
    complaint on file, accepts and rejects no bid on file, and gives no
    order on file another delivery person: complaints and bids are only
    added. *)
Theorem run_without_manager (db : Store) (rs : list request) :
  NoDup (map u_id (users db)) ->
  (forall r, In r rs -> from_manager db r = false) ->
  warnings (run db rs) = warnings db
  /\ blacklist (run db rs) = blacklist db
  /\ (forall id, option_map u_is_active (get_user (run db rs) id)
                 = option_map u_is_active (get_user db id))
  /\ (exists added, complaints (run db rs) = complaints db ++ added)
  /\ (exists added, delivery_bids (run db rs) = delivery_bids db ++ added)
  /\ (forall id o, get_order db id = Some o ->
        option_map o_delivery_person_id (get_order (run db rs) id)
        = Some (o_delivery_person_id o)).
Proof.
  intros Hnd Hrs.
  destruct (run_unsanctioned db rs Hnd Hrs) as [H1 [H2 [H3 [H4 [H5 H6]]]]].
  repeat apply conj; try assumption.
  - intros id. unfold get_user.
    destruct (find (fun u => u_id u =? id) (users db)) as [u|] eqn:E.
    + destruct (Forall2_find u_id same_activity _ _ id u same_activity_key H3 E)
        as [u' [-> [_ Ha]]].
      simpl. rewrite Ha. reflexivity.
    + rewrite (Forall2_find_none u_id same_activity _ _ id same_activity_key H3 E).
      reflexivity.
  - intros id o Ho.
    destruct (table_grows_find o_id same_courier _ _ id o same_courier_key H6 Ho)
      as [o' [Ho' [_ Hc]]].
    unfold get_order. rewrite Ho'. simpl. rewrite Hc. reflexivity.
Qed.

(** ** Enumerated columns *)

Lemma Forall_update_where {R : Type} (P : R -> Prop) (p : R -> bool) (f : R -> R)
    (t : list R) :
  Forall P t -> (forall r, P r -> P (f r)) -> Forall P (update_where p f t).
Proof.
  intros H Hf. unfold update_where. induction H as [|r t Hr _ IH]; simpl;
    constructor; [|exact IH].
  destruct (p r); auto.
Qed.

Lemma Forall_add {R : Type} (P : R -> Prop) (t : list R) (r : R) :
  Forall P t -> P r -> Forall P (t ++ [r]).
Proof. intros H Hr. apply Forall_app. split; [exact H | constructor; auto]. Qed.

Lemma settable_listed (st : string) :
  str_in st settable_statuses = true -> In st order_statuses.
Proof.
  intros H. apply str_in_In in H. simpl in *. intuition.
Qed.

Ltac listed :=
  lazymatch goal with
  | |- Forall _ (update_where _ _ _) =>
    apply Forall_update_where;
      [listed | intros; simpl in *; repeat break_match; auto 10]
  | |- Forall _ (_ ++ [_]) => apply Forall_add; [listed | simpl; auto 10]
  | |- Forall _ _ => assumption
  end.

Ltac columns :=
  unfold columns_listed;
  cbn [db_after users orders order_items complaints warnings blacklist
       delivery_bids knowledge_base_entries ai_response_ratings
       set_users set_orders set_order_items set_complaints set_warnings
       set_blacklist set_delivery_bids set_knowledge_base_entries
       set_ai_response_ratings update_user update_order];
  repeat apply conj; listed.

Lemma calculate_vip_status_columns (db : Store) (user_id : Z) :
  columns_listed db -> columns_listed (db_after (calculate_vip_status db user_id)).
Proof.
  intros [H1 [H2 [H3 H4]]]. unfold calculate_vip_status.
  repeat break_match; columns.
Qed.

Lemma place_order_columns (db : Store) su cart addr notes :
  columns_listed db -> columns_listed (db_after (place_order db su cart addr notes)).
Proof.
  intros H. unfold place_order. repeat break_match; try exact H.
  cbn [db_after]. apply calculate_vip_status_columns.
  destruct H as [H1 [H2 [H3 H4]]]. columns.
Qed.

Lemma process_complaint_decision_columns (db : Store) now cid decision notes :
  columns_listed db ->
  columns_listed (db_after (process_complaint_decision db now cid decision notes)).
Proof.
  intros [H1 [H2 [H3 H4]]]. unfold process_complaint_decision.
  repeat break_match;
    try match goal with
        | H : insert_blacklist _ _ = Some _ |- _ =>
          apply insert_blacklist_some in H; subst
        end;
    columns.
Qed.

Lemma handle_columns (db : Store) (r : request) :
  columns_listed db -> columns_listed (handle db r).
Proof.
  intros H. destruct r; simpl.
  - apply place_order_columns. exact H.
  - destruct H as [H1 [H2 [H3 H4]]]. unfold delivery_bid.
    repeat break_match; columns.
  - destruct H as [H1 [H2 [H3 H4]]]. unfold assign_order.
    repeat break_match; columns.
  - destruct H as [H1 [H2 [H3 H4]]]. unfold update_order_status.
    destruct (current_user db session_user) as [cu|]; [|columns].
    destruct (get_order db order_id) as [order|]; [|columns].
    destruct new_status as [st|]; [|columns].
    destruct (can_update cu order); cbn [andb]; [|columns].
    destruct (str_in st settable_statuses) eqn:Hst; [|columns].
    apply settable_listed in Hst.
    unfold columns_listed. cbn [db_after update_order users orders complaints
                                 delivery_bids set_orders].
    repeat apply conj; try assumption.
    apply Forall_update_where; [exact H2 | intros; exact Hst].
  - destruct H as [H1 [H2 [H3 H4]]]. unfold file_complaint.
    repeat break_match; columns.
  - destruct (review_complaint_db_after db session_user now complaint_id decision notes)
      as [E|E]; rewrite E; [exact H|].
    apply process_complaint_decision_columns. exact H.
  - destruct H as [H1 [H2 [H3 H4]]]. unfold get_ai_response.
    destruct (choose_answer content api_key post query) as [a src].
    destruct (src =? "local")%string; [destruct (find _ _)|]; columns.
  - destruct H as [H1 [H2 [H3 H4]]]. unfold rate_ai_response.
    repeat break_match; columns.
Qed.

(** X25: enumerated columns.  If every role, order status, complaint status
    and bid status in the database is one of the values models.py lists for
    its column, the same holds after any sequence of requests. *)
Theorem run_keeps_columns_listed (db : Store) (rs : list request) :
  columns_listed db -> columns_listed (run db rs).
Proof.
  revert db. induction rs as [|r rs IH]; intros db H; simpl; [exact H|].
  apply IH. apply handle_columns. exact H.
Qed.

End Proofs.

(** * The model run on concrete data *)

Lemma Q_zero_not_above_100 :
  amount_ltb (Amount := QAmount) amount_100 amount_zero = false.
Proof. reflexivity. Qed.

Lemma Q_falsy_not_above_100 (x : Q) :
  amount_truthy (Amount := QAmount) x = false ->
  amount_ltb (Amount := QAmount) amount_100 x = false.
Proof.
  simpl. intros H. apply negb_false_iff in H. apply Qeq_bool_iff in H.
  apply negb_false_iff. apply Qle_bool_iff. rewrite H. discriminate.
Qed.

(** The customer of [regular_db] has three Delivered orders and no Approved
    complaint: promoted. *)
Lemma calculate_vip_status_customer_witness :
  calculate_vip_status regular_db 1
  = Returned true (update_user regular_db 1 (set_role "VIP"))
  /\ get_user (update_user regular_db 1 (set_role "VIP")) 1
     = Some (mkUser (A := QAmount) 1 "VIP" 0%Q true).
Proof.
  destruct (calculate_vip_status_customer (A := QAmount)
              Q_zero_not_above_100 Q_falsy_not_above_100
              regular_db 1 (mkUser (A := QAmount) 1 "Customer" 0%Q true)
              [mkOrder (A := QAmount) 1 1 None "Delivered" 20%Q "" "";
               mkOrder (A := QAmount) 2 1 None "Delivered" 20%Q "" "";
               mkOrder (A := QAmount) 3 1 None "Delivered" 20%Q "" ""] eq_refl)
    as [H _].
  - unfold delivered_of.
    repeat (apply selected_keep; [split; reflexivity|]). apply selected_nil.
  - destruct (H eq_refl) as [Hp _]. apply Hp. right.
    split; [simpl; lia|].
    intros o _ [c [Hc [_ Hs]]]. destruct Hc as [<-|[]]. discriminate Hs.
Defined.

(** The chef of [regular_db] is not eligible. *)
Lemma calculate_vip_status_ineligible_witness :
  calculate_vip_status regular_db 2 = Returned false regular_db.
Proof.
  destruct (calculate_vip_status_ineligible (A := QAmount)
              Q_zero_not_above_100 Q_falsy_not_above_100 regular_db 2) as [_ [H _]].
  apply (H (mkUser (A := QAmount) 2 "Chef" 0%Q true) eq_refl). simpl. auto.
Defined.

(** C9 as stated fails: the account of [visitor_db] is a Visitor, neither
    Customer nor VIP, and the call promotes it to VIP instead of returning
    false. *)
Lemma calculate_vip_status_visitor_promoted :
  exists user,
    get_user visitor_db 1 = Some user
    /\ u_role user = "Visitor"
    /\ u_role user <> "Customer" /\ u_role user <> "VIP"
    /\ calculate_vip_status visitor_db 1
       = Returned true (update_user visitor_db 1 (set_role "VIP"))
    /\ calculate_vip_status visitor_db 1 <> Returned false visitor_db.
Proof.
  exists (mkUser (A := QAmount) 1 "Visitor" 0%Q true).
  repeat split; try reflexivity; discriminate.
Qed.

(** In [blacklisted_db] the customer has three warnings and a Blacklist
    row; any decision on the fourth complaint leaves exactly that row. *)
Lemma blacklist_at_most_one_entry_witness :
  blacklist_entries (run blacklisted_db
                       [ReviewComplaint (Some 1) 103 4 (Some "Rejected") ""]) 5 <= 1
  /\ blacklist_entries
       (db_after (process_complaint_decision blacklisted_db 103 4
                    (Some "Rejected") (Some ""))) 5 = 1.
Proof.
  assert (blacklist_unique blacklisted_db) as Hu.
  { intros uid. unfold blacklist_entries.
    replace (blacklist blacklisted_db)
      with [mkBlacklist 1 5 "3 warnings issued for rejected complaints"]
      by reflexivity.
    unfold count_where. cbn [filter bl_user_id].
    destruct (5 =? uid); cbn [List.length]; lia. }
  destruct (blacklist_at_most_one_entry blacklisted_db Hu) as [H1 H2].
  split.
  - apply H1.
  - apply H2. reflexivity.
Defined.

(** C1 fails on a filer who is blacklisted already: the fourth rejection
    raises IntegrityError, nothing is committed and the filer keeps three
    warnings. *)
Theorem process_complaint_decision_fourth_rejection :
  warning_count blacklisted_db 5 = 3
  /\ is_user_blacklisted blacklisted_db 5 = true
  /\ option_map c_filed_by_id (get_complaint blacklisted_db 4) = Some 5
  /\ process_complaint_decision blacklisted_db 103 4 (Some "Rejected") (Some "")
     = Raised IntegrityError blacklisted_db
  /\ warning_count
       (db_after (process_complaint_decision blacklisted_db 103 4
                    (Some "Rejected") (Some ""))) 5 = 3.
Proof. repeat split. Qed.

(** C10 fails on the same filer: reviewed with the decision 'Rejected', the
    fourth complaint is not stamped and the handler does not return. *)
Theorem review_complaint_fourth_rejection :
  review_complaint blacklisted_db (Some 1) 103 4 (Some "Rejected") ""
  = Raised IntegrityError blacklisted_db
  /\ option_map c_status
       (get_complaint
          (db_after (review_complaint blacklisted_db (Some 1) 103 4
                       (Some "Rejected") "")) 4)
     = Some "Pending".
Proof. split; reflexivity. Qed.

(** The example of the specification: balance 5.00, cart total 10.00. *)
Lemma place_order_insufficient_balance_witness :
  exists resp,
    place_order restaurant_db (Some 5) cart_of_10 "Main St 1" ""
    = Returned (resp, cart_of_10) restaurant_db
    /\ is_failure resp
    /\ redirect resp <> "order_history"
    /\ (is_customer (mkUser (A := QAmount) 5 "Customer" 5%Q true) = true ->
        can_user_place_order restaurant_db 5 = (true, None) ->
        cart_of_10 <> [] ->
        resp = insufficient_balance).
Proof.
  apply (place_order_insufficient_balance (A := QAmount) restaurant_db (Some 5)
           cart_of_10 "Main St 1" "" (mkUser (A := QAmount) 5 "Customer" 5%Q true));
    reflexivity.
Defined.

(** The chef moves the Pending order to Preparing. *)
Lemma update_order_status_authorization_witness :
  exists resp,
    update_order_status orders_db (Some 2) 1 (Some "Preparing")
    = Returned resp (update_order orders_db 1 (set_status "Preparing"))
    /\ flash_category resp = "success"
    /\ get_order (update_order orders_db 1 (set_status "Preparing")) 1
       = Some (mkOrder (A := QAmount) 1 5 None "Preparing" 10%Q "Main St 1" "").
Proof.
  destruct (update_order_status_authorization (A := QAmount) orders_db (Some 2) 1
              (Some "Preparing")
              (mkOrder (A := QAmount) 1 5 None "Pending" 10%Q "Main St 1" "")
              eq_refl) as [H _].
  destruct (H 2 (mkUser (A := QAmount) 2 "Chef" 0%Q true) eq_refl eq_refl eq_refl)
    as [Hset _].
  apply (Hset "Preparing" eq_refl).
  - right. left. split; [reflexivity | left; reflexivity].
  - simpl. auto.
Defined.

(** C8 as stated fails: Cancelled is a status of an order, the manager asks
    for it, and the order stays Pending. *)
Lemma update_order_status_manager_cancelled :
  In "Cancelled" order_statuses
  /\ option_map u_role (current_user orders_db (Some 1)) = Some "Manager"
  /\ update_order_status orders_db (Some 1) 1 (Some "Cancelled")
     = Returned (permission_denied (mkUser (A := QAmount) 1 "Manager" 0%Q true)) orders_db
  /\ option_map o_status
       (get_order (db_after (update_order_status orders_db (Some 1) 1
                               (Some "Cancelled"))) 1)
     = Some "Pending".
Proof.
  split; [simpl; auto 7|]. repeat split.
Qed.

(** The manager assigns the order of [bids_db] to the first bidder. *)
Lemma assign_order_transition_witness :
  exists resp db',
    assign_order bids_db (Some 1) 1 3 = Returned resp db'
    /\ get_order db' 1
       = Some (mkOrder (A := QAmount) 1 5 (Some 3) "Out for Delivery" 10%Q "Main St 1" "")
    /\ In (mkDeliveryBid 1 1 3 None "Accepted") (delivery_bids db')
    /\ In (mkDeliveryBid 2 1 4 (Some 2%Q) "Rejected") (delivery_bids db').
Proof.
  assert (NoDup (map bid_id (delivery_bids bids_db))) as Hnd.
  { change (NoDup [1; 2]).
    constructor; [simpl; intros [H|[]]; discriminate|].
    constructor; [simpl; tauto | constructor]. }
  destruct (assign_order_transition (A := QAmount) bids_db (Some 1) 1 3
              (mkOrder (A := QAmount) 1 5 None "Pending" 10%Q "Main St 1" "")
              eq_refl Hnd) as [H _].
  destruct (H 1 (mkUser (A := QAmount) 1 "Manager" 0%Q true)
              eq_refl eq_refl eq_refl eq_refl)
    as [resp [db' [chosen [Hrun [Hch [Horder [_ [Hacc [Hrej _]]]]]]]]].
  assert (delivery_bids bids_db
          = [mkDeliveryBid (A := QAmount) 1 1 3 None "Pending";
             mkDeliveryBid (A := QAmount) 2 1 4 (Some 2%Q) "Pending"]) as Hbids
    by reflexivity.
  assert (chosen = Some (mkDeliveryBid (A := QAmount) 1 1 3 None "Pending")) as ->.
  { unfold chosen_bid in Hch. rewrite Hbids in Hch. destruct chosen as [c|].
    - destruct Hch as [before [after [E [H1 [H2 Hb]]]]].
      destruct before as [|b0 before].
      + simpl in E. injection E as E1 E2. subst c. reflexivity.
      + exfalso. simpl in E. injection E as E1 E2. subst b0.
        apply (Hb _ (or_introl eq_refl)). split; reflexivity.
    - exfalso. apply (Hch (mkDeliveryBid (A := QAmount) 1 1 3 None "Pending")).
      + left. reflexivity.
      + split; reflexivity. }
  exists resp, db'. split; [exact Hrun|]. split; [exact Horder|]. split.
  - exact (Hacc _ eq_refl).
  - apply (Hrej (mkDeliveryBid (A := QAmount) 2 1 4 (Some 2%Q) "Pending")).
    + rewrite Hbids. right. left. reflexivity.
    + reflexivity.
    + reflexivity.
    + discriminate.
Defined.

(** C4 as stated fails: assigned to a person who has not bid, the order
    has no Accepted bid; assigned a second time, it has two. *)
Lemma assign_order_accepted_bids_not_one :
  accepted_bids (run orders_db [AssignOrder (Some 1) 1 3]) 1 = 0
  /\ accepted_bids (run orders_db two_assignments) 1 = 2
  /\ delivery_bids (run orders_db two_assignments)
     = [mkDeliveryBid 1 1 3 None "Accepted"; mkDeliveryBid 2 1 4 (Some 2%Q) "Accepted"].
Proof. repeat split. Qed.

(** C6 fails on a rating of 0 for an answer from the knowledge base.  The
    second answer of [feedback_db] is linked to entry 1; rated 0, the call
    stores the value and raises AttributeError: it does not return, the
    entry is not flagged, and its stored average and count stay 0 although
    a rating of 5 is on record for it. *)
Theorem rate_ai_response_zero_raises :
  option_map ar_kb_entry_id (get_ai_response_rating feedback_db 2) = Some (Some 1)
  /\ option_map ar_rating (get_ai_response_rating feedback_db 1) = Some 5
  /\ option_map kb_flagged (get_kb_entry feedback_db 1) = Some false
  /\ exists db',
       rate_ai_response feedback_db 2 0 = Raised AttributeError db'
       /\ option_map ar_rating (get_ai_response_rating db' 2) = Some 0
       /\ option_map (fun e => (kb_flagged e, kb_rating e, kb_rating_count e))
                     (get_kb_entry db' 1)
          = Some (false, 0%Q, 0).
Proof.
  split; [reflexivity|]. split; [reflexivity|]. split; [reflexivity|].
  exists (set_ai_response_ratings feedback_db
            (update_where (fun r => ar_id r =? 2) (set_rating 0)
                          (ai_response_ratings feedback_db))).
  split; [|split]; vm_compute; reflexivity.
Qed.



(** The keys of [blacklisted_db], reached from [restaurant_db] by seven
    requests, are unique. *)
Lemma run_keeps_keys_unique_witness : pk_unique blacklisted_db.
Proof.
  apply (run_keeps_keys_unique (A := QAmount) restaurant_db
           (four_complaints ++ three_rejections)).
  unfold pk_unique. cbn.
  repeat apply conj;
    repeat (constructor; [cbn; intuition discriminate|]); constructor.
Defined.

(** The customer of [blacklisted_db] rates an answer, then tries to order. *)
Lemma blacklisted_never_orders_witness :
  is_user_blacklisted (run blacklisted_db [RateAI 1 5]) 5 = true
  /\ exists resp,
       place_order (run blacklisted_db [RateAI 1 5]) (Some 5) cart_of_10 "Main St 1" ""
       = Returned (resp, cart_of_10) (run blacklisted_db [RateAI 1 5])
       /\ flash_category resp <> "success".
Proof.
  apply (blacklisted_never_orders (A := QAmount) blacklisted_db 5 [RateAI 1 5]
           cart_of_10 "Main St 1" "").
  reflexivity.
Defined.

(** The order the customer of [funded_db] places totals its line item. *)
Lemma run_keeps_totals_witness :
  totals_consistent (run funded_db [PlaceOrder (Some 5) cart_of_10 "Main St 1" ""]).
Proof.
  apply (run_keeps_totals (A := QAmount) funded_db).
  split; intros ? [].
Defined.


(** The customer of [regular_db] is promoted by the first call; the second
    call returns true again and keeps the database. *)
Lemma calculate_vip_status_idempotent_witness :
  calculate_vip_status (update_user regular_db 1 (set_role "VIP")) 1
  = Returned true (update_user regular_db 1 (set_role "VIP")).
Proof.
  apply (calculate_vip_status_idempotent (A := QAmount) regular_db _ 1 true).
  reflexivity.
Defined.

(** The order of [bids_db] is assigned to the first bidder; the customer
    then complains, and the second bidder bids again. *)
Lemma delivery_bid_after_assignment_witness :
  exists resp,
    delivery_bid
      (run (db_after (assign_order bids_db (Some 1) 1 3))
           [FileComplaint (Some 5) 3 (Some 1) "late"])
      (Some 4) 1 (Some 1%Q)
    = Returned resp
        (run (db_after (assign_order bids_db (Some 1) 1 3))
             [FileComplaint (Some 5) 3 (Some 1) "late"])
    /\ flash_category resp <> "success".
Proof.
  pose proof (delivery_bid_after_assignment (A := QAmount) bids_db 1 1 3
                (mkUser (A := QAmount) 1 "Manager" 0%Q true)
                (mkOrder (A := QAmount) 1 5 None "Pending" 10%Q "Main St 1" "")
                [FileComplaint (Some 5) 3 (Some 1) "late"]
                (Some 4) (Some 1%Q) eq_refl eq_refl eq_refl eq_refl
                ltac:(discriminate)) as H.
  cbv zeta in H. apply H.
  - cbn. repeat (constructor; [cbn; intuition discriminate|]). constructor.
  - intros r [<-|[]]. reflexivity.
Defined.

(** The manager of [restaurant_db] fires the chef, who is then turned away
    at the login check. *)
Lemma hire_fire_and_orders_witness :
  get_user (db_after (hire_fire (fun _ => "sam") restaurant_db (Some 1) 2 (Some "fire"))) 2
  = Some (mkUser (A := QAmount) 2 "Chef" 0%Q false)
  /\ place_order
       (db_after (hire_fire (fun _ => "sam") restaurant_db (Some 1) 2 (Some "fire")))
       (Some 2) cart_of_10 "" ""
     = Returned (unauthorized, cart_of_10)
         (db_after (hire_fire (fun _ => "sam") restaurant_db (Some 1) 2 (Some "fire"))).
Proof.
  pose proof (hire_fire_and_orders (A := QAmount) (fun _ => "sam") restaurant_db
                1 2 (mkUser (A := QAmount) 1 "Manager" 0%Q true)
                (mkUser (A := QAmount) 2 "Chef" 0%Q true) cart_of_10 "" ""
                eq_refl eq_refl eq_refl eq_refl) as H.
  cbv zeta in H. destruct H as [[Hfire [Horder _]] _].
  split; [exact Hfire | exact Horder].
Defined.

(** The question asked twice in [feedback_db] is stored once. *)
Lemma run_keeps_questions_unique_witness : questions_unique feedback_db.
Proof.
  apply (run_keeps_questions_unique (A := QAmount) empty_db
           (two_questions ++ [RateAI 1 5])).
  constructor.
Defined.

(** Ratings of 4, 5 and 3 average between 1 and 5. *)
Lemma average_rating_bounds_witness :
  (inject_Z 1 <= average_rating [4; 5; 3]%Z)%Q
  /\ (average_rating [4; 5; 3]%Z <= inject_Z 5)%Q.
Proof.
  destruct (average_rating_bounds [4; 5; 3] 1 5) as [_ H].
  - intros x [<-|[<-|[<-|[]]]]; lia.
  - apply H. discriminate.
Defined.

(** The averages stored in [feedback_db] are in range. *)
Lemma run_keeps_averages_in_range_witness : averages_in_range feedback_db.
Proof.
  apply (run_keeps_averages_in_range (A := QAmount) empty_db
           (two_questions ++ [RateAI 1 5])).
  split; intros ? [].
Defined.

(** In [tie_corpus] both paragraphs match once; the first heads the
    ranking. *)
Lemma best_matches_first_maximal_witness :
  exists before p after,
    split_paragraphs tie_corpus = before ++ p :: after
    /\ (1, "Delivery is free over $30.") = (matches ["delivery"] p, strip p)
    /\ (forall q, In q before -> matches ["delivery"] q < matches ["delivery"] p)
    /\ (forall q, In q after -> matches ["delivery"] q <= matches ["delivery"] p).
Proof.
  apply (best_matches_first_maximal ["delivery"] tie_corpus
           (1, "Delivery is free over $30.") [(1, "Delivery takes 30 minutes.")]).
  reflexivity.
Defined.

(** The answer to the question of the specification. *)
Lemma local_answer_shape_witness :
  "We offer free delivery on orders over $30." <> EmptyString
  /\ forall api_key post,
       choose_answer (Some delivery_corpus) api_key post "Is delivery free?"
       = ("We offer free delivery on orders over $30.", "local").
Proof.
  destruct (local_answer_shape delivery_corpus "Is delivery free?"
              "We offer free delivery on orders over $30." eq_refl) as [H1 [H2 _]].
  split; assumption.
Defined.

(** [delivery_corpus] holds neither "pizza" nor "toppings". *)
Lemma search_needs_a_word_witness :
  search_local_knowledge_base (Some delivery_corpus) "pizza toppings" = None.
Proof.
  apply (search_needs_a_word delivery_corpus "pizza toppings").
  change (query_words "pizza toppings") with ["pizza"; "toppings"].
  intros w [<-|[<-|[]]]; reflexivity.
Defined.

(** Two soups are added to an empty cart, then one more; the bread is not
    in the cart. *)
Lemma add_to_cart_line_witness :
  cart_line (snd (add_to_cart sample_menu [] 7 2)) 7
  = Some (mkCartItem "Soup" 5%Q 2 "default.jpg")
  /\ cart_line (snd (add_to_cart sample_menu cart_of_10 7 1)) 7
     = Some (mkCartItem "Soup" 5%Q 3 "default.jpg")
  /\ cart_line (snd (add_to_cart sample_menu cart_of_10 7 1)) 8 = None.
Proof.
  assert (NoDup (map fst cart_of_10)) as Hnd
    by (constructor; [intros [] | constructor]).
  destruct (add_to_cart_line (A := QAmount) sample_menu [] 7 2 ltac:(constructor))
    as [_ H0].
  destruct (add_to_cart_line (A := QAmount) sample_menu cart_of_10 7 1 Hnd) as [_ H1].
  specialize (H0 _ eq_refl). specialize (H1 _ eq_refl). cbv zeta in H0, H1.
  destruct H0 as [Hnew _]. destruct H1 as [_ [Hold [Hother _]]].
  split; [exact (Hnew eq_refl)|].
  split; [exact (Hold _ eq_refl)|].
  exact (Hother 8 ltac:(discriminate)).
Defined.

(** The customer of [restaurant_db] removes the soup; an anonymous request
    does not. *)
Lemma remove_from_cart_line_witness :
  cart_line (snd (remove_from_cart restaurant_db (Some 5) cart_of_10 7)) 7 = None
  /\ remove_from_cart restaurant_db None cart_of_10 7 = (unauthorized, cart_of_10).
Proof.
  assert (NoDup (map fst cart_of_10)) as Hnd
    by (constructor; [intros [] | constructor]).
  destruct (remove_from_cart_line (A := QAmount) restaurant_db (Some 5) cart_of_10 7 Hnd)
    as [_ H].
  destruct (remove_from_cart_line (A := QAmount) restaurant_db None cart_of_10 7 Hnd)
    as [H0 _].
  specialize (H 5 (mkUser (A := QAmount) 5 "Customer" 5%Q true) eq_refl eq_refl eq_refl).
  cbv zeta in H.
  split; [exact (proj1 H) | apply H0; left; reflexivity].
Defined.


(** The manager answers the first complaint of [complaints_db] with
    'Dismissed'. *)
Lemma process_complaint_decision_other_text_witness :
  exists db',
    process_complaint_decision complaints_db 100 1 (Some "Dismissed") (Some "")
    = Returned true db'
    /\ option_map c_status (get_complaint db' 1) = Some "Rejected"
    /\ warnings db' = [].
Proof.
  destruct (process_complaint_decision_other_text (A := QAmount) complaints_db
              100 1 "Dismissed" (Some "")
              (mkComplaint 1 5 2 None "The soup was cold" "Pending" None None None)
              eq_refl ltac:(discriminate) ltac:(discriminate))
    as [db' [Hrun [Hget [Hw _]]]].
  exists db'. split; [exact Hrun|]. split; [rewrite Hget; reflexivity | exact Hw].
Defined.

(** The manager sets the order of [orders_db] to Delivered: the first
    delivery of the customer. *)
Lemma update_order_status_delivered_witness :
  exists resp db',
    update_order_status orders_db (Some 1) 1 (Some "Delivered") = Returned resp db'
    /\ get_user_order_count db' 5 = 1
    /\ users db' = users orders_db.
Proof.
  destruct (update_order_status_delivered (A := QAmount) orders_db 1 1
              (mkUser (A := QAmount) 1 "Manager" 0%Q true)
              (mkOrder (A := QAmount) 1 5 None "Pending" 10%Q "Main St 1" "")
              eq_refl eq_refl eq_refl (or_introl eq_refl) ltac:(discriminate))
    as [resp [db' [before [after [Hrun [_ [Hu [_ [_ [Hcount _]]]]]]]]]].
  - constructor; [intros [] | constructor].
  - exists resp, db'. split; [exact Hrun|]. split; [exact Hcount | exact Hu].
Defined.

(** The manager of [restaurant_db] is the manager of [blacklisted_db]. *)
Lemma run_keeps_jobs_witness :
  exists u',
    get_user blacklisted_db 1 = Some u'
    /\ job u' = Some "Manager" /\ is_manager u' = true.
Proof.
  destruct (run_keeps_jobs (A := QAmount) restaurant_db
              (four_complaints ++ three_rejections)) as [_ [H _]].
  - cbn. repeat (constructor; [cbn; intuition discriminate|]). constructor.
  - exact (H 1 (mkUser (A := QAmount) 1 "Manager" 0%Q true) eq_refl).
Defined.

(** After [staff_day] nobody is warned or banned and the order has no
    delivery person. *)
Lemma run_without_manager_witness :
  warnings (run orders_db staff_day) = []
  /\ blacklist (run orders_db staff_day) = []
  /\ option_map o_delivery_person_id (get_order (run orders_db staff_day) 1)
     = Some None.
Proof.
  destruct (run_without_manager (A := QAmount) orders_db staff_day)
    as [H1 [H2 [_ [_ [_ H6]]]]].
  - cbn. repeat (constructor; [cbn; intuition discriminate|]). constructor.
  - intros r [<-|[<-|[<-|[]]]]; reflexivity.
  - split; [exact H1|]. split; [exact H2|].
    exact (H6 1 (mkOrder (A := QAmount) 1 5 None "Pending" 10%Q "Main St 1" "") eq_refl).
Defined.

(** The roles and statuses of [blacklisted_db] are listed ones. *)
Lemma run_keeps_columns_listed_witness : columns_listed blacklisted_db.
Proof.
  apply (run_keeps_columns_listed (A := QAmount) restaurant_db
           (four_complaints ++ three_rejections)).
  unfold columns_listed. cbn.
  repeat apply conj; repeat (constructor; [cbn; auto 10|]); constructor.
Defined.
